(** * Aevion Shield: consensus, verification pipeline and HITL gate

    A shallow embedding of the Cloudflare workers
    [vetproof-consensus.js], [vetproof-workflow.js], [proof-agent.js] and
    [regulation-tracker.js], and the properties of the halt discipline,
    the BFT quorum and the proof records that follow from the code.

    JavaScript numbers are IEEE-754 binary64 values and are modelled by
    Rocq's primitive floats, so that every comparison and every rounding
    is the one the workers perform.  Integer counters ([votes.length],
    verdict counts) stay in [Z] and are converted where the code divides.

    What the workers obtain from outside (replies of the models, clock
    readings, UUIDs, events delivered to a waiting workflow) is an input
    of the corresponding function; [JSON.stringify] and SHA-256 are
    section variables.  A store (R2 bucket, KV namespace, D1 table) is the
    list of its writes, the latest first.  A call that may throw returns a
    completion.  An object literal used as a table of counts is modelled
    with what it inherits from [Object.prototype] and with the order in
    which JavaScript enumerates its keys; the one choice that ECMAScript
    leaves to the engine, the order of an array sorted with a comparator
    that is not consistent, is a parameter of the functions that sort. *)

From Stdlib Require Import ZArith List String Bool Lia Permutation.
From Stdlib Require Import Floats.
Import ListNotations.

Set Warnings "-inexact-float,-register-all".

Local Open Scope string_scope.
Local Open Scope Z_scope.

(* ===================================================================== *)
(** * JavaScript numbers *)
(* ===================================================================== *)
Module JS.

Definition num := float.

(** An integer counter read as a number (exact below 2^53). *)
Definition of_Z (z : Z) : num := PrimFloat.of_uint63 (Uint63.of_Z z).

(** [a > b], [a >= b], [a < b]: false as soon as one side is NaN. *)
Definition gt (a b : num) : bool := PrimFloat.ltb b a.
Definition ge (a b : num) : bool := PrimFloat.leb b a.
Definition lt (a b : num) : bool := PrimFloat.ltb a b.

(** A number is falsy when it is [0], [-0] or [NaN]. *)
Definition falsy (x : num) : bool :=
  negb (PrimFloat.ltb x 0%float || PrimFloat.ltb 0%float x).

(** [x || d] where [x] is a number or [undefined]. *)
Definition or_num (x : option num) (d : num) : num :=
  match x with
  | Some v => if falsy v then d else v
  | None => d
  end.

(** [s || d] where [s] is a string or [undefined]. *)
Definition or_str (s : option string) (d : string) : string :=
  match s with
  | Some v => if String.eqb v "" then d else v
  | None => d
  end.

(** [Math.pow(x, 2)], the correctly rounded square. *)
Definition pow2 (x : num) : num := (x * x)%float.

(** [Math.max] and [Math.min]: NaN is contagious, and [+0] is larger
    than [-0]. *)
Definition is_nan (x : num) : bool := negb (PrimFloat.eqb x x).
Definition max (a b : num) : num :=
  if is_nan a then a else if is_nan b then b
  else if PrimFloat.ltb a b then b
  else if PrimFloat.ltb b a then a
  else if PrimFloat.eqb a 0%float then (a + b)%float else a.
Definition min (a b : num) : num :=
  if is_nan a then a else if is_nan b then b
  else if PrimFloat.ltb b a then b
  else if PrimFloat.ltb a b then a
  else if PrimFloat.eqb a 0%float then (- (- a + - b))%float else a.

(** ** Divisions, with the divisor recorded

    Code that divides is written in a writer monad whose log is the
    list, in program order, of the divisors of the [/] it evaluated. *)
Inductive divisor :=
| DivInt (z : Z)        (* an integer counter or constant *)
| DivNum (x : num).     (* an arbitrary number *)

Definition nonzero (d : divisor) : bool :=
  match d with
  | DivInt z => negb (z =? 0)
  | DivNum x => negb (PrimFloat.eqb x 0%float)
  end.

Definition Div (A : Type) : Type := (A * list divisor)%type.

Definition ret {A} (a : A) : Div A := (a, []).
Definition bind {A B} (m : Div A) (k : A -> Div B) : Div B :=
  let (b, l) := k (fst m) in (b, (snd m ++ l)%list).

Definition value {A} (m : Div A) : A := fst m.
Definition divisors {A} (m : Div A) : list divisor := snd m.

(** [a / n] for an integer [n]. *)
Definition div_int (a : num) (n : Z) : Div num :=
  ((a / of_Z n)%float, [DivInt n]).
(** [a / b]. *)
Definition div_num (a b : num) : Div num :=
  ((a / b)%float, [DivNum b]).
(** [Math.floor(a / n)] for integers [a >= 0] and [n > 0]. *)
Definition floor_div (a n : Z) : Div Z := (a / n, [DivInt n]).
(** [Math.ceil(a / n)] for integers [a >= 0] and [n > 0]. *)
Definition ceil_div (a n : Z) : Div Z := ((a + n - 1) / n, [DivInt n]).

(** ** Calls that may throw *)
(** What is thrown is recorded by its class; the message is the
    engine's. *)
Inductive exception := TypeError | Error.

Inductive completion (A : Type) : Type :=
| Returns (a : A)
| Throws (thrown : exception).

Arguments Returns {A} a.
Arguments Throws {A} thrown.

(** ** Numbers in JSON text

    [JSON.stringify] writes a number that is not finite as [null] and
    [-0] as [0]; every other number is read back as it was written. *)
Definition json_number (x : num) : option num :=
  if PrimFloat.is_finite x
  then Some (if PrimFloat.is_zero x then 0%float else x)
  else None.

End JS.

Declare Scope div_scope.
Delimit Scope div_scope with div.
Notation "'do' x <- m ;; k" := (JS.bind m (fun x => k))
  (at level 10, x name, m at level 100, k at level 200) : div_scope.

(* ===================================================================== *)
(** * Plain objects used as tables of counts *)
(* ===================================================================== *)
Module Obj.

(** The properties that an object literal inherits from
    [Object.prototype]. *)
Definition prototype_members : list string :=
  [ "constructor"; "__defineGetter__"; "__defineSetter__"; "hasOwnProperty";
    "__lookupGetter__"; "__lookupSetter__"; "isPrototypeOf";
    "propertyIsEnumerable"; "toString"; "valueOf"; "__proto__";
    "toLocaleString" ].

Definition inherited (k : string) : bool :=
  existsb (String.eqb k) prototype_members.

(** Array indices are the canonical decimal numerals of the integers
    from 0 to 2^32 - 2. *)
Definition digit (c : Ascii.ascii) : option Z :=
  let n := Z.of_nat (Ascii.nat_of_ascii c) in
  if (48 <=? n) && (n <=? 57) then Some (n - 48) else None.

Fixpoint numeral (s : string) (acc : Z) : option Z :=
  match s with
  | EmptyString => Some acc
  | String c rest =>
      match digit c with
      | Some d => numeral rest (10 * acc + d)
      | None => None
      end
  end.

Definition array_index (k : string) : option Z :=
  match k with
  | EmptyString => None
  | String c rest =>
      if Ascii.eqb c (Ascii.ascii_of_nat 48) && negb (String.eqb rest "") then None
      else
        match numeral k 0 with
        | Some n => if n <=? 4294967294 then Some n else None
        | None => None
        end
  end.

(** [k] is enumerated before [k'] wherever it was created: array indices
    come first, in ascending order. *)
Definition before (k k' : string) : bool :=
  match array_index k, array_index k' with
  | Some i, Some i' => i <? i'
  | Some _, None => true
  | None, _ => false
  end.

Section Table.

(** The numbers that are added up: counts or weights. *)
Variable N : Type.

(** The value of a property: a number, or the text that results when a
    number is added to an inherited member, which is the text of that
    member followed by the numbers added since. *)
Inductive value :=
| Num (n : N)
| Text (member : string) (added : list N).

(** The own properties of the object, in the order in which
    [Object.entries] and [JSON.stringify] enumerate them: array indices in
    ascending order, then the other keys in the order of their creation. *)
Definition t := list (string * value).

Fixpoint own (k : string) (o : t) : option value :=
  match o with
  | [] => None
  | (k', v) :: rest => if String.eqb k' k then Some v else own k rest
  end.

Fixpoint update (k : string) (v : value) (o : t) : t :=
  match o with
  | [] => []
  | (k', v') :: rest =>
      if String.eqb k' k then (k', v) :: rest else (k', v') :: update k v rest
  end.

Fixpoint create (k : string) (v : value) (o : t) : t :=
  match o with
  | [] => [(k, v)]
  | (k', v') :: rest =>
      if before k k' then (k, v) :: (k', v') :: rest
      else (k', v') :: create k v rest
  end.

(** [o[k] = v] for a key that is not [__proto__]. *)
Definition set (k : string) (v : value) (o : t) : t :=
  match own k o with
  | Some _ => update k v o
  | None => create k v o
  end.

(** [x || 0] and [x + y] on numbers, and the number [0]. *)
Variable or_zero : N -> N.
Variable plus : N -> N -> N.
Variable zero : N.

(** [o[k] = (o[k] || 0) + w].  A key that the object does not own is read
    from [Object.prototype]: a member found there is truthy, and adding a
    number to it gives a text.  Under [__proto__] the assignment of that
    text is ignored. *)
Definition bump (k : string) (w : N) (o : t) : t :=
  match own k o with
  | Some (Num c) => set k (Num (plus (or_zero c) w)) o
  | Some (Text m ws) => set k (Text m (ws ++ [w])) o
  | None =>
      if String.eqb k "__proto__" then o
      else if inherited k then set k (Text k [w]) o
      else set k (Num (plus zero w)) o
  end.

End Table.

Arguments Num {N} n.
Arguments Text {N} member added.
Arguments own {N} k o.
Arguments update {N} k v o.
Arguments create {N} k v o.
Arguments set {N} k v o.
Arguments bump {N} or_zero plus zero k w o.

End Obj.

(* ===================================================================== *)
(** * vetproof-consensus.js: the Shield Consensus Durable Object *)
(* ===================================================================== *)
Module Consensus.

(** A row of the [votes] table. *)
Record vote_row := {
  model_id : string;
  verdict : string;
  confidence : JS.num;
  coherence_score : JS.num;
  reasoning : string;
  timestamp : string          (* DEFAULT (datetime('now')) *)
}.

(** The [vote] object of a request. *)
Record vote := {
  v_verdict : string;
  v_confidence : JS.num;
  v_coherence_score : JS.num;
  v_reasoning : option string
}.

Inductive status := CONSENSUS | DISAGREEMENT.

Record snapshot := {
  s_status : status;
  s_verdict : string;
  agreement_pct : JS.num;
  bft_threshold : JS.num;
  avg_confidence : JS.num;
  avg_coherence : JS.num;
  confidence_std_dev : JS.num;
  halt_triggered : bool;
  total_votes : Z;
  fault_tolerance : Z;
  verdict_distribution : Obj.t Z;
  s_timestamp : string
}.

(** What [calculateConsensus] returns: [{status: 'PENDING', reason}] or
    a full snapshot. *)
Inductive consensus :=
| Pending (reason : string)
| Computed (s : snapshot).

(** ** The [votes] table

    Rows are kept in rowid order.  [INSERT OR REPLACE] deletes the row
    that holds the primary key, if any, and appends the new one. *)
Definition table := list vote_row.

Definition insert_or_replace (r : vote_row) (t : table) : table :=
  (filter (fun x => negb (String.eqb (model_id x) (model_id r))) t ++ [r])%list.

(** [SELECT * FROM votes ORDER BY confidence DESC]: rows of equal
    confidence stay in rowid order. *)
Fixpoint insert_by_confidence (r : vote_row) (l : list vote_row) : list vote_row :=
  match l with
  | [] => [r]
  | x :: rest =>
      if PrimFloat.leb (confidence x) (confidence r) then r :: x :: rest
      else x :: insert_by_confidence r rest
  end.

Definition select_order_by_confidence_desc (t : table) : list vote_row :=
  fold_right insert_by_confidence [] t.

(** ** The Durable Object, the request and the bindings *)

(** The Durable Object of one claim: the [votes] table and the
    ['consensus'] row of the [state] table. *)
Record durable_object := {
  votes : table;
  state_consensus : option consensus
}.

Definition fresh : durable_object :=
  {| votes := []; state_consensus := None |}.

Record vote_result := {
  vote_accepted : bool;
  r_total_votes : Z;
  r_consensus : consensus;
  r_votes : list vote_row
}.

Record vote_request := {
  req_method : string;
  req_claim_id : option string;
  req_model_id : option string;
  req_vote : option vote
}.

(** What is archived under [proofs/<claim_id>.json] on consensus. *)
Record archived := {
  a_claim_id : string;
  a_consensus : consensus;
  a_votes : list vote_row;
  archived_at : string
}.

Record audit_row := {
  proof_id : string;
  claim_data : string * vote;           (* { model_id, vote } *)
  verification_result : consensus
}.

(** The bindings of the worker.  A store that is not bound is [None];
    a bound store lists its writes, the latest first. *)
Record env := {
  SHIELD_CONSENSUS : string -> durable_object;     (* idFromName *)
  PROOF_STORAGE : option (list (string * archived));
  VERIFICATION_CACHE : option (list (string * consensus));
  AUDIT_DB : option (list audit_row)
}.

(** The answers of the handler; the body of a 500 is the message of what
    was thrown. *)
Inductive response :=
| Status405 (error : string)
| Status400 (error : string)
| Status500
| Status200 (result : vote_result).

Definition put {A} (k : string) (v : A) (store : option (list (string * A)))
  : option (list (string * A)) :=
  option_map (cons (k, v)) store.

Definition set_object (name : string) (d : durable_object)
    (ns : string -> durable_object) : string -> durable_object :=
  fun k => if String.eqb k name then d else ns k.

Definition truthy_str (s : option string) : bool :=
  match s with Some v => negb (String.eqb v "") | None => false end.


Definition is_consensus (c : consensus) : bool :=
  match c with
  | Computed s => match s_status s with CONSENSUS => true | _ => false end
  | Pending _ => false
  end.

(** The vote as the Durable Object reads it from the body
    [JSON.stringify({ model_id, vote })]: a confidence or coherence that
    is not finite has become [null], which the [NOT NULL] columns of the
    [votes] table refuse. *)
Definition wire (v : vote) : option vote :=
  match JS.json_number (v_confidence v), JS.json_number (v_coherence_score v) with
  | Some c, Some h =>
      Some {| v_verdict := v_verdict v;
              v_confidence := c;
              v_coherence_score := h;
              v_reasoning := v_reasoning v |}
  | _, _ => None
  end.

(** ** [calculateConsensus] *)

(** [x || 0] on a count. *)
Definition or_zero (c : Z) : Z := if c =? 0 then 0 else c.

(** [verdictCounts[k] = (verdictCounts[k] || 0) + 1] on the object
    literal [{}]. *)
Definition bump (k : string) (counts : Obj.t Z) : Obj.t Z :=
  Obj.bump or_zero Z.add 0 k 1 counts.

(** The [for (const vote of votes)] loop: counts and running totals. *)
Definition tally (votes : list vote_row)
  : Obj.t Z * JS.num * JS.num :=
  fold_left
    (fun '(counts, totalConfidence, totalCoherence) vote =>
       (bump (verdict vote) counts,
        (totalConfidence + confidence vote)%float,
        (totalCoherence + coherence_score vote)%float))
    votes ([], 0%float, 0%float).

Definition verdictCounts (votes : list vote_row) : Obj.t Z :=
  fst (fst (tally votes)).

(** A count read as a number: a text that starts with the source of a
    function is [NaN]. *)
Definition to_number (v : Obj.value Z) : JS.num :=
  match v with
  | Obj.Num c => JS.of_Z c
  | Obj.Text _ _ => PrimFloat.nan
  end.

Definition is_num (e : string * Obj.value Z) : bool :=
  match snd e with Obj.Num _ => true | Obj.Text _ _ => false end.

(** [.sort(([, a], [, b]) => b - a)].  The comparator puts the larger
    count first; where one of the two is a text the difference is [NaN],
    which the sort reads as "equal".  [not_after e x] says that the
    comparator does not put [x] before [e]. *)
Definition not_after (e x : string * Obj.value Z) : bool :=
  match snd e, snd x with
  | Obj.Num a, Obj.Num b => b <=? a
  | _, _ => true
  end.

Fixpoint insert_by_count (e : string * Obj.value Z)
    (l : list (string * Obj.value Z)) : list (string * Obj.value Z) :=
  match l with
  | [] => [e]
  | x :: rest =>
      if not_after e x then e :: x :: rest
      else x :: insert_by_count e rest
  end.

(** The comparator is consistent when no count is a text, or when the
    counts that are numbers are all equal (every entry then compares
    equal to every other). *)
Fixpoint numbers (l : list (string * Obj.value Z)) : list Z :=
  match l with
  | [] => []
  | (_, Obj.Num c) :: rest => c :: numbers rest
  | (_, Obj.Text _ _) :: rest => numbers rest
  end.

Definition all_equal (l : list Z) : bool :=
  match l with
  | [] => true
  | c :: rest => forallb (Z.eqb c) rest
  end.

Definition consistent (l : list (string * Obj.value Z)) : bool :=
  forallb is_num l || all_equal (numbers l).

(** The stable sort, which is the order of the sorted array when the
    comparator is consistent. *)
Definition sort_by_count (l : list (string * Obj.value Z))
  : list (string * Obj.value Z) :=
  fold_right insert_by_count [] l.

Section Engine.

(** With a comparator that is not consistent ECMAScript leaves the order
    of the sorted array to the engine.  [engine l] is the position, in
    [l], of the entry that the engine's sort moves to the front. *)
Variable engine : list (string * Obj.value Z) -> nat.

(** [l.sort(...)[0]], [undefined] for the empty array. *)
Definition first_by_count (l : list (string * Obj.value Z))
  : option (string * Obj.value Z) :=
  if consistent l then hd_error (sort_by_count l)
  else nth_error l (Nat.modulo (engine l) (List.length l)).

(** [Object.entries(verdictCounts).sort(...)[0]]. *)
Definition majority (counts : Obj.t Z) : option (string * Obj.value Z) :=
  first_by_count counts.

Definition majorityCount (votes : list vote_row) : option (Obj.value Z) :=
  option_map snd (majority (verdictCounts votes)).

(** Reading [majorityVerdict[1]] of [undefined] throws a [TypeError]. *)
Definition calculateConsensus (now : string) (votes : list vote_row)
  : JS.Div (JS.completion consensus) :=
  match votes with
  | [] => JS.ret (JS.Returns (Pending "No votes yet"))
  | _ =>
    let n := Z.of_nat (List.length votes) in
    (do f <- JS.floor_div (n - 1) 3 ;;
     let '(verdictCounts, totalConfidence, totalCoherence) := tally votes in
     match majority verdictCounts with
     | None => JS.ret (JS.Throws JS.TypeError)
     | Some majorityVerdict =>
     let majorityCount := snd majorityVerdict in
     do majorityPct <- JS.div_int (to_number majorityCount) n ;;
     do bftThreshold <- JS.div_int (JS.of_Z (2 * n + 2)) (3 * n) ;;
     let hasConsensus := JS.ge majorityPct bftThreshold in
     do avgConfidence <- JS.div_int totalConfidence n ;;
     do avgCoherence <- JS.div_int totalCoherence n ;;
     do confidenceVariance <-
       JS.div_int
         (fold_left
            (fun sum v => (sum + JS.pow2 (confidence v - avgConfidence))%float)
            votes 0%float)
         n ;;
     let confidenceStdDev := PrimFloat.sqrt confidenceVariance in
     let haltTriggered := JS.gt confidenceStdDev 0.25%float in
     JS.ret (JS.Returns (Computed {|
       s_status := if hasConsensus then CONSENSUS else DISAGREEMENT;
       s_verdict := fst majorityVerdict;
       agreement_pct := majorityPct;
       bft_threshold := bftThreshold;
       avg_confidence := avgConfidence;
       avg_coherence := avgCoherence;
       confidence_std_dev := confidenceStdDev;
       halt_triggered := haltTriggered;
       total_votes := n;
       fault_tolerance := f;
       verdict_distribution := verdictCounts;
       s_timestamp := now |}))
     end)%div
  end.

(** ** [submitVote] *)

(** [sql_now] is the reading of [datetime('now')] for the inserted row,
    [iso_now] the one of [new Date().toISOString()].  When
    [calculateConsensus] throws, the vote is in the table and the
    ['consensus'] row is the one of before. *)
Definition submitVote (sql_now iso_now : string) (modelId : string)
    (vote : vote) (d : durable_object)
  : JS.completion vote_result * durable_object :=
  let row := {| model_id := modelId;
                verdict := v_verdict vote;
                confidence := v_confidence vote;
                coherence_score := v_coherence_score vote;
                reasoning := JS.or_str (v_reasoning vote) "";
                timestamp := sql_now |} in
  let stored := insert_or_replace row (votes d) in
  let allVotes := select_order_by_confidence_desc stored in
  match JS.value (calculateConsensus iso_now allVotes) with
  | JS.Throws thrown =>
      (JS.Throws thrown,
       {| votes := stored; state_consensus := state_consensus d |})
  | JS.Returns consensus =>
      (JS.Returns {| vote_accepted := true;
                     r_total_votes := Z.of_nat (List.length allVotes);
                     r_consensus := consensus;
                     r_votes := allVotes |},
       {| votes := stored; state_consensus := Some consensus |})
  end.

(** ** [handleConsensusVote]

    The worker hands the vote to the Durable Object of the claim and, on
    consensus, archives the result.  [audit_throws] says whether the
    database bound as [AUDIT_DB] refuses the insert into
    [verification_proofs] (its table is created outside this worker).
    Whatever is thrown on the way is caught by the worker's [fetch] and
    answered with status 500. *)
Definition handleConsensusVote (sql_now iso_now : string)
    (audit_throws : bool) (request : vote_request) (e : env)
  : response * env :=
  if negb (String.eqb (req_method request) "POST") then
    (Status405 "POST required", e)
  else
    match req_claim_id request, req_model_id request, req_vote request with
    | Some claim_id, Some model_id, Some vote =>
        if negb (truthy_str (Some claim_id)) || negb (truthy_str (Some model_id))
        then (Status400 "claim_id, model_id, and vote object required", e)
        else
          match wire vote with
          | None => (Status500, e)
          | Some sent =>
              let (completion, d) :=
                submitVote sql_now iso_now model_id sent
                           (SHIELD_CONSENSUS e claim_id) in
              let objects := set_object claim_id d (SHIELD_CONSENSUS e) in
              match completion with
              | JS.Throws _ =>
                  (Status500,
                   {| SHIELD_CONSENSUS := objects;
                      PROOF_STORAGE := PROOF_STORAGE e;
                      VERIFICATION_CACHE := VERIFICATION_CACHE e;
                      AUDIT_DB := AUDIT_DB e |})
              | JS.Returns result =>
                  if is_consensus (r_consensus result) then
                    let archive :=
                      put ("proofs/" ++ claim_id ++ ".json")
                          {| a_claim_id := claim_id;
                             a_consensus := r_consensus result;
                             a_votes := r_votes result;
                             archived_at := iso_now |}
                          (PROOF_STORAGE e) in
                    let cache :=
                      put claim_id (r_consensus result) (VERIFICATION_CACHE e) in
                    match AUDIT_DB e with
                    | Some rows =>
                        if audit_throws then
                          (Status500,
                           {| SHIELD_CONSENSUS := objects;
                              PROOF_STORAGE := archive;
                              VERIFICATION_CACHE := cache;
                              AUDIT_DB := Some rows |})
                        else
                          (Status200 result,
                           {| SHIELD_CONSENSUS := objects;
                              PROOF_STORAGE := archive;
                              VERIFICATION_CACHE := cache;
                              AUDIT_DB :=
                                Some ({| proof_id := claim_id;
                                         claim_data := (model_id, sent);
                                         verification_result :=
                                           r_consensus result |} :: rows) |})
                    | None =>
                        (Status200 result,
                         {| SHIELD_CONSENSUS := objects;
                            PROOF_STORAGE := archive;
                            VERIFICATION_CACHE := cache;
                            AUDIT_DB := None |})
                    end
                  else
                    (Status200 result,
                     {| SHIELD_CONSENSUS := objects;
                        PROOF_STORAGE := PROOF_STORAGE e;
                        VERIFICATION_CACHE := VERIFICATION_CACHE e;
                        AUDIT_DB := AUDIT_DB e |})
              end
          end
    | _, _, _ => (Status400 "claim_id, model_id, and vote object required", e)
    end.

End Engine.

End Consensus.

(* ===================================================================== *)
(** * JSON values *)
(* ===================================================================== *)
Module Json.

(** The objects the workers build and serialize.  An object lists its
    own properties in insertion order. *)
Inductive t :=
| Undefined
| Null
| Bool (b : bool)
| Num (x : JS.num)
| Int (z : Z)
| Str (s : string)
| Arr (items : list t)
| Obj (fields : list (string * t)).

Fixpoint lookup (k : string) (fields : list (string * t)) : option t :=
  match fields with
  | [] => None
  | (k', v) :: rest => if String.eqb k' k then Some v else lookup k rest
  end.

(** [o.k]: the property, [None] when the object has no such key. *)
Definition get (k : string) (o : t) : option t :=
  match o with
  | Obj fields => lookup k fields
  | _ => None
  end.

Fixpoint assign (k : string) (v : t) (fields : list (string * t))
  : list (string * t) :=
  match fields with
  | [] => [(k, v)]
  | (k', v') :: rest =>
      if String.eqb k' k then (k', v) :: rest else (k', v') :: assign k v rest
  end.

(** [o.k = v]. *)
Definition set (k : string) (v : t) (o : t) : t :=
  match o with
  | Obj fields => Obj (assign k v fields)
  | _ => o
  end.

Definition of_opt_bool (b : option bool) : t :=
  match b with Some b => Bool b | None => Undefined end.
Definition of_opt_num (x : option JS.num) : t :=
  match x with Some x => Num x | None => Undefined end.

End Json.

(* ===================================================================== *)
(** * vetproof-workflow.js: the durable verification pipeline *)
(* ===================================================================== *)
Module Workflow.

Record model := { id : string; name : string; weight : JS.num }.

Definition llama : model :=
  {| id := "@cf/meta/llama-3.1-8b-instruct"; name := "llama-3.1-8b";
     weight := 1.0%float |}.
Definition qwen : model :=
  {| id := "@cf/qwen/qwen1.5-14b-chat-awq"; name := "qwen-14b";
     weight := 1.2%float |}.

Definition models : list model := [llama; qwen].

(** The JSON object parsed from a model's reply, as far as the step
    reads it; a property that is absent is [None]. *)
Record parsed := {
  p_verdict : option string;
  p_confidence : option JS.num;
  p_cfr_sections : Json.t;
  p_nexus_strength : Json.t
}.

(** One entry of [Promise.allSettled]: the call was rejected, or it was
    fulfilled with [parsed] possibly [null]. *)
Inductive settled :=
| Rejected
| Fulfilled (parsed : option parsed).

Record model_vote := {
  mv_model : string;
  mv_weight : JS.num;
  mv_parsed : parsed
}.

Record vote_summary := {
  vs_model : string;
  vs_verdict : option string;
  vs_confidence : option JS.num;
  vs_cfr_sections : Json.t;
  vs_nexus_strength : Json.t
}.

Record aggregate := {
  consensus : string;
  consensus_reached : bool;
  agreement_ratio : JS.num;
  bft_threshold : JS.num;
  weighted_confidence : JS.num;
  confidence_std_dev : JS.num;
  constitutional_halt : bool;
  votes : list vote_summary;
  failed_models : Z;
  verified_at : string
}.

(** The two shapes the verify step returns. *)
Inductive verification :=
| NoQuorum (failed : Z) (at_ : string)   (* consensus: 'NO_QUORUM', votes: [] *)
| Aggregated (a : aggregate).

(** [votes.filter(v => v.status === 'fulfilled' && v.value.parsed)]. *)
Fixpoint successful (ms : list model) (rs : list settled) : list model_vote :=
  match ms, rs with
  | m :: ms', Fulfilled (Some p) :: rs' =>
      {| mv_model := name m; mv_weight := weight m; mv_parsed := p |}
      :: successful ms' rs'
  | _ :: ms', _ :: rs' => successful ms' rs'
  | _, _ => []
  end.

(** [votes.filter(v => v.status === 'rejected' || !v.value?.parsed).length]. *)
Definition failed_count (rs : list settled) : Z :=
  Z.of_nat (List.length
    (filter (fun r => match r with Fulfilled (Some _) => false | _ => true end) rs)).

(** [verdictCounts[v] = (verdictCounts[v] || 0) + w] on the object
    literal [{}]. *)
Definition bump (k : string) (w : JS.num) (counts : Obj.t JS.num)
  : Obj.t JS.num :=
  Obj.bump (fun c => JS.or_num (Some c) 0%float) PrimFloat.add
           (JS.or_num None 0%float) k w counts.

(** The [for (const vote of successfulVotes)] loop. *)
Definition tally (vs : list model_vote)
  : JS.num * JS.num * Obj.t JS.num :=
  fold_left
    (fun '(totalWeight, weightedConfidence, verdictCounts) vote =>
       let w := mv_weight vote in
       ((totalWeight + w)%float,
        (weightedConfidence + JS.or_num (p_confidence (mv_parsed vote)) 0%float * w)%float,
        bump (JS.or_str (p_verdict (mv_parsed vote)) "UNKNOWN") w verdictCounts))
    vs (0%float, 0%float, []).

(** [weight > maxWeight]: a weight that is a text reads as [NaN]. *)
Definition heavier (weight : Obj.value JS.num) (maxWeight : JS.num) : option JS.num :=
  match weight with
  | Obj.Num x => if JS.gt x maxWeight then Some x else None
  | Obj.Text _ _ => None
  end.

(** The [for (const [verdict, weight] of Object.entries(verdictCounts))] loop. *)
Definition majority (counts : Obj.t JS.num) : string * JS.num :=
  fold_left
    (fun '(majorityVerdict, maxWeight) '(verdict, weight) =>
       match heavier weight maxWeight with
       | Some x => (verdict, x)
       | None => (majorityVerdict, maxWeight)
       end)
    counts ("NO_CONSENSUS", 0%float).

Definition sum (l : list JS.num) : JS.num :=
  fold_left (fun a b => (a + b)%float) l 0%float.

(** The aggregation of the verify step, from [successfulVotes] on. *)
Definition aggregate_votes (successfulVotes : list model_vote)
    (failedVotes : Z) (now : string) : JS.Div verification :=
  match successfulVotes with
  | [] => JS.ret (NoQuorum failedVotes now)
  | _ =>
    let '(totalWeight, weightedConfidence, verdictCounts) := tally successfulVotes in
    (do avgConfidence <-
        (if JS.gt totalWeight 0%float then JS.div_num weightedConfidence totalWeight
         else JS.ret 0%float) ;;
     let '(majorityVerdict, maxWeight) := majority verdictCounts in
     do agreementRatio <- JS.div_num maxWeight totalWeight ;;
     do bftThreshold <- JS.div_int 2%float 3 ;;
     let consensusReached := JS.ge agreementRatio bftThreshold in
     let confidences :=
       map (fun v => JS.or_num (p_confidence (mv_parsed v)) 0%float) successfulVotes in
     let len := Z.of_nat (List.length confidences) in
     do mean <- JS.div_int (sum confidences) len ;;
     do variance <-
        JS.div_int
          (fold_left (fun sum c => (sum + JS.pow2 (c - mean))%float)
                     confidences 0%float)
          len ;;
     let stdDev := PrimFloat.sqrt variance in
     let constitutionalHalt := JS.gt stdDev 0.25%float in
     JS.ret (Aggregated {|
       consensus := if consensusReached then majorityVerdict else "NO_CONSENSUS";
       consensus_reached := consensusReached;
       agreement_ratio := agreementRatio;
       bft_threshold := bftThreshold;
       weighted_confidence := avgConfidence;
       confidence_std_dev := stdDev;
       constitutional_halt := constitutionalHalt;
       votes :=
         map (fun v => {| vs_model := mv_model v;
                          vs_verdict := p_verdict (mv_parsed v);
                          vs_confidence := p_confidence (mv_parsed v);
                          vs_cfr_sections := p_cfr_sections (mv_parsed v);
                          vs_nexus_strength := p_nexus_strength (mv_parsed v) |})
             successfulVotes;
       failed_models := failedVotes;
       verified_at := now |}))%div
  end.

(** Step 4, [shield-consensus-verify]: [reply] is what
    [Promise.allSettled] holds for each of the configured models. *)
Definition verify (reply : model -> settled) (now : string)
  : JS.Div verification :=
  let votes := map reply models in
  aggregate_votes (successful models votes) (failed_count votes) now.

(** ** Step 5, [hallucination-detect] *)

(** Property reads on the verify step's result; [None] is [undefined]. *)
Definition get_consensus (v : verification) : string :=
  match v with NoQuorum _ _ => "NO_QUORUM" | Aggregated a => consensus a end.
Definition get_constitutional_halt (v : verification) : option bool :=
  match v with NoQuorum _ _ => None | Aggregated a => Some (constitutional_halt a) end.
Definition get_consensus_reached (v : verification) : option bool :=
  match v with NoQuorum _ _ => None | Aggregated a => Some (consensus_reached a) end.
Definition get_weighted_confidence (v : verification) : option JS.num :=
  match v with NoQuorum _ _ => None | Aggregated a => Some (weighted_confidence a) end.
Definition get_confidence_std_dev (v : verification) : option JS.num :=
  match v with NoQuorum _ _ => None | Aggregated a => Some (confidence_std_dev a) end.
Definition get_agreement_ratio (v : verification) : option JS.num :=
  match v with NoQuorum _ _ => None | Aggregated a => Some (agreement_ratio a) end.
Definition get_votes_length (v : verification) : Z :=
  match v with NoQuorum _ _ => 0 | Aggregated a => Z.of_nat (List.length (votes a)) end.

(** Truthiness of a boolean that may be [undefined]. *)
Definition truthy (b : option bool) : bool :=
  match b with Some true => true | _ => false end.

(** [x < c] and [x > c] where [x] may be [undefined] (then NaN). *)
Definition opt_lt (x : option JS.num) (c : JS.num) : bool :=
  match x with Some x => JS.lt x c | None => false end.
Definition opt_gt (x : option JS.num) (c : JS.num) : bool :=
  match x with Some x => JS.gt x c | None => false end.

Record checks := {
  confidence_anomaly : option bool;
  no_consensus : bool;
  low_confidence : bool;
  high_disagreement : bool;
  low_evidence_match : bool
}.

Record detection := {
  d_checks : checks;
  flag_count : Z;
  trust_score : JS.num;
  halt_required : option bool;
  detected_at : string
}.

Definition count_true (l : list bool) : Z :=
  Z.of_nat (List.length (filter (fun b => b) l)).

Definition detect (verification : verification) (similarity : JS.num)
    (now : string) : detection :=
  let checks := {|
    confidence_anomaly := get_constitutional_halt verification;
    no_consensus := negb (truthy (get_consensus_reached verification));
    low_confidence := opt_lt (get_weighted_confidence verification) 0.5%float;
    high_disagreement := opt_gt (get_confidence_std_dev verification) 0.3%float;
    low_evidence_match := JS.lt similarity 0.4%float |} in
  let flagCount :=
    count_true [truthy (confidence_anomaly checks); no_consensus checks;
                low_confidence checks; high_disagreement checks;
                low_evidence_match checks] in
  let trustScore := JS.max 0%float (1.0 - JS.of_Z flagCount * 0.2)%float in
  {| d_checks := checks;
     flag_count := flagCount;
     trust_score := trustScore;
     (* flagCount >= 3 || verification.constitutional_halt *)
     halt_required :=
       if 3 <=? flagCount then Some true
       else get_constitutional_halt verification;
     detected_at := now |}.

(** ** Step 6, [sign-and-archive] *)

Record sanitized := {
  has_pii : Json.t;
  pii_types : Json.t;
  original_hash : string
}.

(** An object of the R2 bucket: the bundle that was serialized into it
    and, of its custom metadata, the claim id and the verdict. *)
Record stored := {
  body : Json.t;
  meta_claim_id : string;
  meta_verdict : Json.t
}.

Record audit_event := {
  event_type : string;
  entity_id : string;
  details : Json.t
}.

Record env := {
  PROOF_STORAGE : option (list (string * stored));
  AUDIT_DB : option (list audit_event);
  VERIFICATION_CACHE : option (list (string * Json.t))
}.

(** What the outside world contributes to one run: the replies of the
    models, the outputs of the AI-backed steps, the clock readings, and
    whether the audit insert throws. *)
Record world := {
  w_sanitized : sanitized;
  w_similarity : JS.num;                  (* claim_evidence_similarity *)
  w_similar_claims : Z;                   (* similar_claims.length *)
  w_reply : model -> settled;
  w_verified_at : string;
  w_detected_at : string;
  w_timestamp : string;
  w_duration_ms : Z;
  w_audit_throws : bool
}.

Definition verdict_of (b : Json.t) : option Json.t := Json.get "verdict" b.

Section Sign.

(** [JSON.stringify] and the hex SHA-256 digest of a string. *)
Variable stringify : Json.t -> string.
Variable sha256 : string -> string.

Definition proofBundle (claim_id : string) (w : world)
    (verification : verification) (detection : detection) : Json.t :=
  Json.Obj [
    ("claim_id", Json.Str claim_id);
    ("pipeline_version", Json.Str "2.0.0");
    ("steps", Json.Obj [
       ("sanitize", Json.Obj [
          ("has_pii", has_pii (w_sanitized w));
          ("pii_types", pii_types (w_sanitized w));
          ("original_hash", Json.Str (original_hash (w_sanitized w)))]);
       ("embed", Json.Obj [
          ("similarity", Json.Num (w_similarity w));
          ("vectors_stored", Json.Bool true)]);
       ("search", Json.Obj [
          ("similar_claims_found", Json.Int (w_similar_claims w))]);
       ("verify", Json.Obj [
          ("consensus", Json.Str (get_consensus verification));
          ("confidence", Json.of_opt_num (get_weighted_confidence verification));
          ("agreement_ratio", Json.of_opt_num (get_agreement_ratio verification));
          ("constitutional_halt",
             Json.of_opt_bool (get_constitutional_halt verification));
          ("model_count", Json.Int (get_votes_length verification))]);
       ("detect", Json.Obj [
          ("trust_score", Json.Num (trust_score detection));
          ("halt_required", Json.of_opt_bool (halt_required detection));
          ("flags", Json.Int (flag_count detection))])]);
    ("verdict",
       if truthy (halt_required detection) then Json.Str "HALTED_FOR_REVIEW"
       else Json.Str (get_consensus verification));
    ("final_confidence",
       if truthy (halt_required detection) then Json.Num 0%float
       else Json.of_opt_num (get_weighted_confidence verification));
    ("trust_score", Json.Num (trust_score detection));
    ("timestamp", Json.Str (w_timestamp w));
    ("duration_ms", Json.Int (w_duration_ms w)) ].

Definition proof_key (claim_id proofHash : string) : string :=
  "proofs/" ++ claim_id ++ "/" ++ proofHash ++ ".json".

Definition sign (claim_id : string) (w : world)
    (verification : verification) (detection : detection) (e : env)
  : Json.t * env :=
  let bundle := proofBundle claim_id w verification detection in
  let proofHash := sha256 (stringify bundle) in
  let bundle := Json.set "proof_hash" (Json.Str proofHash) bundle in
  let verdict := match verdict_of bundle with Some v => v | None => Json.Undefined end in
  (bundle,
   {| PROOF_STORAGE :=
        option_map
          (cons (proof_key claim_id proofHash,
                 {| body := bundle; meta_claim_id := claim_id;
                    meta_verdict := verdict |}))
          (PROOF_STORAGE e);
      AUDIT_DB :=
        if w_audit_throws w then AUDIT_DB e
        else
          option_map
            (cons {| event_type := "WORKFLOW_COMPLETE";
                     entity_id := claim_id;
                     details := Json.Obj [
                       ("verdict", verdict);
                       ("confidence",
                          match Json.get "final_confidence" bundle with
                          | Some c => c | None => Json.Undefined end);
                       ("trust_score", Json.Num (trust_score detection));
                       ("duration_ms", Json.Int (w_duration_ms w));
                       ("proof_hash", Json.Str proofHash)] |})
            (AUDIT_DB e);
      VERIFICATION_CACHE :=
        option_map (cons ("proof:" ++ claim_id, bundle)) (VERIFICATION_CACHE e) |}).

(** [VetProofPipeline.run], from the verify step on; the result is the
    workflow's output and the bindings after the run. *)
Definition run (claim_id : string) (w : world) (e : env) : Json.t * env :=
  let verification := JS.value (verify (w_reply w) (w_verified_at w)) in
  let detection := detect verification (w_similarity w) (w_detected_at w) in
  sign claim_id w verification detection e.

End Sign.

End Workflow.

(* ===================================================================== *)
(** * vetproof-consensus.js: the queue consumer's sign stage *)
(* ===================================================================== *)
Module Queue.

Record env := {
  PROOF_STORAGE : option (list (string * Json.t));
  VERIFICATION_CACHE : option (list (string * Json.t))
}.

Section ProcessSign.

Variable stringify : Json.t -> string.
Variable sha256 : string -> string.

Definition proofHash (claimId : string) (payload : Json.t) (now : string)
  : string :=
  sha256 (stringify (Json.Obj [
    ("claim_id", Json.Str claimId);
    ("payload", payload);
    ("signed_at", Json.Str now)])).

Definition proofRecord (claimId : string) (payload : Json.t)
    (signed_at stored_at : string) : Json.t :=
  Json.Obj [
    ("claim_id", Json.Str claimId);
    ("proof_hash", Json.Str (proofHash claimId payload signed_at));
    ("pipeline_complete", Json.Bool true);
    ("stages_completed",
       Json.Arr [Json.Str "SANITIZE"; Json.Str "GENERATE"; Json.Str "VERIFY";
                 Json.Str "DETECT"; Json.Str "SIGN"]);
    ("final_payload", payload);
    ("signed_at", Json.Str stored_at) ].

(** [signed_at], [stored_at] and [cached_at] are the three successive
    readings of the clock. *)
Definition processSign (claimId : string) (payload : Json.t)
    (signed_at stored_at cached_at : string) (e : env) : env :=
  {| PROOF_STORAGE :=
       option_map
         (cons ("proofs/" ++ claimId ++ ".json",
                proofRecord claimId payload signed_at stored_at))
         (PROOF_STORAGE e);
     VERIFICATION_CACHE :=
       option_map
         (cons (claimId,
                Json.Obj [
                  ("status", Json.Str "COMPLETE");
                  ("proof_hash", Json.Str (proofHash claimId payload signed_at));
                  ("completed_at", Json.Str cached_at)]))
         (VERIFICATION_CACHE e) |}.

End ProcessSign.

End Queue.

(* ===================================================================== *)
(** * proof-agent.js: [ProofAgent.verifyClaimInternal] *)
(* ===================================================================== *)
Module ProofAgent.

(** What one model contributes: the call threw, its reply held no JSON,
    or it parsed; [parsed_confidence] is [parseFloat(parsed.confidence)],
    NaN when the property is not numeric. *)
Inductive reply :=
| Threw (message : string)
| NoJson
| Parsed (parsed_verdict : option string) (parsed_confidence : JS.num)
         (parsed_reasoning : option string).

Record vote := {
  model : string;
  verdict : string;
  confidence : JS.num;
  reasoning : string
}.

(** The [for (const model of models)] loop. *)
Fixpoint collect (models : list string) (ask : string -> reply) : list vote :=
  match models with
  | [] => []
  | m :: rest =>
      match ask m with
      | Parsed v c r =>
          {| model := m;
             verdict := JS.or_str v "UNVERIFIED";
             confidence :=
               JS.min 1.0%float (JS.max 0.0%float (JS.or_num (Some c) 0.5%float));
             reasoning := JS.or_str r "" |} :: collect rest ask
      | NoJson => collect rest ask
      | Threw msg =>
          {| model := m; verdict := "ERROR"; confidence := 0%float;
             reasoning := "Model error: " ++ msg |} :: collect rest ask
      end
  end.

Record result := {
  r_verdict : string;
  r_avg_confidence : JS.num;      (* before [toFixed(4)] *)
  r_std_dev : JS.num;             (* before [toFixed(4)] *)
  r_constitutional_halt : bool;
  r_quorum : bool;
  r_votes : Z;
  r_required_quorum : Z;
  r_model_votes : list vote
}.

(** [verdictCounts[v.verdict] = (verdictCounts[v.verdict] || 0) + 1]. *)
Definition verdictCounts (validVotes : list vote) : Obj.t Z :=
  fold_left (fun counts v => Consensus.bump (verdict v) counts) validVotes [].

Section Engine.

Variable engine : list (string * Obj.value Z) -> nat.

(** [Object.entries(verdictCounts).sort((a, b) => b[1] - a[1])[0]?.[0]
    || 'INSUFFICIENT_EVIDENCE']. *)
Definition majorityVerdict (validVotes : list vote) : string :=
  JS.or_str
    (option_map fst
       (Consensus.first_by_count engine (verdictCounts validVotes)))
    "INSUFFICIENT_EVIDENCE".

Definition verifyClaimInternal (models : list string) (ask : string -> reply)
  : JS.Div result :=
  let votes := collect models ask in
  let validVotes :=
    filter (fun v => negb (String.eqb (verdict v) "ERROR")) votes in
  let len := Z.of_nat (List.length validVotes) in
  (do quorumSize <- JS.ceil_div (2 * Z.of_nat (List.length models)) 3 ;;
   let hasQuorum := quorumSize <=? len in
   let totalConfidence :=
     fold_left (fun sum v => (sum + confidence v)%float) validVotes 0%float in
   do avgConfidence <-
      (if 0 <? len then JS.div_int totalConfidence len else JS.ret 0%float) ;;
   let confidences := map confidence validVotes in
   let mean := avgConfidence in
   do variance <-
      (if 0 <? Z.of_nat (List.length confidences) then
         JS.div_int
           (fold_left (fun sum c => (sum + JS.pow2 (c - mean))%float)
                      confidences 0%float)
           (Z.of_nat (List.length confidences))
       else JS.ret 0%float) ;;
   let stdDev := PrimFloat.sqrt variance in
   let constitutionalHalt := JS.gt stdDev 0.25%float in
   let finalVerdict :=
     if constitutionalHalt then "CONSTITUTIONAL_HALT"
     else majorityVerdict validVotes in
   JS.ret {| r_verdict := finalVerdict;
             r_avg_confidence := avgConfidence;
             r_std_dev := stdDev;
             r_constitutional_halt := constitutionalHalt;
             r_quorum := hasQuorum;
             r_votes := len;
             r_required_quorum := quorumSize;
             r_model_votes := votes |})%div.

End Engine.

End ProofAgent.

(* ===================================================================== *)
(** * regulation-tracker.js: the HITL gate and the vertical router *)
(* ===================================================================== *)
Module Hitl.

Record claim := {
  c_id : option string;
  c_type : option string;
  c_condition : Json.t;
  (** [parseInt(claim.disability_rating)], [None] when the property is
      falsy or not a number *)
  c_disability_rating : option Z
}.

Record screening := {
  completeness_score : JS.num;
  risk_flags : list string;
  recommended_action : string;
  confidence : JS.num;
  reasoning : string
}.

(** The screening used when the reply of the model does not parse. *)
Definition default_screening : screening :=
  {| completeness_score := 0.5%float;
     risk_flags := ["ai_parse_failure"];
     recommended_action := "review";
     confidence := 0.3%float;
     reasoning :=
       "AI screening could not parse response - defaulting to human review" |}.

Record risk := {
  requires_human_review : bool;
  risk_level : string;
  halt_triggered : bool
}.

(** Step 2, [risk-assessment]; [HALT_THRESHOLD] is the parsed
    environment variable, when it is set. *)
Definition riskAssessment (HALT_THRESHOLD : option JS.num) (claim : claim)
    (priority : option string) (s : screening) : risk :=
  let haltThreshold :=
    match HALT_THRESHOLD with Some t => t | None => 0.67%float end in
  {| requires_human_review :=
       String.eqb (recommended_action s) "review"
       || String.eqb (recommended_action s) "reject"
       || JS.lt (confidence s) haltThreshold
       || JS.lt (completeness_score s) 0.6%float
       || (2 <? Z.of_nat (List.length (risk_flags s)))
       || match priority with Some p => String.eqb p "high" | None => false end
       || match c_type claim with Some t => String.eqb t "tdiu" | None => false end
       || match c_disability_rating claim with
          | Some r => 70 <=? r | None => false end;
     risk_level :=
       if JS.lt (confidence s) 0.4%float then "critical"
       else if JS.lt (confidence s) haltThreshold then "high"
       else if 0 <? Z.of_nat (List.length (risk_flags s)) then "medium"
       else "low";
     halt_triggered := JS.lt (confidence s) haltThreshold |}.

(** The payload of a [claim-review-<id>] event, or the synthetic one of
    the auto-approval. *)
Record decision := {
  d_decision : string;
  d_reviewer : option string;
  d_reason : option string;
  d_auto : bool
}.

Record audit_event := {
  event_type : string;
  a_claim_id : string;
  a_decision : option string;
  a_proof_hash : option string
}.

Record env := {
  HALT_THRESHOLD : option JS.num;
  PROOF_STORAGE : list (string * Json.t);
  VERIFICATION_CACHE : list (string * Json.t);
  AUDIT_DB : list audit_event
}.

(** What the outside world contributes to one run. *)
Record world := {
  w_claim_uuid : string;              (* crypto.randomUUID() for the claim *)
  w_proof_uuid : string;              (* crypto.randomUUID() for the proof *)
  w_screening : option screening;     (* the parsed reply, if it parsed *)
  w_event : decision;                 (* what waitForEvent delivers *)
  w_now : string;
  w_processing_time_ms : Z;
  w_r2_throws : bool;
  w_audit_throws : bool
}.

Record outcome := {
  o_claimId : string;
  o_status : string;
  o_decision : string;
  o_reviewer : string;
  o_auto_approved : bool;
  o_risk_level : string;
  o_halt_triggered : bool;
  o_proof : option (string * string)     (* { id, hash } or null *)
}.

Definition cache_delete (k : string) (c : list (string * Json.t))
  : list (string * Json.t) :=
  filter (fun kv => negb (String.eqb (fst kv) k)) c.

(** [pendingList.slice(-100)]. *)
Definition last100 (l : list Json.t) : list Json.t :=
  skipn (List.length l - 100) l.

Section Run.

Variable stringify : Json.t -> string.
Variable sha256 : string -> string.

Definition proofData (claimId : string) (claim : claim) (s : screening)
    (r : risk) (d : decision) (w : world) : Json.t :=
  Json.Obj [
    ("id", Json.Str (w_proof_uuid w));
    ("claim_id", Json.Str claimId);
    ("type", Json.Str "vetproof_hitl_approved");
    ("claim_type", Json.Str (JS.or_str (c_type claim) "disability_compensation"));
    ("condition", c_condition claim);
    ("screening_confidence", Json.Num (confidence s));
    ("risk_level", Json.Str (risk_level r));
    ("reviewer", Json.Str (JS.or_str (d_reviewer d) "auto-approve"));
    ("auto_approved", Json.Bool (d_auto d));
    ("approved_at", Json.Str (w_now w));
    ("constitutional_halt", Json.Bool (halt_triggered r));
    ("processing_time_ms", Json.Int (w_processing_time_ms w)) ].

Definition audit (throws : bool) (ev : audit_event) (db : list audit_event)
  : list audit_event :=
  if throws then db else ev :: db.

(** [HITLApprovalWorkflow.run], for a run whose [waitForEvent] returns
    with the event [w_event w].  In the step that caches the pending
    review, [pendingList.push] throws a [TypeError] when the text under
    [hitl:pending:index] does not parse to an array; the step fails and
    the run with it, after the pending review and the screening audit
    were written. *)
Definition run (claim : claim) (priority : option string) (w : world)
    (e : env) : JS.completion outcome * env :=
  let claimId := JS.or_str (c_id claim) (w_claim_uuid w) in
  (* Steps 1-3: screening, risk assessment, audit of the screening *)
  let s := match w_screening w with Some s => s | None => default_screening end in
  let r := riskAssessment (HALT_THRESHOLD e) claim priority s in
  let db :=
    audit (w_audit_throws w)
      {| event_type := "hitl_screening"; a_claim_id := claimId;
         a_decision := None; a_proof_hash := None |}
      (AUDIT_DB e) in
  (* Step 4: the gate *)
  let '(gate, cache) :=
    if requires_human_review r then
      (* the pending review, of which the id and the status are kept *)
      let pending :=
        ("hitl:pending:" ++ claimId,
         Json.Obj [("claimId", Json.Str claimId);
                   ("status", Json.Str "awaiting_review")])
        :: VERIFICATION_CACHE e in
      let queue (pendingList : list Json.t) :=
        let trimmed :=
          last100 (pendingList ++
                   [Json.Obj [("claimId", Json.Str claimId);
                              ("risk_level", Json.Str (risk_level r));
                              ("submitted_at", Json.Str (w_now w))]])%list in
        let indexed := ("hitl:pending:index", Json.Arr trimmed) :: pending in
        (JS.Returns (w_event w),
         cache_delete ("hitl:pending:" ++ claimId) indexed) in
      match Json.lookup "hitl:pending:index" pending with
      | Some (Json.Arr l) => queue l
      | None => queue []
      | Some _ => (JS.Throws JS.TypeError, pending)
      end
    else
      (* auto-approval; the reason is a text built from the screening *)
      (JS.Returns {| d_decision := "approved";
                     d_reviewer := Some "auto-approve";
                     d_reason := Some "Low risk";
                     d_auto := true |},
       VERIFICATION_CACHE e) in
  match gate with
  | JS.Throws thrown =>
      (JS.Throws thrown,
       {| HALT_THRESHOLD := HALT_THRESHOLD e;
          PROOF_STORAGE := PROOF_STORAGE e;
          VERIFICATION_CACHE := cache;
          AUDIT_DB := db |})
  | JS.Returns d =>
  (* Steps 5-6: the decision, and the proof if it is an approval *)
  let isApproved := String.eqb (d_decision d) "approved" in
  let proof :=
    if isApproved then
      let data := proofData claimId claim s r d w in
      Some (Json.set "proof_hash" (Json.Str (sha256 (stringify data))) data)
    else None in
  let proof_hash :=
    match proof with
    | Some p => match Json.get "proof_hash" p with
                | Some (Json.Str h) => Some h | _ => None end
    | None => None
    end in
  let r2 :=
    match proof with
    | Some p =>
        if w_r2_throws w then PROOF_STORAGE e
        else ("hitl/" ++ claimId ++ "/" ++ w_proof_uuid w ++ ".json", p)
             :: PROOF_STORAGE e
    | None => PROOF_STORAGE e
    end in
  let cache :=
    match proof with
    | Some p => ("proof:hitl:" ++ claimId, p) :: cache
    | None => cache
    end in
  (* Step 7: final audit *)
  let db :=
    audit (w_audit_throws w)
      {| event_type := if isApproved then "hitl_approved" else "hitl_rejected";
         a_claim_id := claimId;
         a_decision := Some (d_decision d);
         a_proof_hash := proof_hash |}
      db in
  (JS.Returns
     {| o_claimId := claimId;
        o_status := if isApproved then "approved" else "rejected";
        o_decision := d_decision d;
        o_reviewer := JS.or_str (d_reviewer d) "auto-approve";
        o_auto_approved := d_auto d;
        o_risk_level := risk_level r;
        o_halt_triggered := halt_triggered r;
        o_proof :=
          match proof_hash with
          | Some h => Some (w_proof_uuid w, h)
          | None => None
          end |},
   {| HALT_THRESHOLD := HALT_THRESHOLD e;
      PROOF_STORAGE := r2;
      VERIFICATION_CACHE := cache;
      AUDIT_DB := db |})
  end.

End Run.

End Hitl.

(* ===================================================================== *)
(** * regulation-tracker.js: the collective orchestration workflow *)
(* ===================================================================== *)
Module Collective.

Record vertical := {
  v_name : string;
  ai_model : string;
  halt_threshold : JS.num
}.

Definition VERTICALS : list (string * vertical) :=
  [ ("vetproof",  {| v_name := "VetProof"; ai_model := "@cf/meta/llama-3.1-8b-instruct";
                     halt_threshold := 0.67%float |});
    ("legal",     {| v_name := "LegalProof"; ai_model := "@cf/meta/llama-3.1-8b-instruct";
                     halt_threshold := 0.70%float |});
    ("finance",   {| v_name := "FinanceProof"; ai_model := "@cf/meta/llama-3.1-8b-instruct";
                     halt_threshold := 0.75%float |});
    ("health",    {| v_name := "HealthProof"; ai_model := "@cf/meta/llama-3.1-8b-instruct";
                     halt_threshold := 0.80%float |});
    ("education", {| v_name := "EduProof"; ai_model := "@cf/meta/llama-3.1-8b-instruct";
                     halt_threshold := 0.65%float |});
    ("aviation",  {| v_name := "SkyProof"; ai_model := "@cf/meta/llama-3.1-8b-instruct";
                     halt_threshold := 0.85%float |}) ].

Fixpoint find (k : string) (l : list (string * vertical)) : option vertical :=
  match l with
  | [] => None
  | (k', v) :: rest => if String.eqb k' k then Some v else find k rest
  end.

(** What step 1 returns.  A name that [VERTICALS] inherits from
    [Object.prototype] is found, so the step reports no error, but what
    is found has no [halt_threshold] and no [domains]. *)
Inductive routing :=
| RouteError (message : string)
| Routed (verticalKey : string) (v : vertical) (haltThreshold : JS.num)
| Inherited (verticalKey : string).

(** [Object.keys(VERTICALS).join(', ')]. *)
Definition available : string :=
  String.concat ", " (map fst VERTICALS).

(** Step 1, [route-to-vertical]. *)
Definition route (vertical : string) : routing :=
  match find vertical VERTICALS with
  | Some v => Routed vertical v (halt_threshold v)
  | None =>
      if Obj.inherited vertical then Inherited vertical
      else RouteError ("Unknown vertical: " ++ vertical ++
                       ". Available: " ++ available)
  end.

Record haltCheck := {
  halt_triggered : bool;
  threshold : JS.num;
  h_confidence : JS.num;
  h_vertical : string;
  risk_level : string
}.

(** Step 3, [constitutional-halt]: [confidence] and [risk_factors] come
    from the domain analysis. *)
Definition constitutional_halt (verticalKey : string) (haltThreshold : JS.num)
    (confidence : JS.num) (risk_factors : list string) : haltCheck :=
  let threshold := haltThreshold in
  let haltTriggered := JS.lt confidence threshold in
  {| halt_triggered := haltTriggered;
     threshold := threshold;
     h_confidence := confidence;
     h_vertical := verticalKey;
     risk_level :=
       if JS.lt confidence 0.4%float then "critical"
       else if JS.lt confidence threshold then "high"
       else if 2 <? Z.of_nat (List.length risk_factors) then "medium"
       else "low" |}.

(** The halt check of a run on [vertical].  There is none when the run
    returns with the routing error, nor for an inherited name: the
    domain analysis then throws on [v.domains.join] and the run fails
    before step 3. *)
Definition halt_check_of (vertical : string) (confidence : JS.num)
    (risk_factors : list string) : option haltCheck :=
  match route vertical with
  | RouteError _ => None
  | Inherited _ => None
  | Routed key _ haltThreshold =>
      Some (constitutional_halt key haltThreshold confidence risk_factors)
  end.

End Collective.

(* ===================================================================== *)
(** * Derived notions used in the statements *)
(* ===================================================================== *)
Module ConsensusSpec.
Import Consensus.

Definition count (votes : list vote_row) : Z := Z.of_nat (List.length votes).
Definition totalConfidence (votes : list vote_row) : JS.num :=
  snd (fst (tally votes)).

(** The standard deviation [calculateConsensus] stores for a non-empty
    vote list. *)
Definition stdDev (votes : list vote_row) : JS.num :=
  let avg := (totalConfidence votes / JS.of_Z (count votes))%float in
  PrimFloat.sqrt
    (fold_left (fun sum v => (sum + JS.pow2 (confidence v - avg))%float)
               votes 0%float
     / JS.of_Z (count votes))%float.

(** The comparison [majorityPct >= bftThreshold], for a majority count
    [c]. *)
Definition reaches (c : Obj.value Z) (votes : list vote_row) : bool :=
  JS.ge (to_number c / JS.of_Z (count votes))%float
        (JS.of_Z (2 * count votes + 2) / JS.of_Z (3 * count votes))%float.

Definition reached (engine : list (string * Obj.value Z) -> nat)
    (votes : list vote_row) : bool :=
  match majorityCount engine votes with
  | Some c => reaches c votes
  | None => false
  end.

(** The computation returned a snapshot with the status CONSENSUS. *)
Definition agreed (r : JS.completion consensus) : bool :=
  match r with
  | JS.Returns c => is_consensus c
  | JS.Throws _ => false
  end.

(** The call returned an answer whose snapshot has the status
    CONSENSUS. *)
Definition settled (a : JS.completion vote_result) : bool :=
  match a with
  | JS.Returns r => is_consensus (r_consensus r)
  | JS.Throws _ => false
  end.

(** The number of votes that carry the verdict [k]. *)
Definition count_of (k : string) (votes : list vote_row) : Z :=
  Z.of_nat (List.length (filter (fun v => String.eqb (verdict v) k) votes)).

(** No vote carries a verdict named like a member of
    [Object.prototype]. *)
Definition plain (votes : list vote_row) : bool :=
  forallb (fun v => negb (Obj.inherited (verdict v))) votes.

(** An engine whose sort leaves the first entry first. *)
Definition v8 (l : list (string * Obj.value Z)) : nat := 0%nat.

(** A consensus object with its [timestamp] replaced. *)
Definition with_timestamp (t : string) (c : consensus) : consensus :=
  match c with
  | Pending r => Pending r
  | Computed s =>
      Computed {| s_status := s_status s; s_verdict := s_verdict s;
                  agreement_pct := agreement_pct s;
                  bft_threshold := bft_threshold s;
                  avg_confidence := avg_confidence s;
                  avg_coherence := avg_coherence s;
                  confidence_std_dev := confidence_std_dev s;
                  halt_triggered := halt_triggered s;
                  total_votes := total_votes s;
                  fault_tolerance := fault_tolerance s;
                  verdict_distribution := verdict_distribution s;
                  s_timestamp := t |}
  end.

(** What [calculateConsensus] does, with the [timestamp] of the snapshot
    replaced. *)
Definition stamped (t : string) (r : JS.completion consensus)
  : JS.completion consensus :=
  match r with
  | JS.Returns c => JS.Returns (with_timestamp t c)
  | JS.Throws thrown => JS.Throws thrown
  end.

(** The columns of a row that come from the request. *)
Definition submitted (r : vote_row) : string * string * JS.num * JS.num * string :=
  (model_id r, verdict r, confidence r, coherence_score r, reasoning r).

Definition row (m v : string) (c : JS.num) : vote_row :=
  {| model_id := m; verdict := v; confidence := c;
     coherence_score := 0.5%float; reasoning := ""; timestamp := "2026-01-01 00:00:00" |}.

(** Two votes whose confidences lie 0.25 on either side of their mean. *)
Definition boundary_votes : list vote_row :=
  [ row "m1" "VERIFIED" 0.25%float; row "m2" "VERIFIED" 0.75%float ].

(** Two of three votes agree. *)
Definition two_of_three : list vote_row :=
  [ row "m1" "VERIFIED" 0.875%float; row "m2" "VERIFIED" 0.875%float;
    row "m3" "UNVERIFIED" 0.875%float ].

(** Two votes, both valid, that agree. *)
Definition two_agreeing : list vote_row :=
  [ row "m1" "VERIFIED" 0.875%float; row "m2" "VERIFIED" 0.875%float ].



(** The rows of the other models. *)
Definition other (m : string) (x : vote_row) : bool :=
  negb (String.eqb (model_id x) m).

(** The row [submitVote] inserts. *)
Definition row_of (sql_now modelId : string) (vote : vote) : vote_row :=
  {| model_id := modelId;
     verdict := v_verdict vote;
     confidence := v_confidence vote;
     coherence_score := v_coherence_score vote;
     reasoning := JS.or_str (v_reasoning vote) "";
     timestamp := sql_now |}.

Definition sound_vote : vote :=
  {| v_verdict := "VERIFIED"; v_confidence := 0.9%float;
     v_coherence_score := 0.88%float; v_reasoning := Some "service records match" |}.





(** Two models agree on the verdict with confidences as far apart as
    they can be. *)
Definition torn_first : vote_request :=
  {| req_method := "POST"; req_claim_id := Some "c1"; req_model_id := Some "m1";
     req_vote := Some {| v_verdict := "VERIFIED"; v_confidence := 1.0%float;
                         v_coherence_score := 0.9%float; v_reasoning := None |} |}.
Definition torn_second : vote_request :=
  {| req_method := "POST"; req_claim_id := Some "c1"; req_model_id := Some "m2";
     req_vote := Some {| v_verdict := "VERIFIED"; v_confidence := 0.0%float;
                         v_coherence_score := 0.9%float; v_reasoning := None |} |}.

(** A vote whose verdict is the name of the prototype link. *)
Definition proto_vote : vote :=
  {| v_verdict := "__proto__"; v_confidence := 0.9%float;
     v_coherence_score := 0.9%float; v_reasoning := None |}.

Definition proto_request : vote_request :=
  {| req_method := "POST"; req_claim_id := Some "c1";
     req_model_id := Some "m1"; req_vote := Some proto_vote |}.

(** A session that already holds two votes. *)
Definition seeded : durable_object :=
  {| votes := [ row "m1" "UNVERIFIED" 0.5%float; row "m2" "VERIFIED" 0.9%float ];
     state_consensus := None |}.

(** No Durable Object has been touched and every store is bound and empty. *)
Definition blank : env :=
  {| SHIELD_CONSENSUS := fun _ => fresh;
     PROOF_STORAGE := Some [];
     VERIFICATION_CACHE := Some [];
     AUDIT_DB := Some [] |}.

End ConsensusSpec.

Module CollectiveSpec.

(** The halt threshold of each vertical. *)
Definition domain_thresholds : list (string * JS.num) :=
  [ ("vetproof", 0.67%float); ("legal", 0.70%float); ("finance", 0.75%float);
    ("health", 0.80%float); ("education", 0.65%float); ("aviation", 0.85%float) ].

End CollectiveSpec.

Module Examples.

(** Stand-ins for [JSON.stringify] and SHA-256 in the worked examples:
    an object is rendered by its keys and a digest by a tag around its
    input. *)
Definition keys_of (j : Json.t) : string :=
  match j with
  | Json.Obj fields => String.concat "," (map fst fields)
  | _ => ""
  end.
Definition tagged (s : string) : string := "sha256(" ++ s ++ ")".

Definition reply_of (v : string) (c : JS.num) : Workflow.settled :=
  Workflow.Fulfilled (Some {| Workflow.p_verdict := Some v;
                              Workflow.p_confidence := Some c;
                              Workflow.p_cfr_sections := Json.Arr [];
                              Workflow.p_nexus_strength := Json.Str "direct" |}).

(** Both models answer VERIFIED with confidence 0.1. *)
Definition unsure (m : Workflow.model) : Workflow.settled :=
  reply_of "VERIFIED" 0.1%float.

(** The models disagree widely: 0.9 against 0.2. *)
Definition split_reply (m : Workflow.model) : Workflow.settled :=
  if String.eqb (Workflow.name m) "qwen-14b" then reply_of "UNVERIFIED" 0.2%float
  else reply_of "VERIFIED" 0.9%float.

(** Only the first model answers. *)
Definition lone_reply (m : Workflow.model) : Workflow.settled :=
  if String.eqb (Workflow.name m) "qwen-14b" then Workflow.Rejected
  else reply_of "VERIFIED" 0.9%float.

Definition world_of (reply : Workflow.model -> Workflow.settled) : Workflow.world :=
  {| Workflow.w_sanitized :=
       {| Workflow.has_pii := Json.Bool false; Workflow.pii_types := Json.Arr [];
          Workflow.original_hash := tagged "claim" |};
     Workflow.w_similarity := 0.8%float;
     Workflow.w_similar_claims := 0;
     Workflow.w_reply := reply;
     Workflow.w_verified_at := "2026-01-01T00:00:01Z";
     Workflow.w_detected_at := "2026-01-01T00:00:02Z";
     Workflow.w_timestamp := "2026-01-01T00:00:03Z";
     Workflow.w_duration_ms := 3000;
     Workflow.w_audit_throws := false |}.

Definition bound : Workflow.env :=
  {| Workflow.PROOF_STORAGE := Some [];
     Workflow.AUDIT_DB := Some [];
     Workflow.VERIFICATION_CACHE := Some [] |}.

Definition agent_models : list string :=
  ["@cf/meta/llama-3.1-8b-instruct"; "@cf/qwen/qwen1.5-14b-chat-awq"].

(** The two models of the agent disagree widely: 1.0 against 0.1. *)
Definition agent_split (m : string) : ProofAgent.reply :=
  if String.eqb m "@cf/meta/llama-3.1-8b-instruct"
  then ProofAgent.Parsed (Some "VERIFIED") 1.0%float None
  else ProofAgent.Parsed (Some "UNVERIFIED") 0.1%float None.

(** The models' confidences lie 0.25 on either side of their mean. *)
Definition boundary_reply (m : Workflow.model) : Workflow.settled :=
  if String.eqb (Workflow.name m) "qwen-14b" then reply_of "VERIFIED" 0.75%float
  else reply_of "VERIFIED" 0.25%float.

Definition agent_boundary (m : string) : ProofAgent.reply :=
  if String.eqb m "@cf/meta/llama-3.1-8b-instruct"
  then ProofAgent.Parsed (Some "VERIFIED") 0.25%float None
  else ProofAgent.Parsed (Some "VERIFIED") 0.75%float None.

Definition silent (m : Workflow.model) : Workflow.settled := Workflow.Rejected.

End Examples.

Module ProofAgentSpec.
Import ProofAgent.

(** [votes.filter(v => v.verdict !== 'ERROR')]. *)
Definition validVotes (models : list string) (ask : string -> reply) : list vote :=
  filter (fun v => negb (String.eqb (verdict v) "ERROR")) (collect models ask).

End ProofAgentSpec.

Module HitlExamples.

Definition tinnitus : Hitl.claim :=
  {| Hitl.c_id := Some "c1";
     Hitl.c_type := Some "disability_compensation";
     Hitl.c_condition := Json.Str "tinnitus";
     Hitl.c_disability_rating := None |}.

Definition solid : Hitl.screening :=
  {| Hitl.completeness_score := 0.9%float;
     Hitl.risk_flags := [];
     Hitl.recommended_action := "approve";
     Hitl.confidence := 0.74%float;
     Hitl.reasoning := "complete" |}.

Definition rejection : Hitl.decision :=
  {| Hitl.d_decision := "rejected";
     Hitl.d_reviewer := Some "reviewer-7";
     Hitl.d_reason := Some "Manual rejection";
     Hitl.d_auto := false |}.

(** A reviewer rejects the claim. *)
Definition rejected_world : Hitl.world :=
  {| Hitl.w_claim_uuid := "uuid-claim";
     Hitl.w_proof_uuid := "uuid-proof";
     Hitl.w_screening := Some solid;
     Hitl.w_event := rejection;
     Hitl.w_now := "2026-01-02T00:00:00Z";
     Hitl.w_processing_time_ms := 60000;
     Hitl.w_r2_throws := false;
     Hitl.w_audit_throws := false |}.

Definition empty : Hitl.env :=
  {| Hitl.HALT_THRESHOLD := None;
     Hitl.PROOF_STORAGE := [];
     Hitl.VERIFICATION_CACHE := [];
     Hitl.AUDIT_DB := [] |}.

End HitlExamples.

Module WorkflowSpec.
Import Workflow.

(** The detect step of a run asks for a halt. *)
Definition halted (w : world) : bool :=
  truthy (halt_required
            (detect (JS.value (verify (w_reply w) (w_verified_at w)))
                    (w_similarity w) (w_detected_at w))).

End WorkflowSpec.

Module HitlSpec.
Import Hitl.

Definition screened (w : world) : screening :=
  match w_screening w with Some s => s | None => default_screening end.

(** [claim.id || crypto.randomUUID()]. *)
Definition claimId (claim : claim) (w : world) : string :=
  JS.or_str (c_id claim) (w_claim_uuid w).

(** The queue of pending reviews can be read: the cache holds nothing or
    an array under [hitl:pending:index], and the pending review of the
    claim is not written under that key. *)
Definition queue_readable (e : env) (claim : claim) (w : world) : bool :=
  negb (String.eqb (claimId claim w) "index")
  && match Json.lookup "hitl:pending:index" (VERIFICATION_CACHE e) with
     | Some (Json.Arr _) => true
     | None => true
     | Some _ => false
     end.

(** The risk assessment of a run sends the claim to a reviewer. *)
Definition gated (e : env) (claim : claim) (priority : option string)
    (w : world) : bool :=
  requires_human_review
    (riskAssessment (HALT_THRESHOLD e) claim priority (screened w)).

End HitlSpec.

Module ChainExamples.

(** Two runs of the pipeline, the second on the bindings the first left. *)
Definition first_run : Json.t * Workflow.env :=
  Workflow.run Examples.keys_of Examples.tagged "c1"
    (Examples.world_of Examples.unsure) Examples.bound.

Definition second_run : Json.t * Workflow.env :=
  Workflow.run Examples.keys_of Examples.tagged "c2"
    (Examples.world_of Examples.split_reply) (snd first_run).

End ChainExamples.


(* ===================================================================== *)
(** * vetproof-consensus.js: sessions of votes and the state endpoint *)
(* ===================================================================== *)
Module Session.
Import Consensus.

(** One call of the Durable Object's [/vote] endpoint, with the two clock
    readings it makes. *)
Record submission := {
  at_sql : string;
  at_iso : string;
  by_model : string;
  cast : vote
}.

Section Engine.

Variable engine : list (string * Obj.value Z) -> nat.

(** The Durable Object after the call, whether it answered or threw. *)
Definition submit (d : durable_object) (s : submission) : durable_object :=
  snd (submitVote engine (at_sql s) (at_iso s) (by_model s) (cast s) d).

Definition submit_all (subs : list submission) (d : durable_object)
  : durable_object :=
  fold_left submit subs d.

End Engine.

(** [KV.get(key)]: the latest write under the key. *)
Fixpoint kv_get {A} (k : string) (store : list (string * A)) : option A :=
  match store with
  | [] => None
  | (k', v) :: rest => if String.eqb k' k then Some v else kv_get k rest
  end.

(** [getState]: the rows of the table and the snapshot kept in the
    ['consensus'] row of [state].  [.one()] throws while that row does
    not exist. *)
Definition getState (d : durable_object)
  : JS.completion (list vote_row * consensus * Z) :=
  match state_consensus d with
  | Some c => JS.Returns (votes d, c, Z.of_nat (List.length (votes d)))
  | None => JS.Throws JS.Error
  end.

Inductive state_response :=
| State400 (error : string)
| State500
| StateCached (cached : consensus)                          (* cached: true *)
| StateLive (state : list vote_row * consensus * Z).        (* cached: false *)

(** The answer built from what the Durable Object's [/state] returned;
    what it threw is answered with status 500. *)
Definition live (state : JS.completion (list vote_row * consensus * Z))
  : state_response :=
  match state with
  | JS.Returns st => StateLive st
  | JS.Throws _ => State500
  end.

(** [handleConsensusState]: [claimId] is the [claim_id] query parameter.
    A cached snapshot is served as it was written. *)
Definition handleConsensusState (claimId : option string) (e : env)
  : state_response :=
  match claimId with
  | None => State400 "claim_id query param required"
  | Some id =>
      if String.eqb id "" then State400 "claim_id query param required"
      else
        match
          match VERIFICATION_CACHE e with
          | Some cache => kv_get id cache
          | None => None
          end
        with
        | Some cached => StateCached cached
        | None => live (getState (SHIELD_CONSENSUS e id))
        end
  end.

(** The sum of the counts of a verdict distribution that are numbers. *)
Definition total (counts : Obj.t Z) : Z :=
  fold_right Z.add 0 (numbers counts).

Definition dissent : vote :=
  {| v_verdict := "UNVERIFIED"; v_confidence := 0.7%float;
     v_coherence_score := 0.9%float; v_reasoning := None |}.


Definition three_subs : list submission :=
  [ {| at_sql := "t1"; at_iso := "T1"; by_model := "m1"; cast := dissent |};
    {| at_sql := "t2"; at_iso := "T2"; by_model := "m2"; cast := dissent |};
    {| at_sql := "t3"; at_iso := "T3"; by_model := "m1";
       cast := ConsensusSpec.sound_vote |} ].

End Session.

Module Distribution.
Import Consensus.

(** The counting part of the loop of [calculateConsensus]. *)
Definition bumps (votes : list vote_row) (c : Obj.t Z) : Obj.t Z :=
  fold_left (fun c v => bump (verdict v) c) votes c.

(** What the counting loop holds under the key [k] after the votes
    [seen]: nothing for a verdict that was not cast and for [__proto__],
    the text of the inherited member followed by one [1] per vote for the
    other names of [Object.prototype], and the number of votes for every
    other verdict. *)
Definition held (k : string) (seen : list vote_row) : option (Obj.value Z) :=
  let n := ConsensusSpec.count_of k seen in
  if (n =? 0) || String.eqb k "__proto__" then None
  else if Obj.inherited k then Some (Obj.Text k (repeat 1 (Z.to_nat n)))
  else Some (Obj.Num n).

(** The invariant of the counting loop. *)
Definition counted (seen : list vote_row) (c : Obj.t Z) : Prop :=
  forall k, Obj.own k c = held k seen.

(** The votes whose verdict the object counts with a number. *)
Definition numbered (votes : list vote_row) : Z :=
  Z.of_nat (List.length
    (filter (fun v => negb (Obj.inherited (verdict v))) votes)).

Definition mixed : list vote_row :=
  [ ConsensusSpec.row "m1" "UNVERIFIED" 0.9%float;
    ConsensusSpec.row "m2" "VERIFIED" 0.8%float;
    ConsensusSpec.row "m3" "VERIFIED" 0.7%float;
    ConsensusSpec.row "m4" "UNVERIFIED" 0.6%float ].

(** A verdict that is an array index is enumerated first. *)
Definition indexed : list vote_row :=
  [ ConsensusSpec.row "m1" "VERIFIED" 0.9%float;
    ConsensusSpec.row "m2" "7" 0.8%float ].

End Distribution.

(* ===================================================================== *)
(** * vetproof-consensus.js: the queued pipeline *)
(* ===================================================================== *)
Module Pipeline.

(** The own properties of an object, in insertion order. *)
Definition fields := list (string * Json.t).

(** [{ ...payload, k1: v1, ..., kn: vn }]. *)
Definition extend (payload more : fields) : fields :=
  fold_left (fun o kv => Json.assign (fst kv) (snd kv) o) more payload.

Record message := {
  m_claim_id : string;
  m_stage : string;
  m_payload : fields
}.

Record audit_event := {
  event_type : string;
  ev_claim_id : string
}.

(** The bindings of the worker; the queue lists the messages that wait
    for delivery, the oldest first, the audit table its rows, the latest
    first. *)
Record env := {
  SHIELD_CONSENSUS : string -> Consensus.durable_object;
  VETPROOF_QUEUE : option (list message);
  PROOF_STORAGE : option (list (string * Json.t));
  VERIFICATION_CACHE : option (list (string * Json.t));
  AUDIT_DB : option (list audit_event)
}.

Definition with_queue (q : option (list message)) (e : env) : env :=
  {| SHIELD_CONSENSUS := SHIELD_CONSENSUS e; VETPROOF_QUEUE := q;
     PROOF_STORAGE := PROOF_STORAGE e;
     VERIFICATION_CACHE := VERIFICATION_CACHE e; AUDIT_DB := AUDIT_DB e |}.

(** [env.VETPROOF_QUEUE.send(m)], inside [if (env.VETPROOF_QUEUE)]. *)
Definition send (m : message) (e : env) : env :=
  with_queue (option_map (fun q => (q ++ [m])%list) (VETPROOF_QUEUE e)) e.

(** What the outside contributes to the handling of one message: the
    [response] of the model ([None] when [env.AI.run] throws), the clock
    readings, and whether the audit insert throws. *)
Record outside := {
  ai_response : option Json.t;
  sql_now : string;
  iso_now : string;
  stored_at : string;
  cached_at : string;
  audit_throws : bool
}.

Definition processSanitize (reply : Json.t) (claimId : string)
    (payload : fields) (e : env) : env :=
  send {| m_claim_id := claimId; m_stage := "GENERATE";
          m_payload := extend payload [("sanitized", Json.Bool true);
                                       ("sanitize_result", reply)] |} e.

Definition processGenerate (reply : Json.t) (claimId : string)
    (payload : fields) (e : env) : env :=
  send {| m_claim_id := claimId; m_stage := "VERIFY";
          m_payload := extend payload [("analysis", reply)] |} e.

(** The vote that [processVerify] casts; [payload.analysis] is its
    reasoning when it is a text. *)
Definition pipeline_vote (payload : fields) : Consensus.vote :=
  {| Consensus.v_verdict := "VERIFIED";
     Consensus.v_confidence := 0.75%float;
     Consensus.v_coherence_score := 0.80%float;
     Consensus.v_reasoning :=
       match Json.lookup "analysis" payload with
       | Some (Json.Str s) => Some s
       | _ => None
       end |}.

Section Verify.

Variable engine : list (string * Obj.value Z) -> nat.

(** [processVerify]: when the Durable Object throws, nothing is sent. *)
Definition processVerify (o : outside) (claimId : string) (payload : fields)
    (e : env) : JS.completion unit * env :=
  let (answer, d) :=
    Consensus.submitVote engine (sql_now o) (iso_now o) "workers-ai-llama-3.1-8b"
      (pipeline_vote payload) (SHIELD_CONSENSUS e claimId) in
  let e1 :=
    {| SHIELD_CONSENSUS := Consensus.set_object claimId d (SHIELD_CONSENSUS e);
       VETPROOF_QUEUE := VETPROOF_QUEUE e;
       PROOF_STORAGE := PROOF_STORAGE e;
       VERIFICATION_CACHE := VERIFICATION_CACHE e;
       AUDIT_DB := AUDIT_DB e |} in
  match answer with
  | JS.Throws thrown => (JS.Throws thrown, e1)
  | JS.Returns _ =>
      (JS.Returns tt,
       send {| m_claim_id := claimId; m_stage := "DETECT";
               m_payload := extend payload [("verified", Json.Bool true)] |} e1)
  end.

End Verify.

Definition processDetect (reply : Json.t) (claimId : string)
    (payload : fields) (e : env) : env :=
  send {| m_claim_id := claimId; m_stage := "SIGN";
          m_payload := extend payload [("detection", reply)] |} e.

(** [toLowerCase] and [toUpperCase] of a text of ASCII characters. *)
Definition lower_char (c : Ascii.ascii) : Ascii.ascii :=
  let n := Ascii.nat_of_ascii c in
  if ((65 <=? n) && (n <=? 90))%nat then Ascii.ascii_of_nat (n + 32) else c.
Definition upper_char (c : Ascii.ascii) : Ascii.ascii :=
  let n := Ascii.nat_of_ascii c in
  if ((97 <=? n) && (n <=? 122))%nat then Ascii.ascii_of_nat (n - 32) else c.

Fixpoint map_chars (f : Ascii.ascii -> Ascii.ascii) (s : string) : string :=
  match s with
  | EmptyString => EmptyString
  | String c rest => String (f c) (map_chars f rest)
  end.

Definition toLowerCase : string -> string := map_chars lower_char.
Definition toUpperCase : string -> string := map_chars upper_char.

Inductive outcome := Acked | Retried.

Section Consumer.

Variable engine : list (string * Obj.value Z) -> nat.
Variable stringify : Json.t -> string.
Variable sha256 : string -> string.

(** [processSign], on the two stores it uses. *)
Definition processSign (o : outside) (claimId : string) (payload : fields)
    (e : env) : env :=
  let stores :=
    Queue.processSign stringify sha256 claimId (Json.Obj payload)
      (iso_now o) (stored_at o) (cached_at o)
      {| Queue.PROOF_STORAGE := PROOF_STORAGE e;
         Queue.VERIFICATION_CACHE := VERIFICATION_CACHE e |} in
  {| SHIELD_CONSENSUS := SHIELD_CONSENSUS e;
     VETPROOF_QUEUE := VETPROOF_QUEUE e;
     PROOF_STORAGE := Queue.PROOF_STORAGE stores;
     VERIFICATION_CACHE := Queue.VERIFICATION_CACHE stores;
     AUDIT_DB := AUDIT_DB e |}.

(** The [switch (stage)] of the consumer: whether the stage returned or
    threw (the call of the model, or the Durable Object), and the
    bindings it left. *)
Definition dispatch (o : outside) (m : message) (e : env)
  : JS.completion unit * env :=
  let with_reply (k : Json.t -> env) : JS.completion unit * env :=
    match ai_response o with
    | Some r => (JS.Returns tt, k r)
    | None => (JS.Throws JS.Error, e)
    end in
  if String.eqb (m_stage m) "SANITIZE" then
    with_reply (fun r => processSanitize r (m_claim_id m) (m_payload m) e)
  else if String.eqb (m_stage m) "GENERATE" then
    with_reply (fun r => processGenerate r (m_claim_id m) (m_payload m) e)
  else if String.eqb (m_stage m) "VERIFY" then
    processVerify engine o (m_claim_id m) (m_payload m) e
  else if String.eqb (m_stage m) "DETECT" then
    with_reply (fun r => processDetect r (m_claim_id m) (m_payload m) e)
  else if String.eqb (m_stage m) "SIGN" then
    (JS.Returns tt, processSign o (m_claim_id m) (m_payload m) e)
  else (JS.Returns tt, e).

(** The body of the consumer's loop for one message: the stage, the audit
    row, then [ack]; whatever throws leads to [retry] and keeps what was
    done before. *)
Definition consume (o : outside) (m : message) (e : env) : outcome * env :=
  match dispatch o m e with
  | (JS.Throws _, e1) => (Retried, e1)
  | (JS.Returns _, e1) =>
      match AUDIT_DB e1 with
      | None => (Acked, e1)
      | Some log =>
          if audit_throws o then (Retried, e1)
          else
            (Acked,
             {| SHIELD_CONSENSUS := SHIELD_CONSENSUS e1;
                VETPROOF_QUEUE := VETPROOF_QUEUE e1;
                PROOF_STORAGE := PROOF_STORAGE e1;
                VERIFICATION_CACHE := VERIFICATION_CACHE e1;
                AUDIT_DB :=
                  Some ({| event_type := "pipeline_" ++ toLowerCase (m_stage m);
                           ev_claim_id := m_claim_id m |} :: log) |})
      end
  end.

(** Deliveries, one per element of [outs]: the oldest waiting message is
    handed to the consumer; an acknowledged message leaves the queue, a
    retried one waits again. *)
Fixpoint deliver (outs : list outside) (e : env) : env :=
  match outs with
  | [] => e
  | o :: rest =>
      match VETPROOF_QUEUE e with
      | Some (m :: waiting) =>
          match consume o m (with_queue (Some waiting) e) with
          | (Acked, e') => deliver rest e'
          | (Retried, e') => deliver rest (send m e')
          end
      | _ => e
      end
  end.

End Consumer.

(** ** [handlePipelineSubmit], when its audit insert succeeds *)

Record submit_body := {
  b_claim_id : option string;
  b_claim_text : option string;
  b_evidence : option Json.t;           (* [None]: absent or falsy *)
  b_disability_codes : option Json.t
}.

Inductive submit_response :=
| Submit405
| Submit400
| Submitted (claim_id : string).

Definition or_empty (j : option Json.t) : Json.t :=
  match j with Some v => v | None => Json.Arr [] end.

Definition handlePipelineSubmit (method : string) (body : submit_body)
    (now : string) (e : env) : submit_response * env :=
  if negb (String.eqb method "POST") then (Submit405, e)
  else
    match b_claim_id body, b_claim_text body with
    | Some claim_id, Some claim_text =>
        if String.eqb claim_id "" || String.eqb claim_text "" then (Submit400, e)
        else
          let e1 :=
            send {| m_claim_id := claim_id; m_stage := "SANITIZE";
                    m_payload :=
                      [("claim_text", Json.Str claim_text);
                       ("evidence", or_empty (b_evidence body));
                       ("disability_codes", or_empty (b_disability_codes body));
                       ("submitted_at", Json.Str now)] |} e in
          (Submitted claim_id,
           {| SHIELD_CONSENSUS := SHIELD_CONSENSUS e1;
              VETPROOF_QUEUE := VETPROOF_QUEUE e1;
              PROOF_STORAGE := PROOF_STORAGE e1;
              VERIFICATION_CACHE := VERIFICATION_CACHE e1;
              AUDIT_DB :=
                option_map
                  (cons {| event_type := "pipeline_submitted";
                           ev_claim_id := claim_id |})
                  (AUDIT_DB e1) |})
    | _, _ => (Submit400, e)
    end.

(** ** [handlePipelineStatus] *)

Definition stages : list string :=
  ["SANITIZE"; "GENERATE"; "VERIFY"; "DETECT"; "SIGN"].

(** [e.event_type.replace('pipeline_', '')] for a type that starts with
    the prefix. *)
Definition strip_prefix (s : string) : string :=
  String.substring 9 (String.length s - 9) s.

Definition completedStages (events : list string) : list string :=
  map (fun t => toUpperCase (strip_prefix t))
      (filter (String.prefix "pipeline_") events).

Definition includes (l : list string) (s : string) : bool :=
  existsb (String.eqb s) l.

(** [Math.max(...l)] for a non-empty list. *)
Definition max_of (l : list Z) : Z :=
  match l with
  | [] => -1
  | x :: rest => fold_left Z.max rest x
  end.

Fixpoint indexed {A} (i : Z) (l : list A) : list (Z * A) :=
  match l with
  | [] => []
  | x :: rest => (i, x) :: indexed (i + 1) rest
  end.

Definition stage_at (i : Z) : option string := nth_error stages (Z.to_nat i).

Record status := {
  current_stage : string;
  next_stage : string;
  completed_stages : list string
}.

(** The computation of [handlePipelineStatus] on the event types that the
    query returned. *)
Definition pipelineStatus (events : list string) : status :=
  let completed := completedStages events in
  let currentStageIndex :=
    max_of (map (fun '(i, s) => if includes completed s then i else -1)
                (indexed 0 stages)) in
  {| current_stage :=
       if 0 <=? currentStageIndex then
         match stage_at currentStageIndex with Some s => s | None => "" end
       else "PENDING";
     next_stage :=
       if currentStageIndex <? Z.of_nat (List.length stages) - 1 then
         match stage_at (currentStageIndex + 1) with Some s => s | None => "" end
       else "COMPLETE";
     completed_stages := completed |}.

(** [SELECT event_type ... WHERE claim_id = ? ORDER BY created_at DESC
    LIMIT 20]. *)
Definition query_events (claimId : string) (log : list audit_event)
  : list string :=
  map event_type
      (firstn 20 (filter (fun ev => String.eqb (ev_claim_id ev) claimId) log)).

Inductive status_response :=
| Status400                      (* claim_id query param required *)
| Status503                      (* Audit DB not configured *)
| StatusOk (s : status).

Definition handlePipelineStatus (claimId : option string) (e : env)
  : status_response :=
  match claimId with
  | None => Status400
  | Some id =>
      if String.eqb id "" then Status400
      else
        match AUDIT_DB e with
        | None => Status503
        | Some log => StatusOk (pipelineStatus (query_events id log))
        end
  end.

(** The successor of a stage in the chain of the consumer. *)
Definition following (stage : string) : option string :=
  if String.eqb stage "SANITIZE" then Some "GENERATE"
  else if String.eqb stage "GENERATE" then Some "VERIFY"
  else if String.eqb stage "VERIFY" then Some "DETECT"
  else if String.eqb stage "DETECT" then Some "SIGN"
  else None.

(** The payload that reaches the sign stage. *)
Definition signed_payload (claim_text : string) (evidence codes : Json.t)
    (submitted_at : string) (sanitize_result analysis detection : Json.t)
  : fields :=
  [ ("claim_text", Json.Str claim_text); ("evidence", evidence);
    ("disability_codes", codes); ("submitted_at", Json.Str submitted_at);
    ("sanitized", Json.Bool true); ("sanitize_result", sanitize_result);
    ("analysis", analysis); ("verified", Json.Bool true);
    ("detection", detection) ].

(** Deliveries in which every call succeeds. *)
Definition smooth (reply : Json.t) (t : string) : outside :=
  {| ai_response := Some reply; sql_now := t; iso_now := t; stored_at := t;
     cached_at := t; audit_throws := false |}.

Definition idle : env :=
  {| SHIELD_CONSENSUS := fun _ => Consensus.fresh;
     VETPROOF_QUEUE := Some [];
     PROOF_STORAGE := Some [];
     VERIFICATION_CACHE := Some [];
     AUDIT_DB := Some [] |}.

Definition tinnitus_body : submit_body :=
  {| b_claim_id := Some "c1";
     b_claim_text := Some "bilateral tinnitus";
     b_evidence := None;
     b_disability_codes := None |}.

End Pipeline.

(* ===================================================================== *)
(** * vetproof-workflow.js: the embed step's similarity *)
(* ===================================================================== *)
Module Embed.

(** [cosineSimilarity(a, b)]; [None] is a vector that is [undefined]. *)
Definition cosineSimilarity (a b : option (list JS.num)) : JS.num :=
  match a, b with
  | Some a, Some b =>
      if negb (Nat.eqb (List.length a) (List.length b)) then 0%float
      else
        let '(dotProduct, normA, normB) :=
          fold_left
            (fun '(dotProduct, normA, normB) '(x, y) =>
               ((dotProduct + x * y)%float, (normA + x * x)%float,
                (normB + y * y)%float))
            (combine a b) (0%float, 0%float, 0%float) in
        (dotProduct / (PrimFloat.sqrt normA * PrimFloat.sqrt normB))%float
  | _, _ => 0%float
  end.

(** The [low_evidence_match] check of the detect step on a similarity. *)
Definition low_evidence_match_of (similarity : JS.num) : bool :=
  Workflow.low_evidence_match
    (Workflow.d_checks
       (Workflow.detect (Workflow.NoQuorum 0 "") similarity "")).

Definition zeros (n : nat) : list JS.num := repeat 0%float n.

End Embed.

(* ===================================================================== *)
(** * proof-agent.js: payment gate, persistence and retrieval *)
(* ===================================================================== *)
Module Agent.

(** The headers the agent reads; [None] when [headers.get] is [null]. *)
Record headers := {
  X_Payment : option string;
  X_Payment_Tx : option string;
  X_API_Key : option string;
  Authorization : option string
}.

Definition present (h : option string) : bool := Consensus.truthy_str h.

Record payment := {
  paid : bool;
  method : option string;
  tx : option string
}.

Definition checkX402Payment (h : headers) : payment :=
  if negb (present (X_Payment h)) && negb (present (X_Payment_Tx h)) then
    if present (X_API_Key h) || present (Authorization h) then
      {| paid := true; method := Some "api-key"; tx := None |}
    else {| paid := false; method := None; tx := None |}
  else {| paid := true; method := Some "x402"; tx := X_Payment_Tx h |}.

Record state := {
  verifications_count : Z;
  total_revenue_cents : Z;
  last_verification : option string;
  models_available : list string
}.

Record history_row := {
  h_id : string;
  h_claim_text : string;
  h_result : string;
  h_confidence : JS.num;
  h_models_used : list string;
  h_proof_hash : string
}.

(** The result object of a verification. *)
Record verification := {
  v_claim_id : string;
  v_claim : string;
  v_outcome : ProofAgent.result;
  v_proof_hash : string;
  v_timestamp : string
}.

(** The agent: its state, its [verification_history] table (the latest
    row first) and the KV cache it writes to. *)
Record agent := {
  a_state : state;
  history : list history_row;
  cache : list (string * verification)
}.

(** What the outside contributes to one verification. *)
Record outside := {
  uuid : string;                          (* crypto.randomUUID() *)
  ask : string -> ProofAgent.reply;       (* the models' replies *)
  now : string;
  kv_put_throws : bool
}.

Section Persist.

Variable engine : list (string * Obj.value Z) -> nat.

(** The SHA-256 of the serialized
    [{ claimId, claimText, votes, finalVerdict, avgConfidence }]. *)
Variable proof_hash_of :
  string -> string -> list ProofAgent.vote -> string -> JS.num -> string.

(** [verifyClaimInternal] with its effects; [captured] is the state that
    the call read when it started.  [None]: the insert into the history
    hits the primary key and throws. *)
Definition verifyClaim (o : outside) (claimText : string) (captured : state)
    (a : agent) : option (verification * agent) :=
  let claimId := uuid o in
  let r :=
    JS.value (ProofAgent.verifyClaimInternal engine (models_available captured)
                (ask o)) in
  let proofHash :=
    proof_hash_of claimId claimText (ProofAgent.r_model_votes r)
      (ProofAgent.r_verdict r) (ProofAgent.r_avg_confidence r) in
  let result := {| v_claim_id := claimId; v_claim := claimText; v_outcome := r;
                   v_proof_hash := proofHash; v_timestamp := now o |} in
  if existsb (fun row => String.eqb (h_id row) claimId) (history a) then None
  else
    Some (result,
          {| a_state :=
               {| verifications_count := verifications_count captured + 1;
                  total_revenue_cents := total_revenue_cents (a_state a);
                  last_verification := Some (now o);
                  models_available := models_available (a_state a) |};
             history :=
               {| h_id := claimId; h_claim_text := claimText;
                  h_result := ProofAgent.r_verdict r;
                  h_confidence := ProofAgent.r_avg_confidence r;
                  h_models_used := map ProofAgent.model (ProofAgent.r_model_votes r);
                  h_proof_hash := proofHash |} :: history a;
             cache :=
               if kv_put_throws o then cache a
               else ("proof:" ++ claimId, result) :: cache a |}).

Record verify_request := {
  rq_headers : headers;
  rq_claim : option string;               (* body.claim *)
}.

Inductive response :=
| R402
| R400 (error : string)
| R500
| R200 (result : verification) (payment_tx : option string).

Definition add_revenue (a : agent) : agent :=
  {| a_state :=
       {| verifications_count := verifications_count (a_state a);
          total_revenue_cents := total_revenue_cents (a_state a) + 1;
          last_verification := last_verification (a_state a);
          models_available := models_available (a_state a) |};
     history := history a;
     cache := cache a |}.

Definition handleVerify (o : outside) (request : verify_request) (a : agent)
  : response * agent :=
  if negb (paid (checkX402Payment (rq_headers request))) then (R402, a)
  else
    if negb (present (rq_claim request)) then (R400 "Missing claim field", a)
    else
      match verifyClaim o (JS.or_str (rq_claim request) "") (a_state a) a with
      | None => (R500, a)
      | Some (result, a1) =>
          if present (X_Payment_Tx (rq_headers request)) then
            (R200 result (X_Payment_Tx (rq_headers request)), add_revenue a1)
          else (R200 result None, a1)
      end.

Inductive batch_response :=
| B402
| B400 (error : string)
| B500
| B200 (results : list verification).

(** [handleBatchVerify]: [claims] is [body.claims] when it is an array.
    The calls of [verifyClaimInternal] are started together by [map], and
    each reads the state before the first of them suspends: they all work
    on the state the batch found. *)
Definition handleBatchVerify (h : headers)
    (claims : option (list (string * outside))) (a : agent)
  : batch_response * agent :=
  if negb (paid (checkX402Payment h)) then (B402, a)
  else
    match claims with
    | None => (B400 "Missing claims array", a)
    | Some claims =>
        if (10 <? List.length claims)%nat then (B400 "Max 10 claims per batch", a)
        else
          let captured := a_state a in
          let '(ok, results, a') :=
            fold_left
              (fun '(ok, results, a) '(claim, o) =>
                 match verifyClaim o claim captured a with
                 | Some (r, a1) => (ok, (results ++ [r])%list, a1)
                 | None => (false, results, a)
                 end)
              claims (true, [], a) in
          (if ok then B200 results else B500, a')
    end.

End Persist.

Inductive proof_response :=
| ProofCached (result : verification)
| ProofRow (row : history_row)
| Proof404.

(** [handleGetProof]; [kv_get_throws] tells whether the cache lookup
    throws. *)
Definition handleGetProof (kv_get_throws : bool) (proofId : string) (a : agent)
  : proof_response :=
  match
    if kv_get_throws then None else Session.kv_get ("proof:" ++ proofId) (cache a)
  with
  | Some cached => ProofCached cached
  | None =>
      match filter (fun row => String.eqb (h_id row) proofId) (history a) with
      | row :: _ => ProofRow row
      | [] => Proof404
      end
  end.

(** Examples. *)
Definition sample_hash (claimId claimText : string) (votes : list ProofAgent.vote)
    (finalVerdict : string) (avgConfidence : JS.num) : string :=
  "sha256(" ++ claimId ++ "," ++ claimText ++ "," ++ finalVerdict ++ ")".

Definition new_agent : agent :=
  {| a_state := {| verifications_count := 0; total_revenue_cents := 0;
                   last_verification := None;
                   models_available := Examples.agent_models |};
     history := []; cache := [] |}.

Definition anonymous : headers :=
  {| X_Payment := None; X_Payment_Tx := None; X_API_Key := None;
     Authorization := None |}.
Definition with_key : headers :=
  {| X_Payment := None; X_Payment_Tx := None; X_API_Key := Some "k";
     Authorization := None |}.
Definition with_tx : headers :=
  {| X_Payment := None; X_Payment_Tx := Some "0xabc"; X_API_Key := None;
     Authorization := None |}.

Definition call (id : string) : outside :=
  {| uuid := id; ask := Examples.agent_split; now := "2026-01-01T00:00:00Z";
     kv_put_throws := false |}.

End Agent.

(* ===================================================================== *)
(** * proof-agent.js: the fleet monitor *)
(* ===================================================================== *)
Module Fleet.

Record worker := {
  w_name : string;
  w_critical : bool;
  isExternal : bool
}.

Definition FLEET : list worker :=
  [ {| w_name := "edge-sheriff"; w_critical := true; isExternal := false |};
    {| w_name := "ai-sheriff"; w_critical := true; isExternal := false |};
    {| w_name := "vetproof-consensus"; w_critical := true; isExternal := false |};
    {| w_name := "vetproof-workflow"; w_critical := true; isExternal := false |};
    {| w_name := "proof-agent"; w_critical := true; isExternal := false |};
    {| w_name := "vetproof-hitl"; w_critical := true; isExternal := false |};
    {| w_name := "sentient-collective"; w_critical := true; isExternal := false |};
    {| w_name := "regulation-tracker"; w_critical := false; isExternal := false |};
    {| w_name := "pi-sheriff"; w_critical := false; isExternal := true |} ].

(** [THRESHOLDS]. *)
Definition responseTimeWarning : Z := 2000.
Definition responseTimeCritical : Z := 5000.
Definition consecutiveFailures : Z := 3.

Record result := {
  name : string;
  critical : bool;
  status : string;
  responseTime : Z
}.

(** What [fetch] does on the health URL of a worker. *)
Inductive fetched :=
| Replied (ok : bool) (elapsed : Z)
| Threw (elapsed : Z).

Definition checkWorkerHealth (w : worker) (f : fetched) : result :=
  match f with
  | Replied ok responseTime =>
      {| name := w_name w;
         critical := w_critical w;
         status :=
           if negb ok then "down"
           else if responseTimeCritical <? responseTime then "degraded"
           else if responseTimeWarning <? responseTime then "degraded"
           else "healthy";
         responseTime := responseTime |}
  | Threw elapsed =>
      {| name := w_name w; critical := w_critical w; status := "down";
         responseTime := elapsed |}
  end.

(** [results.filter(p).length]. *)
Definition count (p : result -> bool) (results : list result) : Z :=
  Z.of_nat (List.length (filter p results)).

Definition calculateOverallStatus (results : list result) : string :=
  let criticalDown :=
    count (fun r => critical r && String.eqb (status r) "down") results in
  let anyDown := count (fun r => String.eqb (status r) "down") results in
  let degraded := count (fun r => String.eqb (status r) "degraded") results in
  if 0 <? criticalDown then "critical"
  else if (0 <? anyDown) || (2 <? degraded) then "degraded"
  else if 0 <? degraded then "warning"
  else "healthy".

Record alert := {
  severity : string;
  a_worker : string;
  a_status : string;
  a_consecutiveFailures : Z
}.

(** The failure counters of the cache, [fleet:failures:<name>]: decimal
    strings read back with [parseInt], the latest write first. *)
Definition counters := list (string * Z).

Definition failKey (n : string) : string := "fleet:failures:" ++ n.

Definition delete (k : string) (kv : counters) : counters :=
  filter (fun e => negb (String.eqb (fst e) k)) kv.

(** One turn of the loop over the results that keeps the counters. *)
Definition track (acc : list alert * counters) (r : result)
  : list alert * counters :=
  let '(alerts, kv) := acc in
  if String.eqb (status r) "down"
     || (String.eqb (status r) "degraded" && critical r) then
    let prevFails :=
      match Session.kv_get (failKey (name r)) kv with Some n => n | None => 0 end in
    let newFails := prevFails + 1 in
    let kv := (failKey (name r), newFails) :: kv in
    if consecutiveFailures <=? newFails then
      ((alerts ++ [ {| severity := if critical r then "critical" else "warning";
                       a_worker := name r;
                       a_status := status r;
                       a_consecutiveFailures := newFails |} ])%list, kv)
    else (alerts, kv)
  else (alerts, delete (failKey (name r)) kv).

Record report := {
  overallStatus : string;
  workerCount : Z;
  healthy : Z;
  degraded : Z;
  down : Z;
  external : Z;
  alerts : list alert;
  results : list result
}.

Definition pi_sheriff : result :=
  {| name := "pi-sheriff"; critical := false; status := "external";
     responseTime := 0 |}.

(** [runFleetHealthCheck]; [probe] is the outcome of the fetch for each
    worker of the fleet. *)
Definition runFleetHealthCheck (probe : worker -> fetched) (kv : counters)
  : report * counters :=
  let results :=
    (map (fun w => checkWorkerHealth w (probe w))
         (filter (fun w => negb (isExternal w)) FLEET)
     ++ [pi_sheriff])%list in
  let overallStatus := calculateOverallStatus results in
  let '(alerts, kv) := fold_left track results ([], kv) in
  ({| overallStatus := overallStatus;
      workerCount := Z.of_nat (List.length results);
      healthy := count (fun r => String.eqb (status r) "healthy") results;
      degraded := count (fun r => String.eqb (status r) "degraded") results;
      down := count (fun r => String.eqb (status r) "down") results;
      external := count (fun r => String.eqb (status r) "external") results;
      alerts := alerts;
      results := results |},
   kv).

(** The scheduled checks one after the other, the earliest first; the
    reports come out in the same order. *)
Definition checks (probes : list (worker -> fetched)) (kv : counters)
  : list report * counters :=
  fold_left
    (fun '(reports, kv) probe =>
       let '(r, kv) := runFleetHealthCheck probe kv in
       ((reports ++ [r])%list, kv))
    probes ([], kv).

(** The condition under which a result counts as a failure. *)
Definition failing (r : result) : bool :=
  String.eqb (status r) "down"
  || (String.eqb (status r) "degraded" && critical r).

(** The number of checks in a row, up to the last one, that a worker
    failed. *)
Definition streak (w : worker) (probes : list (worker -> fetched)) : Z :=
  fold_left
    (fun n probe => if failing (checkWorkerHealth w (probe w)) then n + 1 else 0)
    probes 0.

(** The counter of a worker, as the loop reads it. *)
Definition prev (n : string) (kv : counters) : Z :=
  match Session.kv_get (failKey n) kv with Some c => c | None => 0 end.

(** The alert the loop raises about a result. *)
Definition raised (r : result) (c : Z) : alert :=
  {| severity := if critical r then "critical" else "warning";
     a_worker := name r; a_status := status r; a_consecutiveFailures := c |}.

Definition about (n : string) (a : alert) : bool := String.eqb (a_worker a) n.

Definition monitored : list worker :=
  filter (fun w => negb (isExternal w)) FLEET.

(** Examples. *)
Definition all_well (w : worker) : fetched := Replied true 120.
Definition all_slow (w : worker) : fetched := Replied true 6000.
Definition agent_down (w : worker) : fetched :=
  if String.eqb (w_name w) "proof-agent" then Threw 5000 else Replied true 120.
Definition proof_agent : worker :=
  {| w_name := "proof-agent"; w_critical := true; isExternal := false |}.

End Fleet.

(* ===================================================================== *)
(** * proof-agent.js: the demo sandbox *)
(* ===================================================================== *)
Module Demo.

Record rateCheck := {
  allowed : bool;
  remaining : Z
}.

Definition key (ip date : string) : string := "demo:" ++ ip ++ ":" ++ date.

Definition current (ip date : string) (kv : list (string * Z)) : Z :=
  match Session.kv_get (key ip date) kv with Some n => n | None => 0 end.

(** [checkDemoRateLimit]; [RATE_LIMITS] is the binding, when there is one,
    with the counters it holds, and [date] the day of the call. *)
Definition checkDemoRateLimit (RATE_LIMITS : option (list (string * Z)))
    (ip date : string) : rateCheck * option (list (string * Z)) :=
  match RATE_LIMITS with
  | None => ({| allowed := true; remaining := 10 |}, None)
  | Some kv =>
      let current := current ip date kv in
      if 10 <=? current then ({| allowed := false; remaining := 0 |}, Some kv)
      else ({| allowed := true; remaining := 10 - current - 1 |},
            Some ((key ip date, current + 1) :: kv))
  end.

(** The keys of [DEMO_SCENARIOS]. *)
Definition DEMO_SCENARIOS : list string :=
  ["vetproof"; "legal"; "finance"; "halt"].

Definition known (scenarioId : string) : bool :=
  existsb (String.eqb scenarioId) DEMO_SCENARIOS.

(** [DEMO_SCENARIOS[scenarioId]] is truthy: a scenario, or a member that
    the object inherits from [Object.prototype]. *)
Definition found (scenarioId : string) : bool :=
  known scenarioId || Obj.inherited scenarioId.

Inductive response :=
| D404
| D429
| D500
| D200 (remaining : Z).

(** The [/v1/demo/<scenario>] route.  What is found under an inherited
    name has no [expectedResult]: [JSON.parse] throws on it, after the
    rate limit was counted, and the worker answers with status 500. *)
Definition handleDemo (scenarioId : string)
    (RATE_LIMITS : option (list (string * Z)))
    (ip date : string) : response * option (list (string * Z)) :=
  if negb (found scenarioId) then (D404, RATE_LIMITS)
  else
    let '(rateCheck, RATE_LIMITS) := checkDemoRateLimit RATE_LIMITS ip date in
    if negb (allowed rateCheck) then (D429, RATE_LIMITS)
    else if known scenarioId then (D200 (remaining rateCheck), RATE_LIMITS)
    else (D500, RATE_LIMITS).

(** The requests of one address on one day, one after the other. *)
Definition step (ip date : string)
    (acc : list response * option (list (string * Z))) (scenarioId : string)
  : list response * option (list (string * Z)) :=
  let '(responses, limits) := acc in
  let '(r, limits) := handleDemo scenarioId limits ip date in
  ((responses ++ [r])%list, limits).

Definition requests (scenarioIds : list string)
    (RATE_LIMITS : option (list (string * Z)))
    (ip date : string) : list response * option (list (string * Z)) :=
  fold_left (step ip date) scenarioIds ([], RATE_LIMITS).

Definition served (r : response) : bool :=
  match r with D200 _ => true | _ => false end.

(** The responses for which the rate limit was counted. *)
Definition counted (r : response) : bool :=
  match r with D200 _ | D500 => true | _ => false end.

(** The requests whose scenario id is found. *)
Definition hits (scenarioIds : list string) : Z :=
  Z.of_nat (List.length (filter found scenarioIds)).

(** No request names a member of [Object.prototype]. *)
Definition sound (scenarioIds : list string) : bool :=
  forallb (fun id => known id || negb (found id)) scenarioIds.

(** The response to a request when no rate limit is bound. *)
Definition unlimited (scenarioId : string) : response :=
  if known scenarioId then D200 10
  else if found scenarioId then D500
  else D404.

End Demo.

(* ===================================================================== *)
(** * regulation-tracker.js: the HTTP gateway of the HITL workflow *)
(* ===================================================================== *)
Module HitlApi.
Import Hitl.

Record review_body := {
  workflow_id : option string;
  claim_id : option string;
  reviewer : option string;
  reason : option string
}.

Inductive review_response :=
| Review401
| Review400
| Review500
| ReviewSent (type : string) (payload : decision).


(** [/v1/claims/reject]. *)
Definition handleReject (X_API_Key Authorization : option string)
    (body : review_body) (found : bool) : review_response :=
  if negb (Consensus.truthy_str X_API_Key || Consensus.truthy_str Authorization)
  then Review401
  else if negb (Consensus.truthy_str (workflow_id body))
          || negb (Consensus.truthy_str (claim_id body)) then Review400
  else if negb found then Review500
  else
    ReviewSent ("claim-review-" ++ JS.or_str (claim_id body) "")
      {| d_decision := "rejected";
         d_reviewer := Some (JS.or_str (reviewer body) "unknown");
         d_reason := Some (JS.or_str (reason body) "Manual rejection");
         d_auto := false |}.








End HitlApi.

(* ===================================================================== *)
(** * regulation-tracker.js: the domain analysis of a collective run *)
(* ===================================================================== *)
Module Analysis.

Record analysis := {
  domain_score : JS.num;
  confidence : JS.num;
  risk_factors : list string;
  recommendation : string
}.

(** The analysis used when the reply of the model does not parse. *)
Definition default_analysis : analysis :=
  {| domain_score := 0.5%float;
     confidence := 0.3%float;
     risk_factors := ["ai_screening_incomplete"];
     recommendation := "review" |}.

(** Step 2, [domain-analysis]: the parsed reply, if it parsed. *)
Definition domainAnalysis (parsed : option analysis) : analysis :=
  match parsed with Some a => a | None => default_analysis end.

(** Steps 1 to 3 of a run on [vertical]. *)
Definition haltCheck (vertical : string) (parsed : option analysis)
  : option Collective.haltCheck :=
  Collective.halt_check_of vertical (confidence (domainAnalysis parsed))
    (risk_factors (domainAnalysis parsed)).

(** The [status] of what a run on [vertical] returns: the routing error,
    or the recommendation of the domain analysis. *)
Definition status (vertical : string) (parsed : option analysis)
  : option string :=
  match Collective.route vertical with
  | Collective.RouteError _ => Some "error"
  | Collective.Inherited _ => None
  | Collective.Routed _ _ _ => Some (recommendation (domainAnalysis parsed))
  end.

(** The condition of step 5, [store-shards], on the count of the shards
    that step 4 kept. *)
Definition stores_shards (count : Z) (h : Collective.haltCheck) : bool :=
  (0 <? count) && negb (Collective.halt_triggered h).

(** An analysis that recommends approval with little confidence. *)
Definition hesitant : analysis :=
  {| domain_score := 0.5%float;
     confidence := 0.5%float;
     risk_factors := [];
     recommendation := "approve" |}.

(** A world in which the screening reply does not parse. *)
Definition garbled : Hitl.world :=
  {| Hitl.w_claim_uuid := "uuid-claim";
     Hitl.w_proof_uuid := "uuid-proof";
     Hitl.w_screening := None;
     Hitl.w_event := HitlExamples.rejection;
     Hitl.w_now := "2026-01-02T00:00:00Z";
     Hitl.w_processing_time_ms := 60000;
     Hitl.w_r2_throws := false;
     Hitl.w_audit_throws := false |}.

End Analysis.

(* ===================================================================== *)
(** * Properties of objects used as tables *)
(* ===================================================================== *)
Module ObjFacts.
Import Obj.

Section Table.

Context {N : Type}.

Lemma own_update_same k v (o : t N) :
  own k o <> None -> own k (update k v o) = Some v.
Proof.
  induction o as [|[a w] o IH]; cbn [own update]; [congruence|].
  destruct (String.eqb a k) eqn:E; cbn [own]; rewrite E; auto.
Qed.

Lemma own_update_other k k' v (o : t N) :
  k' <> k -> own k' (update k v o) = own k' o.
Proof.
  intros Hk. induction o as [|[a w] o IH]; cbn [own update]; [reflexivity|].
  destruct (String.eqb_spec a k) as [->|Ha]; cbn [own].
  - destruct (String.eqb_spec k k'); [congruence|reflexivity].
  - rewrite IH. reflexivity.
Qed.

Lemma own_create_same k v (o : t N) :
  own k o = None -> own k (create k v o) = Some v.
Proof.
  induction o as [|[a w] o IH]; cbn [own create].
  - rewrite String.eqb_refl. reflexivity.
  - destruct (String.eqb a k) eqn:E; [discriminate|]. intros H.
    destruct (before k a); cbn [own].
    + rewrite String.eqb_refl. reflexivity.
    + rewrite E. auto.
Qed.

Lemma own_create_other k k' v (o : t N) :
  k' <> k -> own k' (create k v o) = own k' o.
Proof.
  intros Hk. induction o as [|[a w] o IH]; cbn [own create].
  - destruct (String.eqb_spec k k'); [congruence|reflexivity].
  - destruct (before k a); cbn [own].
    + destruct (String.eqb_spec k k'); [congruence|reflexivity].
    + rewrite IH. reflexivity.
Qed.

Lemma own_set_same k v (o : t N) : own k (set k v o) = Some v.
Proof.
  unfold set. destruct (own k o) eqn:E.
  - apply own_update_same. congruence.
  - apply own_create_same. exact E.
Qed.

Lemma own_set_other k k' v (o : t N) :
  k' <> k -> own k' (set k v o) = own k' o.
Proof.
  intros Hk. unfold set. destruct (own k o).
  - apply own_update_other. exact Hk.
  - apply own_create_other. exact Hk.
Qed.

Lemma own_in k v (o : t N) : own k o = Some v -> In (k, v) o.
Proof.
  induction o as [|[a w] o IH]; cbn [own]; [discriminate|].
  destruct (String.eqb_spec a k) as [->|Ha].
  - intros [= ->]. left. reflexivity.
  - intros H. right. auto.
Qed.

(** The entries after an assignment are the new one and entries of
    before. *)
Lemma in_update k v (o : t N) e :
  In e (update k v o) -> e = (k, v) \/ In e o.
Proof.
  induction o as [|[a w] o IH]; cbn [update]; [intros []|].
  destruct (String.eqb_spec a k) as [->|Ha]; cbn [In].
  - intros [<-|H]; auto.
  - intros [<-|H]; auto. destruct (IH H); auto.
Qed.

Lemma in_create k v (o : t N) e :
  In e (create k v o) -> e = (k, v) \/ In e o.
Proof.
  induction o as [|[a w] o IH]; cbn [create].
  - intros [<-|[]]. auto.
  - destruct (before k a); cbn [In].
    + intros [<-|[<-|H]]; auto.
    + intros [<-|H]; auto. destruct (IH H); auto.
Qed.

Lemma in_set k v (o : t N) e :
  In e (set k v o) -> e = (k, v) \/ In e o.
Proof.
  unfold set. destruct (own k o); [apply in_update|apply in_create].
Qed.

Lemma create_perm k v (o : t N) : Permutation (create k v o) ((k, v) :: o).
Proof.
  induction o as [|[a w] o IH]; cbn [create]; [reflexivity|].
  destruct (before k a); [reflexivity|].
  rewrite IH. apply perm_swap.
Qed.

Lemma keys_update k v (o : t N) : map fst (update k v o) = map fst o.
Proof.
  induction o as [|[a w] o IH]; cbn [update map]; [reflexivity|].
  destruct (String.eqb a k); cbn [map fst]; [reflexivity|].
  rewrite IH. reflexivity.
Qed.

Lemma own_none_notin k (o : t N) : own k o = None -> ~ In k (map fst o).
Proof.
  induction o as [|[a w] o IH]; cbn [own map fst In]; [tauto|].
  destruct (String.eqb_spec a k) as [->|Ha]; [discriminate|].
  intros H [E|Hin]; [congruence|]. apply (IH H Hin).
Qed.

Lemma nodup_set k v (o : t N) :
  NoDup (map fst o) -> NoDup (map fst (set k v o)).
Proof.
  intros Hn. unfold set. destruct (own k o) eqn:E.
  - rewrite keys_update. exact Hn.
  - apply (Permutation_NoDup (l := k :: map fst o)).
    + symmetry. apply (Permutation_map fst (create_perm k v o)).
    + constructor; [apply own_none_notin, E|exact Hn].
Qed.

Lemma in_own k v (o : t N) :
  NoDup (map fst o) -> In (k, v) o -> own k o = Some v.
Proof.
  induction o as [|[a w] o IH]; cbn [map fst In own]; [tauto|].
  intros Hn. inversion Hn as [|? ? Hnot Hn']; subst.
  intros [[= -> ->]|Hin].
  - rewrite String.eqb_refl. reflexivity.
  - destruct (String.eqb_spec a k) as [->|Ha]; [|apply IH; assumption].
    exfalso. apply Hnot. apply (in_map fst) in Hin. exact Hin.
Qed.

End Table.

Lemma proto_inherited : inherited "__proto__" = true.
Proof. reflexivity. Qed.

Lemma plain_not_proto k : inherited k = false -> String.eqb k "__proto__" = false.
Proof.
  intros H. destruct (String.eqb_spec k "__proto__") as [->|]; [|reflexivity].
  rewrite proto_inherited in H. discriminate.
Qed.

End ObjFacts.

(* ===================================================================== *)
(** * The counting loop of [calculateConsensus] *)
(* ===================================================================== *)
Module TallyFacts.
Import Consensus ConsensusSpec Session Distribution.

Lemma tally_counts votes : forall c a b,
  fst (fst (fold_left
              (fun '(counts, totalConfidence, totalCoherence) vote =>
                 (bump (verdict vote) counts,
                  (totalConfidence + confidence vote)%float,
                  (totalCoherence + coherence_score vote)%float))
              votes (c, a, b)))
  = bumps votes c.
Proof.
  induction votes as [|v votes IH]; intros c a b; [reflexivity|].
  cbn [fold_left bumps]. apply IH.
Qed.

Lemma verdictCounts_bumps votes : verdictCounts votes = bumps votes [].
Proof. unfold verdictCounts, tally. apply tally_counts. Qed.

Lemma bumps_app votes votes' c :
  bumps (votes ++ votes') c = bumps votes' (bumps votes c).
Proof. unfold bumps. apply fold_left_app. Qed.

Lemma bump_other k k' c : k' <> k -> Obj.own k' (bump k c) = Obj.own k' c.
Proof.
  intros Hk. unfold bump, Obj.bump.
  destruct (Obj.own k c) as [[n|m ws]|]; try (apply ObjFacts.own_set_other, Hk).
  destruct (String.eqb k "__proto__"); [reflexivity|].
  destruct (Obj.inherited k); apply ObjFacts.own_set_other, Hk.
Qed.

(** The three ways in which the loop changes the object. *)
Lemma bump_fresh k c :
  Obj.own k c = None -> Obj.inherited k = false ->
  bump k c = Obj.create k (Obj.Num 1) c.
Proof.
  intros Ho Hi. unfold bump, Obj.bump. rewrite Ho, Hi.
  rewrite (ObjFacts.plain_not_proto _ Hi). unfold Obj.set. rewrite Ho. reflexivity.
Qed.

Lemma bump_num k n c :
  Obj.own k c = Some (Obj.Num n) ->
  bump k c = Obj.update k (Obj.Num (or_zero n + 1)) c.
Proof.
  intros Ho. unfold bump, Obj.bump. rewrite Ho. unfold Obj.set. rewrite Ho.
  reflexivity.
Qed.

Lemma bump_proto c : Obj.own "__proto__" c = None -> bump "__proto__" c = c.
Proof. intros Ho. unfold bump, Obj.bump. rewrite Ho. reflexivity. Qed.

Lemma count_of_snoc k seen v :
  count_of k (seen ++ [v])
  = count_of k seen + (if String.eqb (verdict v) k then 1 else 0).
Proof.
  unfold count_of. rewrite filter_app, length_app. cbn [filter].
  destruct (String.eqb (verdict v) k); cbn [List.length]; lia.
Qed.

Lemma count_of_nonneg k votes : 0 <= count_of k votes.
Proof. unfold count_of. lia. Qed.

Lemma count_of_le k votes : count_of k votes <= count votes.
Proof.
  unfold count_of, count. pose proof (filter_length_le
    (fun v => String.eqb (verdict v) k) votes). lia.
Qed.

Lemma repeat_snoc {A} (x : A) n : (repeat x n ++ [x])%list = repeat x (S n).
Proof.
  induction n as [|n IH]; [reflexivity|].
  cbn [repeat app]. rewrite IH. reflexivity.
Qed.

Lemma counted_step seen c v :
  counted seen c -> counted (seen ++ [v]) (bump (verdict v) c).
Proof.
  intros H k. unfold held. rewrite count_of_snoc.
  pose proof (count_of_nonneg k seen) as Hn.
  destruct (String.eqb_spec (verdict v) k) as [E|N].
  - rewrite E. specialize (H k). unfold held in H.
    destruct (Z.eqb_spec (count_of k seen + 1) 0) as [|_]; [lia|].
    cbn [orb]. unfold bump, Obj.bump.
    destruct (String.eqb k "__proto__") eqn:Ep.
    + rewrite orb_true_r in H. rewrite H. exact H.
    + rewrite orb_false_r in H.
      destruct (Z.eqb_spec (count_of k seen) 0) as [E0|E0].
      * rewrite H, E0. cbn [Z.add Z.to_nat Pos.to_nat Pos.iter_op repeat].
        destruct (Obj.inherited k); apply ObjFacts.own_set_same.
      * destruct (Obj.inherited k); rewrite H, ObjFacts.own_set_same.
        -- rewrite repeat_snoc.
           replace (Z.to_nat (count_of k seen + 1))
             with (S (Z.to_nat (count_of k seen))) by lia.
           reflexivity.
        -- unfold or_zero. destruct (Z.eqb_spec (count_of k seen) 0); [lia|].
           reflexivity.
  - rewrite Z.add_0_r, bump_other by congruence. apply H.
Qed.

Lemma counted_bumps votes : forall seen c,
  counted seen c -> counted (seen ++ votes) (bumps votes c).
Proof.
  induction votes as [|v votes IH]; intros seen c H.
  - rewrite app_nil_r. exact H.
  - cbn [bumps fold_left]. fold (bumps votes (bump (verdict v) c)).
    replace (seen ++ v :: votes)%list with ((seen ++ [v]) ++ votes)%list
      by (rewrite <- app_assoc; reflexivity).
    apply IH, counted_step, H.
Qed.

Lemma counted_verdictCounts votes : counted votes (verdictCounts votes).
Proof.
  rewrite verdictCounts_bumps. apply (counted_bumps votes [] []).
  intros k. reflexivity.
Qed.

(** The object holds one entry per key, so every entry is the one that
    the loop holds for its key. *)
Lemma nodup_bump k c :
  NoDup (map fst c) -> NoDup (map fst (bump k c)).
Proof.
  intros Hn. unfold bump, Obj.bump.
  destruct (Obj.own k c) as [[n|m ws]|]; try (apply ObjFacts.nodup_set, Hn).
  destruct (String.eqb k "__proto__"); [exact Hn|].
  destruct (Obj.inherited k); apply ObjFacts.nodup_set, Hn.
Qed.

Lemma nodup_bumps votes : forall c,
  NoDup (map fst c) -> NoDup (map fst (bumps votes c)).
Proof.
  induction votes as [|v votes IH]; intros c Hn; [exact Hn|].
  cbn [bumps fold_left]. apply IH, nodup_bump, Hn.
Qed.

Lemma entry_held votes k x :
  In (k, x) (verdictCounts votes) -> held k votes = Some x.
Proof.
  intros Hin. rewrite <- (counted_verdictCounts votes k).
  apply ObjFacts.in_own; [|exact Hin].
  rewrite verdictCounts_bumps. apply nodup_bumps. constructor.
Qed.

(** The object is empty exactly when every verdict is [__proto__]. *)
Lemma verdictCounts_nonempty votes v :
  In v votes -> verdict v <> "__proto__" -> verdictCounts votes <> [].
Proof.
  intros Hin Hv E.
  pose proof (counted_verdictCounts votes (verdict v)) as H.
  rewrite E in H. cbn [Obj.own] in H. unfold held in H.
  assert (Hc : 0 < count_of (verdict v) votes).
  { unfold count_of.
    assert (In v (filter (fun x => String.eqb (verdict x) (verdict v)) votes))
      by (apply filter_In; split; [exact Hin|apply String.eqb_refl]).
    destruct (filter _ votes); [contradiction|cbn [List.length]; lia]. }
  destruct (Z.eqb_spec (count_of (verdict v) votes) 0); [lia|].
  destruct (String.eqb_spec (verdict v) "__proto__"); [congruence|].
  cbn [orb] in H. destruct (Obj.inherited _); discriminate.
Qed.

Lemma verdictCounts_proto votes :
  (forall v, In v votes -> verdict v = "__proto__") -> verdictCounts votes = [].
Proof.
  rewrite verdictCounts_bumps. induction votes as [|v votes IH]; [reflexivity|].
  intros H. cbn [bumps fold_left]. rewrite (H v) by (left; reflexivity).
  apply IH. intros x Hx. apply H. right. exact Hx.
Qed.

(** Without verdicts named like members of [Object.prototype] every count
    is a number. *)
Lemma all_num_step k c :
  forallb is_num c = true -> Obj.inherited k = false ->
  forallb is_num (bump k c) = true.
Proof.
  intros Hc Hk. apply forallb_forall. intros e He.
  rewrite forallb_forall in Hc.
  destruct (Obj.own k c) as [[n|m ws]|] eqn:Eo.
  - rewrite (bump_num _ _ _ Eo) in He. apply ObjFacts.in_update in He.
    destruct He as [->|He]; [reflexivity|apply Hc, He].
  - apply ObjFacts.own_in, Hc in Eo. discriminate.
  - rewrite (bump_fresh _ _ Eo Hk) in He. apply ObjFacts.in_create in He.
    destruct He as [->|He]; [reflexivity|apply Hc, He].
Qed.

Lemma all_num_bumps votes : forall c,
  forallb is_num c = true -> plain votes = true ->
  forallb is_num (bumps votes c) = true.
Proof.
  induction votes as [|v votes IH]; intros c Hc Hp; [exact Hc|].
  cbn [plain forallb] in Hp. apply andb_prop in Hp. destruct Hp as [Hv Hp].
  cbn [bumps fold_left]. apply IH; [|exact Hp].
  apply all_num_step; [exact Hc|]. apply negb_true_iff, Hv.
Qed.

Lemma plain_all_num votes :
  plain votes = true -> forallb is_num (verdictCounts votes) = true.
Proof.
  intros Hp. rewrite verdictCounts_bumps. apply all_num_bumps; [reflexivity|exact Hp].
Qed.

(** The counts that are numbers add up to the votes that are counted
    with a number. *)
Lemma total_cons k v c : total ((k, v) :: c) = total [(k, v)] + total c.
Proof. unfold total. destruct v; cbn [numbers fold_right]; lia. Qed.

Lemma total_update k v old c :
  Obj.own k c = Some old ->
  total (Obj.update k v c) = total c - total [(k, old)] + total [(k, v)].
Proof.
  induction c as [|[a w] c IH]; cbn [Obj.own Obj.update]; [discriminate|].
  destruct (String.eqb_spec a k) as [->|Ha].
  - intros [= ->]. rewrite (total_cons k v c), (total_cons k old c). lia.
  - intros H. rewrite (total_cons a w c), (total_cons a w (Obj.update k v c)).
    rewrite IH by exact H. lia.
Qed.

Lemma total_create k v c : total (Obj.create k v c) = total [(k, v)] + total c.
Proof.
  induction c as [|[a w] c IH]; cbn [Obj.create]; [apply total_cons|].
  destruct (Obj.before k a); [apply total_cons|].
  rewrite (total_cons a w c), (total_cons a w (Obj.create k v c)), IH. lia.
Qed.

Lemma total_step seen c v :
  counted seen c ->
  total (bump (verdict v) c)
  = total c + (if Obj.inherited (verdict v) then 0 else 1).
Proof.
  intros Hc. set (k := verdict v). pose proof (Hc k) as Hk. unfold held in Hk.
  pose proof (count_of_nonneg k seen) as Hn.
  unfold bump, Obj.bump.
  destruct (String.eqb k "__proto__") eqn:Ep.
  - rewrite orb_true_r in Hk. rewrite Hk.
    apply String.eqb_eq in Ep. rewrite Ep. cbn. lia.
  - rewrite orb_false_r in Hk.
    destruct (Z.eqb_spec (count_of k seen) 0) as [E0|E0].
    + rewrite Hk. unfold Obj.set. rewrite Hk.
      destruct (Obj.inherited k); rewrite total_create; unfold total;
        cbn [numbers fold_right]; lia.
    + destruct (Obj.inherited k); rewrite Hk; unfold Obj.set; rewrite Hk;
        rewrite (total_update _ _ _ _ Hk).
      * unfold total. cbn [numbers fold_right]. lia.
      * unfold or_zero. destruct (Z.eqb_spec (count_of k seen) 0); [lia|].
        unfold total. cbn [numbers fold_right]. lia.
Qed.

Lemma numbered_snoc seen v :
  numbered (seen ++ [v])
  = numbered seen + (if Obj.inherited (verdict v) then 0 else 1).
Proof.
  unfold numbered. rewrite filter_app, length_app. cbn [filter].
  destruct (Obj.inherited (verdict v)); cbn [negb List.length]; lia.
Qed.

Lemma total_bumps votes : forall seen c,
  counted seen c -> total c = numbered seen ->
  total (bumps votes c) = numbered (seen ++ votes).
Proof.
  induction votes as [|v votes IH]; intros seen c Hc Ht.
  - rewrite app_nil_r. exact Ht.
  - cbn [bumps fold_left]. fold (bumps votes (bump (verdict v) c)).
    replace (seen ++ v :: votes)%list with ((seen ++ [v]) ++ votes)%list
      by (rewrite <- app_assoc; reflexivity).
    apply IH; [apply counted_step, Hc|].
    rewrite (total_step seen), numbered_snoc by exact Hc. lia.
Qed.

Lemma total_verdictCounts votes : total (verdictCounts votes) = numbered votes.
Proof.
  rewrite verdictCounts_bumps. apply (total_bumps votes [] []); [|reflexivity].
  intros k. reflexivity.
Qed.

Lemma numbered_plain votes :
  plain votes = true -> numbered votes = count votes.
Proof.
  unfold numbered, count, plain. intros H.
  induction votes as [|v votes IH]; [reflexivity|].
  cbn [forallb] in H. apply andb_prop in H. destruct H as [Hv Hp].
  cbn [filter]. rewrite Hv. cbn [List.length]. specialize (IH Hp). lia.
Qed.

End TallyFacts.

(* ===================================================================== *)
(** * Properties of [calculateConsensus] *)
(* ===================================================================== *)
Module ConsensusFacts.
Import Consensus ConsensusSpec.

Lemma insert_by_count_perm e l : Permutation (insert_by_count e l) (e :: l).
Proof.
  induction l as [|x l IH]; cbn [insert_by_count]; [reflexivity|].
  destruct (not_after e x); [reflexivity|].
  rewrite IH. apply perm_swap.
Qed.

Lemma sort_by_count_perm l : Permutation (sort_by_count l) l.
Proof.
  unfold sort_by_count.
  induction l as [|x l IH]; cbn [fold_right]; [reflexivity|].
  rewrite insert_by_count_perm. constructor. exact IH.
Qed.

(** The first entry of the sorted array is one of the entries; only the
    empty array has none. *)
Lemma first_by_count_in engine l e :
  first_by_count engine l = Some e -> In e l.
Proof.
  unfold first_by_count. destruct (consistent l).
  - intros H. apply (Permutation_in _ (sort_by_count_perm l)).
    destruct (sort_by_count l); [discriminate|].
    injection H as <-. left. reflexivity.
  - apply nth_error_In.
Qed.

Lemma first_by_count_some engine l :
  l <> [] -> exists e, first_by_count engine l = Some e.
Proof.
  intros Hl. unfold first_by_count. destruct (consistent l).
  - pose proof (sort_by_count_perm l) as Hp.
    destruct (sort_by_count l) as [|e s]; [|exists e; reflexivity].
    apply Permutation_nil in Hp. contradiction.
  - destruct (nth_error l (Nat.modulo (engine l) (List.length l))) as [e|] eqn:E;
      [exists e; reflexivity|].
    apply nth_error_None in E.
    assert (List.length l <> 0%nat) by (destruct l; [congruence|discriminate]).
    pose proof (Nat.mod_upper_bound (engine l) (List.length l)). lia.
Qed.

Lemma first_by_count_nil engine : first_by_count engine [] = None.
Proof. reflexivity. Qed.

(** The snapshot of a non-empty vote list, and the divisors met on the
    way to it. *)
Lemma calculateConsensus_cons engine now v vs :
  let votes := v :: vs in
  match majority engine (verdictCounts votes) with
  | None =>
      calculateConsensus engine now votes = (JS.Throws JS.TypeError, [JS.DivInt 3])
  | Some m =>
      exists s,
        calculateConsensus engine now votes =
          (JS.Returns (Computed s),
           [JS.DivInt 3; JS.DivInt (count votes); JS.DivInt (3 * count votes);
            JS.DivInt (count votes); JS.DivInt (count votes);
            JS.DivInt (count votes)])
        /\ s_status s = (if reaches (snd m) votes then CONSENSUS else DISAGREEMENT)
        /\ s_verdict s = fst m
        /\ confidence_std_dev s = stdDev votes
        /\ halt_triggered s = JS.gt (stdDev votes) 0.25%float
        /\ total_votes s = count votes
        /\ verdict_distribution s = verdictCounts votes
  end.
Proof.
  intros votes. subst votes.
  unfold calculateConsensus, reaches, stdDev, verdictCounts,
    totalConfidence, count.
  destruct (tally (v :: vs)) as [[counts tc] th]. cbn [fst snd].
  destruct (majority engine counts) as [m|]; [|reflexivity].
  eexists. split; [reflexivity|].
  repeat split.
Qed.

(** The computation throws exactly when every verdict is [__proto__]. *)
Lemma majority_some engine votes v :
  In v votes -> verdict v <> "__proto__" ->
  exists m, majority engine (verdictCounts votes) = Some m.
Proof.
  intros Hin Hv. apply first_by_count_some.
  apply (TallyFacts.verdictCounts_nonempty votes v Hin Hv).
Qed.

Lemma majority_none engine votes :
  (forall v, In v votes -> verdict v = "__proto__") ->
  majority engine (verdictCounts votes) = None.
Proof.
  intros H. rewrite (TallyFacts.verdictCounts_proto votes H). reflexivity.
Qed.

Lemma returns_inv engine now votes c :
  JS.value (calculateConsensus engine now votes) = JS.Returns c ->
  (votes = [] /\ c = Pending "No votes yet")
  \/ exists m s,
       votes <> []
       /\ majority engine (verdictCounts votes) = Some m
       /\ c = Computed s
       /\ s_status s = (if reaches (snd m) votes then CONSENSUS else DISAGREEMENT)
       /\ s_verdict s = fst m
       /\ confidence_std_dev s = stdDev votes
       /\ halt_triggered s = JS.gt (stdDev votes) 0.25%float
       /\ total_votes s = count votes
       /\ verdict_distribution s = verdictCounts votes.
Proof.
  destruct votes as [|v vs].
  - intros [= <-]. left. split; reflexivity.
  - pose proof (calculateConsensus_cons engine now v vs) as H. cbv zeta in H.
    destruct (majority engine (verdictCounts (v :: vs))) as [m|].
    + destruct H as (s & E & Hs). unfold JS.value. rewrite E. cbn [fst].
      intros [= <-]. right. exists m, s.
      split; [discriminate|]. split; [reflexivity|]. split; [reflexivity|].
      exact Hs.
    + unfold JS.value. rewrite H. discriminate.
Qed.

Lemma computed_inv engine now votes s :
  JS.value (calculateConsensus engine now votes) = JS.Returns (Computed s) ->
  votes <> []
  /\ s_status s = (if reached engine votes then CONSENSUS else DISAGREEMENT)
  /\ confidence_std_dev s = stdDev votes
  /\ halt_triggered s = JS.gt (stdDev votes) 0.25%float.
Proof.
  intros H. apply returns_inv in H.
  destruct H as [[_ H]|(m & s' & Hne & Hm & E & Hs & _ & Hd & Hh & _)];
    [discriminate|].
  injection E as <-. unfold reached, majorityCount. rewrite Hm. cbn [option_map].
  repeat split; assumption.
Qed.


Lemma count_pos v vs : 0 < count (v :: vs).
Proof. unfold count. cbn [List.length]. lia. Qed.

(** A count of at most [n - 1] among [n <= 3] votes, or a count that is a
    text, does not reach the threshold. *)
Lemma nan_never_reaches (y t : JS.num) :
  JS.ge (PrimFloat.nan / y)%float t = false.
Proof.
  unfold JS.ge. rewrite FloatAxioms.leb_spec, FloatAxioms.div_spec.
  change (FloatOps.Prim2SF PrimFloat.nan) with SpecFloat.S754_nan.
  destruct (FloatOps.Prim2SF y), (FloatOps.Prim2SF t); reflexivity.
Qed.

Lemma reaches_text m ws votes : reaches (Obj.Text m ws) votes = false.
Proof. unfold reaches, to_number. apply nan_never_reaches. Qed.

End ConsensusFacts.

(* ===================================================================== *)
(** * Properties of the verify step *)
(* ===================================================================== *)
Module WorkflowFacts.
Import Workflow.

Lemma aggregated_inv vs failed now a :
  JS.value (aggregate_votes vs failed now) = Aggregated a ->
  vs <> []
  /\ constitutional_halt a = JS.gt (confidence_std_dev a) 0.25%float
  /\ consensus_reached a = JS.ge (agreement_ratio a) (bft_threshold a)
  /\ bft_threshold a = (2 / JS.of_Z 3)%float.
Proof.
  destruct vs as [|v vs]; [discriminate|].
  unfold aggregate_votes.
  destruct (tally (v :: vs)) as [[tw wc] counts].
  destruct (majority counts) as [mv mw].
  destruct (JS.gt tw 0%float); cbn; intros [= <-]; cbn;
    (repeat split; try reflexivity; discriminate).
Qed.

Lemma no_quorum_inv vs failed now f t :
  JS.value (aggregate_votes vs failed now) = NoQuorum f t -> vs = [].
Proof.
  destruct vs as [|v vs]; [reflexivity|].
  unfold aggregate_votes.
  destruct (tally (v :: vs)) as [[tw wc] counts].
  destruct (majority counts) as [mv mw].
  destruct (JS.gt tw 0%float); cbn; discriminate.
Qed.

End WorkflowFacts.

Module ProofAgentFacts.
Import ProofAgent ProofAgentSpec.

Lemma verifyClaimInternal_result engine models ask :
  let r := JS.value (verifyClaimInternal engine models ask) in
  r_verdict r =
    (if r_constitutional_halt r then "CONSTITUTIONAL_HALT"
     else majorityVerdict engine (validVotes models ask))
  /\ r_constitutional_halt r = JS.gt (r_std_dev r) 0.25%float.
Proof.
  unfold verifyClaimInternal, validVotes. cbv zeta.
  set (valid := filter _ (collect models ask)).
  destruct (0 <? Z.of_nat (List.length valid));
    destruct (0 <? Z.of_nat (List.length (map confidence valid)));
    cbn [JS.bind JS.ret JS.div_int JS.ceil_div JS.value fst snd
         r_verdict r_constitutional_halt r_std_dev];
    split; reflexivity.
Qed.
End ProofAgentFacts.

(** X21. In the pipeline and in the agent the halt flag overrides the
    majority verdict: the proof bundle of [VetProofPipeline.run] carries
    [HALTED_FOR_REVIEW] as soon as the verify step reported
    [constitutional_halt], and the result of [verifyClaimInternal] carries
    [CONSTITUTIONAL_HALT] as soon as its [constitutional_halt] is true. *)
Theorem pipeline_and_agent_halt_on_flag :
  (forall stringify sha256 claim_id w e,
      Workflow.get_constitutional_halt
        (JS.value (Workflow.verify (Workflow.w_reply w) (Workflow.w_verified_at w)))
      = Some true ->
      Workflow.verdict_of (fst (Workflow.run stringify sha256 claim_id w e))
      = Some (Json.Str "HALTED_FOR_REVIEW"))
  /\ (forall engine models ask,
      ProofAgent.r_constitutional_halt
        (JS.value (ProofAgent.verifyClaimInternal engine models ask)) = true ->
      ProofAgent.r_verdict
        (JS.value (ProofAgent.verifyClaimInternal engine models ask))
      = "CONSTITUTIONAL_HALT").
Proof.
  split.
  - intros stringify sha256 claim_id w e H.
    unfold Workflow.run, Workflow.sign. cbv zeta.
    set (v := JS.value (Workflow.verify _ _)) in *.
    set (d := Workflow.detect v _ _).
    assert (Ht : Workflow.truthy (Workflow.halt_required d) = true).
    { subst d. unfold Workflow.detect. cbv zeta. cbn [Workflow.halt_required].
      rewrite H. destruct (3 <=? _); reflexivity. }
    unfold Workflow.verdict_of, Workflow.proofBundle. rewrite Ht. reflexivity.
  - intros engine models ask H.
    destruct (ProofAgentFacts.verifyClaimInternal_result engine models ask)
      as [Hv _].
    cbv zeta in Hv. rewrite Hv, H. reflexivity.
Qed.

Lemma pipeline_and_agent_halt_on_flag_witness :
  (Workflow.get_constitutional_halt
     (JS.value (Workflow.verify Examples.split_reply "2026-01-01T00:00:01Z"))
   = Some true
   /\ Workflow.verdict_of
        (fst (Workflow.run Examples.keys_of Examples.tagged "c1"
                (Examples.world_of Examples.split_reply) Examples.bound))
      = Some (Json.Str "HALTED_FOR_REVIEW"))
  /\ (ProofAgent.r_constitutional_halt
        (JS.value (ProofAgent.verifyClaimInternal ConsensusSpec.v8
                     Examples.agent_models Examples.agent_split)) = true
      /\ ProofAgent.r_verdict
           (JS.value (ProofAgent.verifyClaimInternal ConsensusSpec.v8
                        Examples.agent_models Examples.agent_split))
         = "CONSTITUTIONAL_HALT").
Proof.
  destruct pipeline_and_agent_halt_on_flag as [Hw Ha].
  split; split.
  - vm_compute. reflexivity.
  - apply (Hw Examples.keys_of Examples.tagged "c1"
              (Examples.world_of Examples.split_reply) Examples.bound).
    vm_compute. reflexivity.
  - vm_compute. reflexivity.
  - apply Ha. vm_compute. reflexivity.
Defined.

(** C1 (the code departs from it). The Durable Object raises its halt flag
    without halting: two votes for VERIFIED with confidences 1 and 0 have
    a standard deviation of 0.5, the snapshot carries [halt_triggered]
    true together with the status CONSENSUS and the majority verdict
    VERIFIED, and the worker archives and caches it as the proof of the
    claim.  In the collective workflow the halt on the domain threshold
    does not change the status either: an analysis that recommends
    approval with confidence 0.5 raises the flag of the vetproof vertical
    (threshold 0.67) and the run returns the status [approve]. *)
Theorem halt_flag_does_not_stop_consensus :
  (forall engine,
     let first :=
       Consensus.handleConsensusVote engine "2026-01-01 00:00:01"
         "2026-01-01T00:00:01Z" false ConsensusSpec.torn_first
         ConsensusSpec.blank in
     let out :=
       Consensus.handleConsensusVote engine "2026-01-01 00:00:02"
         "2026-01-01T00:00:02Z" false ConsensusSpec.torn_second (snd first) in
     exists result s,
       fst out = Consensus.Status200 result
       /\ Consensus.r_consensus result = Consensus.Computed s
       /\ Consensus.halt_triggered s = true
       /\ Consensus.confidence_std_dev s = 0.5%float
       /\ Consensus.s_status s = Consensus.CONSENSUS
       /\ Consensus.s_verdict s = "VERIFIED"
       /\ Consensus.PROOF_STORAGE (snd out)
          = Some [("proofs/c1.json",
                   {| Consensus.a_claim_id := "c1";
                      Consensus.a_consensus := Consensus.Computed s;
                      Consensus.a_votes := Consensus.r_votes result;
                      Consensus.archived_at := "2026-01-01T00:00:02Z" |})]
       /\ Consensus.VERIFICATION_CACHE (snd out)
          = Some [("c1", Consensus.Computed s)])
  /\ (exists h,
        Analysis.haltCheck "vetproof" (Some Analysis.hesitant) = Some h
        /\ Collective.halt_triggered h = true
        /\ Analysis.status "vetproof" (Some Analysis.hesitant) = Some "approve").
Proof.
  split.
  - intros engine. cbv zeta. eexists. eexists.
    split; [vm_compute; reflexivity|].
    repeat split.
  - eexists. split; [vm_compute; reflexivity|]. split; reflexivity.
Qed.

Module CollectiveFacts.
Import Collective CollectiveSpec.

Lemma halt_check_inv vertical confidence rf h :
  halt_check_of vertical confidence rf = Some h ->
  exists theta,
    In (vertical, theta) domain_thresholds
    /\ threshold h = theta
    /\ halt_triggered h = JS.lt confidence theta
    /\ JS.lt theta theta = false.
Proof.
  unfold halt_check_of, route, VERTICALS, find.
  destruct (String.eqb_spec "vetproof" vertical) as [<-|_].
  { intros [= <-]. eexists. repeat split. cbn; tauto. }
  destruct (String.eqb_spec "legal" vertical) as [<-|_].
  { intros [= <-]. eexists. repeat split. cbn; tauto. }
  destruct (String.eqb_spec "finance" vertical) as [<-|_].
  { intros [= <-]. eexists. repeat split. cbn; tauto. }
  destruct (String.eqb_spec "health" vertical) as [<-|_].
  { intros [= <-]. eexists. repeat split. cbn; tauto. }
  destruct (String.eqb_spec "education" vertical) as [<-|_].
  { intros [= <-]. eexists. repeat split. cbn; tauto. }
  destruct (String.eqb_spec "aviation" vertical) as [<-|_].
  { intros [= <-]. eexists. repeat split. cbn; tauto. }
  cbn [Obj.inherited]. destruct (Obj.inherited vertical); discriminate.
Qed.

Lemma halt_check_total vertical theta confidence rf :
  In (vertical, theta) domain_thresholds ->
  exists h, halt_check_of vertical confidence rf = Some h /\ threshold h = theta.
Proof.
  unfold domain_thresholds. cbn [In].
  intros [H|[H|[H|[H|[H|[H|[]]]]]]]; injection H as <- <-;
    eexists; split; reflexivity.
Qed.
End CollectiveFacts.

(** C5 (as amended). The variance halt is strict: the flag is
    [stdDev > 0.25], so a vote set whose standard deviation is exactly 0.25
    does not halt, in [calculateConsensus], in the verify step of the
    pipeline and in [verifyClaimInternal] alike. *)
Theorem variance_halt_is_strict :
  (forall engine now votes s,
      JS.value (Consensus.calculateConsensus engine now votes)
      = JS.Returns (Consensus.Computed s) ->
      Consensus.halt_triggered s = JS.gt (Consensus.confidence_std_dev s) 0.25%float
      /\ (Consensus.confidence_std_dev s = 0.25%float ->
          Consensus.halt_triggered s = false))
  /\ (forall reply now a,
      JS.value (Workflow.verify reply now) = Workflow.Aggregated a ->
      Workflow.constitutional_halt a = JS.gt (Workflow.confidence_std_dev a) 0.25%float
      /\ (Workflow.confidence_std_dev a = 0.25%float ->
          Workflow.constitutional_halt a = false))
  /\ (forall engine models ask,
      let r := JS.value (ProofAgent.verifyClaimInternal engine models ask) in
      ProofAgent.r_constitutional_halt r = JS.gt (ProofAgent.r_std_dev r) 0.25%float
      /\ (ProofAgent.r_std_dev r = 0.25%float ->
          ProofAgent.r_constitutional_halt r = false)).
Proof.
  split; [|split].
  - intros engine now votes s H.
    destruct (ConsensusFacts.computed_inv _ _ _ _ H) as (_ & _ & Hd & Hh).
    rewrite Hh, Hd. split; [reflexivity|].
    intros ->. reflexivity.
  - intros reply now a H.
    destruct (WorkflowFacts.aggregated_inv _ _ _ _ H) as (_ & Hh & _).
    rewrite Hh. split; [reflexivity|].
    intros ->. reflexivity.
  - intros engine models ask r.
    destruct (ProofAgentFacts.verifyClaimInternal_result engine models ask)
      as [_ Hh].
    cbv zeta in Hh. subst r. rewrite Hh. split; [reflexivity|].
    intros ->. reflexivity.
Qed.

Lemma variance_halt_is_strict_witness :
  (exists s,
      JS.value (Consensus.calculateConsensus ConsensusSpec.v8 "t"
                  ConsensusSpec.boundary_votes)
      = JS.Returns (Consensus.Computed s)
      /\ Consensus.confidence_std_dev s = 0.25%float
      /\ Consensus.halt_triggered s = false)
  /\ (exists a,
      JS.value (Workflow.verify Examples.boundary_reply "t") = Workflow.Aggregated a
      /\ Workflow.confidence_std_dev a = 0.25%float
      /\ Workflow.constitutional_halt a = false)
  /\ (ProofAgent.r_std_dev
        (JS.value (ProofAgent.verifyClaimInternal ConsensusSpec.v8
                     Examples.agent_models Examples.agent_boundary))
      = 0.25%float
      /\ ProofAgent.r_constitutional_halt
           (JS.value (ProofAgent.verifyClaimInternal ConsensusSpec.v8
                        Examples.agent_models Examples.agent_boundary))
         = false).
Proof.
  destruct variance_halt_is_strict as (Hc & Hw & Ha).
  split; [|split].
  - eexists. split; [vm_compute; reflexivity|].
    split; [vm_compute; reflexivity|].
    apply (Hc ConsensusSpec.v8 "t" ConsensusSpec.boundary_votes);
      vm_compute; reflexivity.
  - eexists. split; [vm_compute; reflexivity|].
    split; [vm_compute; reflexivity|].
    apply (Hw Examples.boundary_reply "t"); vm_compute; reflexivity.
  - split; [vm_compute; reflexivity|].
    apply Ha. vm_compute. reflexivity.
Defined.

(** C5 (as stated) fails: the confidences 0.25 and 0.75 have a standard
    deviation of exactly 0.25 and [halt_triggered] is false. *)
Lemma variance_halt_at_threshold_counterexample :
  match JS.value (Consensus.calculateConsensus ConsensusSpec.v8 "t"
                    ConsensusSpec.boundary_votes) with
  | JS.Returns (Consensus.Computed s) =>
      Consensus.confidence_std_dev s = 0.25%float
      /\ Consensus.halt_triggered s = false
  | _ => False
  end.
Proof. vm_compute. split; reflexivity. Qed.
(* ===================================================================== *)
(** * The quorum of small sessions *)
(* ===================================================================== *)
Module QuorumFacts.
Import Consensus ConsensusSpec Distribution.

(** The entry that the sort puts first is the one the loop holds under
    its key. *)
Lemma majority_held engine votes m :
  majority engine (verdictCounts votes) = Some m ->
  held (fst m) votes = Some (snd m).
Proof.
  intros H. apply ConsensusFacts.first_by_count_in in H.
  destruct m as [k x]. apply TallyFacts.entry_held. exact H.
Qed.

Lemma majority_number engine votes k n :
  majority engine (verdictCounts votes) = Some (k, Obj.Num n) ->
  n = count_of k votes /\ 0 < n.
Proof.
  intros H. apply majority_held in H. cbn [fst snd] in H. unfold held in H.
  pose proof (TallyFacts.count_of_nonneg k votes).
  destruct (Z.eqb_spec (count_of k votes) 0); [discriminate|].
  destruct (String.eqb k "__proto__"); [discriminate|].
  destruct (Obj.inherited k); [discriminate|].
  injection H as <-. lia.
Qed.

(** The status of a snapshot is the outcome of the comparison. *)
Lemma agreed_reached engine now v vs :
  agreed (JS.value (calculateConsensus engine now (v :: vs)))
  = reached engine (v :: vs).
Proof.
  pose proof (ConsensusFacts.calculateConsensus_cons engine now v vs) as H.
  cbv zeta in H. unfold reached, majorityCount.
  destruct (majority engine (verdictCounts (v :: vs))) as [m|].
  - destruct H as (s & E & Hs & _). unfold JS.value. rewrite E.
    cbn [fst agreed is_consensus option_map]. rewrite Hs.
    destruct (reaches (snd m) (v :: vs)); reflexivity.
  - unfold JS.value. rewrite H. reflexivity.
Qed.

Lemma count_of_pos_in k votes :
  0 < count_of k votes -> exists v, In v votes /\ verdict v = k.
Proof.
  unfold count_of.
  destruct (filter (fun v => String.eqb (verdict v) k) votes) as [|v l] eqn:E;
    [cbn; lia|].
  intros _. exists v.
  assert (In v (filter (fun v => String.eqb (verdict v) k) votes))
    by (rewrite E; left; reflexivity).
  apply filter_In in H. destruct H as [H1 H2].
  split; [exact H1|apply String.eqb_eq, H2].
Qed.

Lemma count_of_lt_in k votes :
  count_of k votes < count votes -> exists v, In v votes /\ verdict v <> k.
Proof.
  unfold count_of, count. induction votes as [|v votes IH]; cbn [filter List.length].
  - lia.
  - destruct (String.eqb_spec (verdict v) k) as [E|N].
    + cbn [List.length]. intros H.
      destruct IH as (x & Hx & Hk); [lia|]. exists x. split; [right|]; assumption.
    + intros _. exists v. split; [left; reflexivity|exact N].
Qed.

Lemma count_of_two k k' votes :
  k <> k' -> count_of k votes + count_of k' votes <= count votes.
Proof.
  intros Hk. unfold count_of, count.
  induction votes as [|v votes IH]; cbn [filter List.length]; [lia|].
  destruct (String.eqb_spec (verdict v) k) as [E|N];
    destruct (String.eqb_spec (verdict v) k') as [E'|N'];
    cbn [List.length]; try lia; congruence.
Qed.

Lemma single_vote_disagrees engine v : reached engine [v] = false.
Proof.
  unfold reached, majorityCount.
  destruct (majority engine (verdictCounts [v])) as [[k [n|m ws]]|] eqn:Em;
    cbn [option_map snd]; [|apply ConsensusFacts.reaches_text|reflexivity].
  apply majority_number in Em. destruct Em as [-> Hn].
  pose proof (TallyFacts.count_of_le k [v]) as Hle.
  change (count [v]) with 1 in Hle.
  replace (count_of k [v]) with 1 by lia. vm_compute. reflexivity.
Qed.

Lemma two_votes_reach_iff_agree engine a b :
  reached engine [a; b]
  = String.eqb (verdict a) (verdict b) && negb (Obj.inherited (verdict a)).
Proof.
  unfold reached, majorityCount.
  destruct (majority engine (verdictCounts [a; b])) as [[k x]|] eqn:Em;
    cbn [option_map snd].
  - apply majority_held in Em. cbn [fst snd] in Em.
    unfold held, count_of in Em. cbn [filter] in Em. revert Em.
    destruct (String.eqb_spec (verdict a) k) as [Ea|Na];
      destruct (String.eqb_spec (verdict b) k) as [Eb|Nb];
      cbn [List.length Z.of_nat Pos.of_succ_nat Pos.succ Z.eqb orb].
    + rewrite Ea, Eb, String.eqb_refl.
      destruct (String.eqb k "__proto__"); [discriminate|].
      destruct (Obj.inherited k); intros [= <-].
      * apply ConsensusFacts.reaches_text.
      * vm_compute. reflexivity.
    + replace (String.eqb (verdict a) (verdict b)) with false
        by (symmetry; apply String.eqb_neq; congruence).
      destruct (String.eqb k "__proto__"); [discriminate|].
      destruct (Obj.inherited k); intros [= <-].
      * apply ConsensusFacts.reaches_text.
      * vm_compute. reflexivity.
    + replace (String.eqb (verdict a) (verdict b)) with false
        by (symmetry; apply String.eqb_neq; congruence).
      destruct (String.eqb k "__proto__"); [discriminate|].
      destruct (Obj.inherited k); intros [= <-].
      * apply ConsensusFacts.reaches_text.
      * vm_compute. reflexivity.
    + discriminate.
  - destruct (String.eqb_spec (verdict a) "__proto__") as [E|N].
    + rewrite E. cbn [Obj.inherited]. rewrite andb_false_r. reflexivity.
    + destruct (ConsensusFacts.majority_some engine [a; b] a) as (m & Hm);
        [left; reflexivity|exact N|congruence].
Qed.

(** With three votes the threshold 8/9 asks for unanimity. *)
Lemma three_votes_reach_iff_unanimous engine a b c :
  reached engine [a; b; c] =
    String.eqb (verdict a) (verdict b) && String.eqb (verdict a) (verdict c)
    && negb (Obj.inherited (verdict a)).
Proof.
  unfold reached, majorityCount.
  destruct (majority engine (verdictCounts [a; b; c])) as [[k x]|] eqn:Em;
    cbn [option_map snd].
  - apply majority_held in Em. cbn [fst snd] in Em.
    unfold held, count_of in Em. cbn [filter] in Em. revert Em.
    destruct (String.eqb_spec (verdict a) k) as [Ea|Na];
      destruct (String.eqb_spec (verdict b) k) as [Eb|Nb];
      destruct (String.eqb_spec (verdict c) k) as [Ec|Nc];
      cbn [List.length Z.of_nat Pos.of_succ_nat Pos.succ Z.eqb orb];
      try discriminate;
      try (rewrite Ea, Eb, Ec, !String.eqb_refl);
      try (replace (String.eqb (verdict a) (verdict b)) with false
             by (symmetry; apply String.eqb_neq; congruence));
      try (replace (String.eqb (verdict a) (verdict c)) with false
             by (symmetry; apply String.eqb_neq; congruence));
      rewrite ?andb_false_r; cbn [andb];
      (destruct (String.eqb k "__proto__"); [discriminate|]);
      (destruct (Obj.inherited k); intros [= <-];
       [apply ConsensusFacts.reaches_text|vm_compute; reflexivity]).
  - destruct (String.eqb_spec (verdict a) "__proto__") as [E|N].
    + rewrite E. cbn [Obj.inherited]. rewrite andb_false_r. reflexivity.
    + destruct (ConsensusFacts.majority_some engine [a; b; c] a) as (m & Hm);
        [left; reflexivity|exact N|congruence].
Qed.

End QuorumFacts.

(** C2. Three votes of which the majority verdict holds exactly two
    thirds do not reach BFT consensus: [calculateConsensus] returns a
    snapshot, in which the agreement 2/3 was compared with the threshold
    (2*3+2)/(3*3) = 8/9, and reports DISAGREEMENT. *)
Theorem two_thirds_of_three_is_not_consensus :
  forall engine now votes,
    ConsensusSpec.count votes = 3 ->
    (exists k, ConsensusSpec.count_of k votes = 2) ->
    exists s,
      JS.value (Consensus.calculateConsensus engine now votes)
      = JS.Returns (Consensus.Computed s)
      /\ Consensus.s_status s = Consensus.DISAGREEMENT.
Proof.
  intros engine now votes Hn (k & Hk).
  assert (Hv : exists v, In v votes /\ Consensus.verdict v <> "__proto__").
  { destruct (String.eqb_spec k "__proto__") as [->|N].
    - apply QuorumFacts.count_of_lt_in. lia.
    - destruct (QuorumFacts.count_of_pos_in k votes) as (v & Hin & Hv); [lia|].
      exists v. split; [exact Hin|congruence]. }
  destruct Hv as (v & Hin & Hv).
  destruct (ConsensusFacts.majority_some engine votes v Hin Hv) as (m & Hm).
  destruct votes as [|a [|b [|c [|d rest]]]];
    try (unfold ConsensusSpec.count in Hn; cbn [List.length] in Hn; lia).
  pose proof (ConsensusFacts.calculateConsensus_cons engine now a [b; c]) as H.
  cbv zeta in H. rewrite Hm in H. destruct H as (s & E & Hs & _).
  exists s. unfold JS.value. rewrite E. split; [reflexivity|].
  rewrite Hs.
  pose proof (QuorumFacts.three_votes_reach_iff_unanimous engine a b c) as Hr.
  unfold ConsensusSpec.reached, Consensus.majorityCount in Hr.
  rewrite Hm in Hr. cbn [option_map] in Hr. rewrite Hr.
  assert (Hu : String.eqb (Consensus.verdict a) (Consensus.verdict b)
               && String.eqb (Consensus.verdict a) (Consensus.verdict c) = false).
  { unfold ConsensusSpec.count_of in Hk. cbn [filter] in Hk. revert Hk.
    destruct (String.eqb_spec (Consensus.verdict a) (Consensus.verdict b)) as [<-|];
      [|reflexivity].
    destruct (String.eqb_spec (Consensus.verdict a) (Consensus.verdict c)) as [<-|];
      [|reflexivity].
    destruct (String.eqb (Consensus.verdict a) k); cbn [List.length]; lia. }
  rewrite Hu. reflexivity.
Qed.

Lemma two_thirds_of_three_is_not_consensus_witness :
  exists s,
    JS.value (Consensus.calculateConsensus ConsensusSpec.v8 "t"
                ConsensusSpec.two_of_three)
    = JS.Returns (Consensus.Computed s)
    /\ Consensus.s_status s = Consensus.DISAGREEMENT.
Proof.
  apply (two_thirds_of_three_is_not_consensus ConsensusSpec.v8 "t"
           ConsensusSpec.two_of_three).
  - vm_compute. reflexivity.
  - exists "VERIFIED". vm_compute. reflexivity.
Defined.

Module VerifyFacts.
Import Workflow.

(** The verify step sees the replies of its two models only. *)
Lemma verify_unfold reply now :
  verify reply now =
    aggregate_votes
      (successful models [reply llama; reply qwen])
      (failed_count [reply llama; reply qwen]) now.
Proof. reflexivity. Qed.

Lemma at_most_two_votes reply :
  (List.length (successful models (map reply models)) <= 2)%nat.
Proof.
  unfold models. cbn [map successful].
  destruct (reply _) as [|[p1|]]; destruct (reply _) as [|[p2|]]; cbn; lia.
Qed.

Ltac by_replies reply :=
  rewrite verify_unfold;
  destruct (reply llama) as [|[?p|]];
  destruct (reply qwen) as [|[?p|]].

Lemma aggregate_divisors v vs failed now :
  let tw := fst (fst (tally (v :: vs))) in
  let len := Z.of_nat (List.length (v :: vs)) in
  JS.divisors (aggregate_votes (v :: vs) failed now) =
    ((if JS.gt tw 0%float then [JS.DivNum tw] else [])
     ++ [JS.DivNum tw; JS.DivInt 3; JS.DivInt len; JS.DivInt len])%list.
Proof.
  unfold aggregate_votes. cbv zeta.
  destruct (tally (v :: vs)) as [[tw wc] counts].
  destruct (majority counts) as [mv mw].
  cbn [fst]. rewrite length_map.
  destruct (JS.gt tw 0%float); reflexivity.
Qed.

Lemma verify_divisors reply now :
  forallb JS.nonzero (JS.divisors (verify reply now)) = true.
Proof.
  by_replies reply; cbn [successful models];
    try rewrite aggregate_divisors; vm_compute; reflexivity.
Qed.

Lemma verify_no_votes reply now :
  successful models (map reply models) = [] ->
  verify reply now = (NoQuorum (failed_count (map reply models)) now, []).
Proof.
  unfold verify. intros ->. reflexivity.
Qed.

(** What the counting loop holds after a single vote. *)
Lemma lone_bump k w :
  bump k w [] =
    if String.eqb k "__proto__" then []
    else if Obj.inherited k then [(k, Obj.Text k [w])]
    else [(k, Obj.Num (0 + w)%float)].
Proof.
  unfold bump, Obj.bump. cbn [Obj.own].
  destruct (String.eqb k "__proto__"); [reflexivity|].
  destruct (Obj.inherited k); reflexivity.
Qed.

Lemma lone_vote_consensus v failed now :
  (mv_weight v = 1.0%float \/ mv_weight v = 1.2%float) ->
  exists a,
    JS.value (aggregate_votes [v] failed now) = Aggregated a
    /\ consensus_reached a
       = negb (Obj.inherited (JS.or_str (p_verdict (mv_parsed v)) "UNKNOWN")).
Proof.
  intros Hw. unfold aggregate_votes, tally. cbn [fold_left].
  rewrite lone_bump.
  set (k := JS.or_str (p_verdict (mv_parsed v)) "UNKNOWN").
  destruct (String.eqb k "__proto__") eqn:Ep.
  - apply String.eqb_eq in Ep. rewrite Ep.
    destruct Hw as [-> | ->]; (eexists; split; [reflexivity|vm_compute; reflexivity]).
  - destruct (Obj.inherited k);
      destruct Hw as [-> | ->];
      (eexists; split; [reflexivity|vm_compute; reflexivity]).
Qed.

Lemma lone_vote_reaches_consensus reply now v :
  successful models (map reply models) = [v] ->
  exists a, JS.value (verify reply now) = Aggregated a
            /\ consensus_reached a
               = negb (Obj.inherited
                         (JS.or_str (p_verdict (mv_parsed v)) "UNKNOWN")).
Proof.
  unfold models at 1 2. cbn [map successful]. fold llama qwen.
  rewrite verify_unfold.
  destruct (reply llama) as [|[p1|]];
    destruct (reply qwen) as [|[p2|]];
    cbn [successful]; try discriminate; intros [= <-];
    apply lone_vote_consensus; cbn [mv_weight];
    ((left; reflexivity) || (right; reflexivity)).
Qed.

End VerifyFacts.

(** C4 (as stated) fails: two valid votes that agree reach consensus. *)
Lemma two_votes_reach_consensus_counterexample :
  (ConsensusSpec.count ConsensusSpec.two_agreeing < 3)
  /\ ConsensusSpec.agreed
       (JS.value (Consensus.calculateConsensus ConsensusSpec.v8 "t"
                    ConsensusSpec.two_agreeing))
     = true.
Proof. split; [vm_compute; reflexivity|vm_compute; reflexivity]. Qed.

(** C4 (as amended). No minimum of three votes is enforced.  In
    [calculateConsensus] fewer than two votes never give CONSENSUS, and two
    votes give it exactly when their verdicts are equal and are not the
    name of a member of [Object.prototype]; in the verify step of the
    pipeline a single successful vote already has [consensus_reached]
    true, unless its verdict is such a name. *)
Theorem consensus_below_three_votes :
  (forall engine now votes,
      ConsensusSpec.count votes < 2 ->
      ConsensusSpec.agreed
        (JS.value (Consensus.calculateConsensus engine now votes)) = false)
  /\ (forall engine now a b,
      ConsensusSpec.agreed
        (JS.value (Consensus.calculateConsensus engine now [a; b]))
      = String.eqb (Consensus.verdict a) (Consensus.verdict b)
        && negb (Obj.inherited (Consensus.verdict a)))
  /\ (forall reply now v,
      Workflow.successful Workflow.models (map reply Workflow.models) = [v] ->
      exists a, JS.value (Workflow.verify reply now) = Workflow.Aggregated a
                /\ Workflow.consensus_reached a
                   = negb (Obj.inherited
                             (JS.or_str
                                (Workflow.p_verdict (Workflow.mv_parsed v))
                                "UNKNOWN"))).
Proof.
  split; [|split].
  - intros engine now [|v [|v' vs]] Hn.
    + reflexivity.
    + rewrite QuorumFacts.agreed_reached.
      apply QuorumFacts.single_vote_disagrees.
    + unfold ConsensusSpec.count in Hn. cbn [List.length] in Hn. lia.
  - intros engine now a b. rewrite QuorumFacts.agreed_reached.
    apply QuorumFacts.two_votes_reach_iff_agree.
  - apply VerifyFacts.lone_vote_reaches_consensus.
Qed.

Lemma consensus_below_three_votes_witness :
  ConsensusSpec.agreed
    (JS.value (Consensus.calculateConsensus ConsensusSpec.v8 "t"
                 [ConsensusSpec.row "m1" "VERIFIED" 0.875%float]))
  = false
  /\ exists a, JS.value (Workflow.verify Examples.lone_reply "t") = Workflow.Aggregated a
               /\ Workflow.consensus_reached a = true.
Proof.
  destruct consensus_below_three_votes as (H1 & _ & H3).
  split.
  - apply H1. vm_compute. reflexivity.
  - destruct (H3 Examples.lone_reply "t"
                {| Workflow.mv_model := "llama-3.1-8b";
                   Workflow.mv_weight := 1.0%float;
                   Workflow.mv_parsed :=
                     {| Workflow.p_verdict := Some "VERIFIED";
                        Workflow.p_confidence := Some 0.9%float;
                        Workflow.p_cfr_sections := Json.Arr [];
                        Workflow.p_nexus_strength := Json.Str "direct" |} |}
                eq_refl) as (a & Ea & Hr).
    exists a. split; [exact Ea|]. rewrite Hr. reflexivity.
Defined.

(** X22. The consensus computations never divide by zero.  On no votes
    they return their pending / no-quorum result before any division; on
    every input each divisor they meet is different from zero, also when
    [calculateConsensus] throws. *)
Theorem divisors_are_never_zero :
  (forall engine now,
      Consensus.calculateConsensus engine now []
      = (JS.Returns (Consensus.Pending "No votes yet"), []))
  /\ (forall engine now votes,
      forallb JS.nonzero
        (JS.divisors (Consensus.calculateConsensus engine now votes)) = true)
  /\ (forall reply now,
      Workflow.successful Workflow.models (map reply Workflow.models) = [] ->
      Workflow.verify reply now
      = (Workflow.NoQuorum (Workflow.failed_count (map reply Workflow.models)) now, []))
  /\ (forall reply now,
      forallb JS.nonzero (JS.divisors (Workflow.verify reply now)) = true)
  /\ (forall engine models ask,
      forallb JS.nonzero
        (JS.divisors (ProofAgent.verifyClaimInternal engine models ask))
      = true).
Proof.
  split; [reflexivity|]. split; [|split; [|split]].
  - intros engine now [|v vs]; [reflexivity|].
    pose proof (ConsensusFacts.calculateConsensus_cons engine now v vs) as H.
    cbv zeta in H.
    destruct (Consensus.majority engine (Consensus.verdictCounts (v :: vs)));
      [|rewrite H; reflexivity].
    destruct H as (s & E & _).
    rewrite E. unfold JS.divisors. cbn [snd forallb JS.nonzero].
    pose proof (ConsensusFacts.count_pos v vs) as Hp.
    assert ((ConsensusSpec.count (v :: vs) =? 0) = false) as -> by (apply Z.eqb_neq; lia).
    assert ((3 * ConsensusSpec.count (v :: vs) =? 0) = false) as ->
        by (apply Z.eqb_neq; lia).
    reflexivity.
  - apply VerifyFacts.verify_no_votes.
  - apply VerifyFacts.verify_divisors.
  - intros engine models ask.
    unfold ProofAgent.verifyClaimInternal. cbv zeta.
    set (valid := filter _ (ProofAgent.collect models ask)).
    rewrite length_map.
    destruct (0 <? Z.of_nat (List.length valid)) eqn:E;
      cbn [JS.bind JS.ret JS.div_int JS.ceil_div JS.divisors fst snd app
           forallb JS.nonzero]; [|reflexivity].
    apply Z.ltb_lt in E.
    assert ((Z.of_nat (List.length valid) =? 0) = false) as -> by (apply Z.eqb_neq; lia).
    reflexivity.
Qed.

Lemma divisors_are_never_zero_witness :
  Workflow.verify Examples.silent "t" = (Workflow.NoQuorum 2 "t", []).
Proof.
  destruct divisors_are_never_zero as (_ & _ & H & _).
  apply (H Examples.silent "t"). reflexivity.
Defined.

(** C10 (the code departs from it). The consensus computation is not
    total: when no verdict becomes a property of [verdictCounts], which is
    the case when every vote carries the verdict [__proto__],
    [calculateConsensus] throws a [TypeError] after its first division
    instead of returning a snapshot.  The vote that caused it is in the
    table, the state row is not written, and the worker answers with
    status 500. *)
Theorem consensus_throws_without_counted_verdict :
  forall engine,
    Consensus.calculateConsensus engine "2026-01-01T00:00:01Z"
      [ConsensusSpec.row "m1" "__proto__" 0.9%float]
    = (JS.Throws JS.TypeError, [JS.DivInt 3])
    /\ (let out :=
          Consensus.handleConsensusVote engine "2026-01-01 00:00:01"
            "2026-01-01T00:00:01Z" false ConsensusSpec.proto_request
            ConsensusSpec.blank in
        fst out = Consensus.Status500
        /\ Consensus.votes (Consensus.SHIELD_CONSENSUS (snd out) "c1")
           = [ConsensusSpec.row_of "2026-01-01 00:00:01" "m1"
                ConsensusSpec.proto_vote]
        /\ Consensus.state_consensus (Consensus.SHIELD_CONSENSUS (snd out) "c1")
           = None
        /\ Session.handleConsensusState (Some "c1") (snd out) = Session.State500).
Proof.
  intros engine. split; [reflexivity|].
  cbv zeta. repeat split.
Qed.

(** C3 (as stated) fails: both models answer with confidence 0.1, the
    weighted mean is below the threshold of every domain, and the
    [constitutional_halt] flag of the verify step is false. *)
Lemma low_mean_does_not_halt_counterexample :
  match JS.value (Workflow.verify Examples.unsure "t") with
  | Workflow.Aggregated a =>
      JS.lt (Workflow.weighted_confidence a) 0.65%float = true
      /\ Workflow.constitutional_halt a = false
  | Workflow.NoQuorum _ _ => False
  end.
Proof. vm_compute. split; reflexivity. Qed.

(** C3 (as amended). The halt on a domain threshold is the
    [constitutional-halt] step of the collective workflow: for each
    vertical, its flag is true exactly when the confidence is strictly
    below the vertical's threshold (vetproof 0.67, legal 0.70, finance
    0.75, health 0.80, education 0.65, aviation 0.85), and false when the
    confidence equals the threshold.  The flag that the verify step of the
    pipeline and [verifyClaimInternal] name [constitutional_halt] is the
    variance test [stdDev > 0.25], whatever the mean confidence. *)
Theorem constitutional_halt_by_domain :
  (forall vertical theta confidence risk_factors,
      In (vertical, theta) CollectiveSpec.domain_thresholds ->
      exists h,
        Collective.halt_check_of vertical confidence risk_factors = Some h
        /\ Collective.threshold h = theta
        /\ Collective.halt_triggered h = JS.lt confidence theta
        /\ (confidence = theta -> Collective.halt_triggered h = false))
  /\ (forall vertical confidence risk_factors h,
      Collective.halt_check_of vertical confidence risk_factors = Some h ->
      In (vertical, Collective.threshold h) CollectiveSpec.domain_thresholds)
  /\ (forall reply now a,
      JS.value (Workflow.verify reply now) = Workflow.Aggregated a ->
      Workflow.constitutional_halt a
      = JS.gt (Workflow.confidence_std_dev a) 0.25%float)
  /\ (forall engine models ask,
      ProofAgent.r_constitutional_halt
        (JS.value (ProofAgent.verifyClaimInternal engine models ask))
      = JS.gt (ProofAgent.r_std_dev
                 (JS.value (ProofAgent.verifyClaimInternal engine models ask)))
              0.25%float).
Proof.
  split; [|split; [|split]].
  - intros vertical theta confidence rf Hin.
    destruct (CollectiveFacts.halt_check_total vertical theta confidence rf Hin)
      as (h & Hh & Ht).
    exists h. split; [exact Hh|]. split; [exact Ht|].
    destruct (CollectiveFacts.halt_check_inv _ _ _ _ Hh)
      as (theta' & _ & Ht' & Hlt & Hirr).
    assert (theta' = theta) as -> by congruence.
    split; [exact Hlt|]. intros ->. rewrite Hlt. exact Hirr.
  - intros vertical confidence rf h Hh.
    destruct (CollectiveFacts.halt_check_inv _ _ _ _ Hh) as (theta & Hin & Ht & _).
    rewrite Ht. exact Hin.
  - intros reply now a H.
    apply (WorkflowFacts.aggregated_inv _ _ _ _ H).
  - intros engine models ask.
    apply (ProofAgentFacts.verifyClaimInternal_result engine models ask).
Qed.

Lemma constitutional_halt_by_domain_witness :
  (exists h,
      Collective.halt_check_of "health" 0.80%float [] = Some h
      /\ Collective.threshold h = 0.80%float
      /\ Collective.halt_triggered h = JS.lt 0.80%float 0.80%float
      /\ (0.80%float = 0.80%float -> Collective.halt_triggered h = false))
  /\ In ("aviation", 0.85%float) CollectiveSpec.domain_thresholds.
Proof.
  destruct constitutional_halt_by_domain as (H1 & H2 & _).
  split.
  - apply (H1 "health" 0.80%float 0.80%float []). vm_compute. tauto.
  - apply (H2 "aviation" 0.5%float []
              {| Collective.halt_triggered := true;
                 Collective.threshold := 0.85%float;
                 Collective.h_confidence := 0.5%float;
                 Collective.h_vertical := "aviation";
                 Collective.risk_level := "high" |}).
    vm_compute. reflexivity.
Defined.

(* ===================================================================== *)
(** * The queue of pending reviews *)
(* ===================================================================== *)
Module HitlFacts.
Import Hitl.



(** When the queue can be read, the step that caches the pending review
    finds nothing or an array under [hitl:pending:index]. *)
Lemma gate_opens e claim w pending :
  HitlSpec.queue_readable e claim w = true ->
  Json.lookup "hitl:pending:index"
    (("hitl:pending:" ++ HitlSpec.claimId claim w, pending)
     :: VERIFICATION_CACHE e) = None
  \/ exists l,
      Json.lookup "hitl:pending:index"
        (("hitl:pending:" ++ HitlSpec.claimId claim w, pending)
         :: VERIFICATION_CACHE e) = Some (Json.Arr l).
Proof.
  unfold HitlSpec.queue_readable. intros H. apply andb_prop in H.
  destruct H as [Hn Hq]. apply negb_true_iff in Hn.
  cbn [Json.lookup append String.eqb Ascii.eqb Bool.eqb andb].
  rewrite Hn.
  destruct (Json.lookup "hitl:pending:index" (VERIFICATION_CACHE e)) as [[]|];
    try discriminate; [right; eexists; reflexivity|left; reflexivity].
Qed.

End HitlFacts.

Module SignFacts.
Import Workflow.

Section Hash.
Variable stringify : Json.t -> string.
Variable sha256 : string -> string.

(** The bundle before its hash is added. *)
Lemma run_bundle claim_id w e :
  let verification := JS.value (verify (w_reply w) (w_verified_at w)) in
  let detection := detect verification (w_similarity w) (w_detected_at w) in
  let unsigned := proofBundle claim_id w verification detection in
  let proofHash := sha256 (stringify unsigned) in
  fst (run stringify sha256 claim_id w e)
  = Json.set "proof_hash" (Json.Str proofHash) unsigned
  /\ Json.get "proof_hash" unsigned = None
  /\ Json.get "proof_hash" (fst (run stringify sha256 claim_id w e))
     = Some (Json.Str proofHash)
  /\ Json.get "previous_hash" (fst (run stringify sha256 claim_id w e)) = None
  /\ PROOF_STORAGE (snd (run stringify sha256 claim_id w e))
     = option_map
         (cons (proof_key claim_id proofHash,
                {| body := fst (run stringify sha256 claim_id w e);
                   meta_claim_id := claim_id;
                   meta_verdict :=
                     if truthy (halt_required detection)
                     then Json.Str "HALTED_FOR_REVIEW"
                     else Json.Str (get_consensus verification) |}))
         (PROOF_STORAGE e).
Proof.
  cbv zeta. unfold run, sign. cbv zeta. cbn [fst snd PROOF_STORAGE].
  repeat split.
Qed.

End Hash.
End SignFacts.

(** C6 (as stated) fails: a reviewer rejects a gated claim, and the run
    returns no proof and leaves the proof storage empty. *)
Lemma rejection_leaves_no_proof_counterexample :
  HitlSpec.gated HitlExamples.empty HitlExamples.tinnitus (Some "high")
    HitlExamples.rejected_world = true
  /\ exists o,
       fst (Hitl.run Examples.keys_of Examples.tagged HitlExamples.tinnitus
              (Some "high") HitlExamples.rejected_world HitlExamples.empty)
       = JS.Returns o
       /\ Hitl.o_status o = "rejected"
       /\ Hitl.o_proof o = None
       /\ Hitl.PROOF_STORAGE
            (snd (Hitl.run Examples.keys_of Examples.tagged HitlExamples.tinnitus
                    (Some "high") HitlExamples.rejected_world HitlExamples.empty))
          = [].
Proof. split; [reflexivity|]. eexists. vm_compute. repeat split. Qed.

(** C6 (as amended). A run of the pipeline that halts still writes its
    proof bundle, tagged [HALTED_FOR_REVIEW] with confidence 0, to the proof
    storage when that is bound.  A rejection delivered to the HITL gate
    signs no proof: the proof storage is left as it was, and when the
    queue of pending reviews can be read the run reports [rejected] with
    a null proof and the audit trail receives a [hitl_rejected] event
    without proof hash. *)
Theorem halts_are_recorded_rejections_are_not :
  (forall stringify sha256 claim_id w e store,
      Workflow.PROOF_STORAGE e = Some store ->
      WorkflowSpec.halted w = true ->
      let bundle := fst (Workflow.run stringify sha256 claim_id w e) in
      Workflow.verdict_of bundle = Some (Json.Str "HALTED_FOR_REVIEW")
      /\ Json.get "final_confidence" bundle = Some (Json.Num 0%float)
      /\ exists key,
          Workflow.PROOF_STORAGE (snd (Workflow.run stringify sha256 claim_id w e))
          = Some ((key, {| Workflow.body := bundle;
                           Workflow.meta_claim_id := claim_id;
                           Workflow.meta_verdict := Json.Str "HALTED_FOR_REVIEW" |})
                  :: store))
  /\ (forall stringify sha256 claim priority w e,
      HitlSpec.gated e claim priority w = true ->
      Hitl.d_decision (Hitl.w_event w) <> "approved" ->
      let out := Hitl.run stringify sha256 claim priority w e in
      Hitl.PROOF_STORAGE (snd out) = Hitl.PROOF_STORAGE e
      /\ (HitlSpec.queue_readable e claim w = true ->
          exists o,
            fst out = JS.Returns o
            /\ Hitl.o_claimId o = HitlSpec.claimId claim w
            /\ Hitl.o_status o = "rejected"
            /\ Hitl.o_proof o = None
            /\ (Hitl.w_audit_throws w = false ->
                hd_error (Hitl.AUDIT_DB (snd out))
                = Some {| Hitl.event_type := "hitl_rejected";
                          Hitl.a_claim_id := HitlSpec.claimId claim w;
                          Hitl.a_decision :=
                            Some (Hitl.d_decision (Hitl.w_event w));
                          Hitl.a_proof_hash := None |}))).
Proof.
  split.
  - intros stringify sha256 claim_id w e store He Hh. cbv zeta.
    destruct (SignFacts.run_bundle stringify sha256 claim_id w e)
      as (Hb & _ & _ & _ & Hs).
    cbv zeta in Hb, Hs. unfold WorkflowSpec.halted in Hh.
    rewrite Hs, He, Hh. rewrite Hb at 1 2.
    unfold Workflow.verdict_of, Workflow.proofBundle. rewrite Hh.
    split; [reflexivity|]. split; [reflexivity|].
    eexists. reflexivity.
  - intros stringify sha256 claim priority w e Hg Hd. cbv zeta.
    unfold HitlSpec.gated, HitlSpec.screened in Hg.
    apply String.eqb_neq in Hd.
    split.
    + unfold Hitl.run. cbv zeta. rewrite Hg.
      destruct (Json.lookup "hitl:pending:index" _) as [[]|];
        cbn [fst snd Hitl.PROOF_STORAGE]; rewrite ?Hd; reflexivity.
    + intros Hq.
      unfold Hitl.run. cbv zeta. rewrite Hg. fold (HitlSpec.claimId claim w).
      match goal with
      | |- context [Json.lookup "hitl:pending:index" ((_, ?p) :: _)] =>
          destruct (HitlFacts.gate_opens e claim w p Hq) as [Hl|(l & Hl)]
      end; rewrite Hl; cbn [fst snd]; rewrite Hd;
        (eexists; split; [reflexivity|]); repeat split;
        intros ->; reflexivity.
Qed.

Lemma halts_are_recorded_rejections_are_not_witness :
  (Workflow.verdict_of
     (fst (Workflow.run Examples.keys_of Examples.tagged "c1"
             (Examples.world_of Examples.split_reply) Examples.bound))
   = Some (Json.Str "HALTED_FOR_REVIEW"))
  /\ Hitl.PROOF_STORAGE
       (snd (Hitl.run Examples.keys_of Examples.tagged HitlExamples.tinnitus
               (Some "high") HitlExamples.rejected_world HitlExamples.empty))
     = []
  /\ exists o,
       fst (Hitl.run Examples.keys_of Examples.tagged HitlExamples.tinnitus
              (Some "high") HitlExamples.rejected_world HitlExamples.empty)
       = JS.Returns o
       /\ Hitl.o_proof o = None.
Proof.
  destruct halts_are_recorded_rejections_are_not as [Hw Hh].
  split.
  - apply (Hw Examples.keys_of Examples.tagged "c1"
              (Examples.world_of Examples.split_reply) Examples.bound []);
      vm_compute; reflexivity.
  - destruct (Hh Examples.keys_of Examples.tagged HitlExamples.tinnitus
                (Some "high") HitlExamples.rejected_world HitlExamples.empty)
      as [Hs Hr].
    + vm_compute. reflexivity.
    + vm_compute. discriminate.
    + cbv zeta in Hs, Hr. split; [exact Hs|].
      destruct Hr as (o & Eo & _ & _ & Hp & _); [vm_compute; reflexivity|].
      exists o. split; [exact Eo|exact Hp].
Defined.

(** C7 (as stated) fails: of two proof bundles written one after the
    other, the first has a [proof_hash] and the second has no
    [previous_hash] property at all, although both are in the storage. *)
Lemma no_previous_hash_counterexample :
  (exists h, Json.get "proof_hash" (fst ChainExamples.first_run) = Some (Json.Str h))
  /\ Json.get "previous_hash" (fst ChainExamples.second_run) = None
  /\ Json.get "previous_hash" (fst ChainExamples.second_run)
     <> Json.get "proof_hash" (fst ChainExamples.first_run)
  /\ option_map (map (fun kv => Workflow.body (snd kv)))
       (Workflow.PROOF_STORAGE (snd ChainExamples.second_run))
     = Some [fst ChainExamples.second_run; fst ChainExamples.first_run].
Proof.
  split; [eexists; vm_compute; reflexivity|].
  split; [vm_compute; reflexivity|].
  split; [vm_compute; discriminate|].
  vm_compute. reflexivity.
Qed.

(** C7 (as amended). No proof record has a [previous_hash] property and
    none depends on the records written before it.  Each record carries
    only its own [proof_hash]: for the bundle of a pipeline run the SHA-256
    of its serialization before that property is added, for the record of
    [processSign] the SHA-256 of the serialized claim id, payload and
    signing time; either record is added to the storage whatever the
    storage holds. *)
Theorem proof_records_are_not_chained :
  (forall stringify sha256 claim_id w e,
      let bundle := fst (Workflow.run stringify sha256 claim_id w e) in
      (exists unsigned,
          bundle = Json.set "proof_hash"
                     (Json.Str (sha256 (stringify unsigned))) unsigned
          /\ Json.get "proof_hash" unsigned = None
          /\ Json.get "proof_hash" bundle
             = Some (Json.Str (sha256 (stringify unsigned)))
          /\ Workflow.PROOF_STORAGE (snd (Workflow.run stringify sha256 claim_id w e))
             = option_map
                 (cons (Workflow.proof_key claim_id (sha256 (stringify unsigned)),
                        {| Workflow.body := bundle;
                           Workflow.meta_claim_id := claim_id;
                           Workflow.meta_verdict :=
                             if WorkflowSpec.halted w
                             then Json.Str "HALTED_FOR_REVIEW"
                             else Json.Str
                                    (Workflow.get_consensus
                                       (JS.value (Workflow.verify (Workflow.w_reply w)
                                                    (Workflow.w_verified_at w)))) |}))
                 (Workflow.PROOF_STORAGE e))
      /\ Json.get "previous_hash" bundle = None
      /\ forall e', fst (Workflow.run stringify sha256 claim_id w e') = bundle)
  /\ (forall stringify sha256 claimId payload signed_at stored_at,
      let record :=
        Queue.proofRecord stringify sha256 claimId payload signed_at stored_at in
      Json.get "proof_hash" record
      = Some (Json.Str (sha256 (stringify (Json.Obj [
                ("claim_id", Json.Str claimId);
                ("payload", payload);
                ("signed_at", Json.Str signed_at)]))))
      /\ Json.get "previous_hash" record = None
      /\ forall cached_at e,
          Queue.PROOF_STORAGE
            (Queue.processSign stringify sha256 claimId payload signed_at
               stored_at cached_at e)
          = option_map (cons ("proofs/" ++ claimId ++ ".json", record))
              (Queue.PROOF_STORAGE e)).
Proof.
  split.
  - intros stringify sha256 claim_id w e. cbv zeta.
    destruct (SignFacts.run_bundle stringify sha256 claim_id w e)
      as (Hb & Hu & Hp & Hn & Hs).
    cbv zeta in Hb, Hu, Hp, Hn, Hs.
    split; [|split; [exact Hn|]].
    + eexists. split; [exact Hb|]. split; [exact Hu|]. split; [exact Hp|].
      exact Hs.
    + intros e'. reflexivity.
  - intros. cbv zeta. split; [reflexivity|]. split; reflexivity.
Qed.

Module UpsertFacts.
Import Consensus ConsensusSpec.

Lemma filter_twice {A} (p : A -> bool) (l : list A) :
  filter p (filter p l) = filter p l.
Proof.
  induction l as [|x l IH]; [reflexivity|].
  cbn [filter]. destruct (p x) eqn:E; [|exact IH].
  cbn [filter]. rewrite E, IH. reflexivity.
Qed.

(** Replacing the row of a model twice leaves the rows of the others. *)
Lemma insert_or_replace_twice r r' t :
  model_id r' = model_id r ->
  insert_or_replace r' (insert_or_replace r t)
  = (filter (other (model_id r)) t ++ [r'])%list.
Proof.
  intros E. unfold insert_or_replace. rewrite E.
  fold (other (model_id r)).
  rewrite filter_app, filter_twice. cbn [filter].
  unfold other at 2. rewrite String.eqb_refl. cbn [negb].
  rewrite app_nil_r. reflexivity.
Qed.

Lemma map_cons_inv {A B} (f : A -> B) x l x' l' :
  map f (x :: l) = map f (x' :: l') -> f x = f x' /\ map f l = map f l'.
Proof. cbn [map]. intros [= H1 H2]. split; assumption. Qed.

Lemma submitted_confidence r r' :
  submitted r = submitted r' -> confidence r = confidence r'.
Proof. unfold submitted. intros [= _ _ E _ _]. exact E. Qed.

Lemma insert_by_confidence_ext r r' l l' :
  submitted r = submitted r' ->
  map submitted l = map submitted l' ->
  map submitted (insert_by_confidence r l)
  = map submitted (insert_by_confidence r' l').
Proof.
  intros Hr. revert l'.
  induction l as [|x l IH]; intros [|x' l'] H; try discriminate.
  - cbn. rewrite Hr. reflexivity.
  - apply map_cons_inv in H. destruct H as [Hx Hl].
    cbn [insert_by_confidence].
    rewrite (submitted_confidence _ _ Hr), (submitted_confidence _ _ Hx).
    destruct (PrimFloat.leb _ _); cbn [map].
    + rewrite Hr, Hx, Hl. reflexivity.
    + rewrite Hx, (IH l' Hl). reflexivity.
Qed.

Lemma select_ext t t' :
  map submitted t = map submitted t' ->
  map submitted (select_order_by_confidence_desc t)
  = map submitted (select_order_by_confidence_desc t').
Proof.
  revert t'. unfold select_order_by_confidence_desc.
  induction t as [|x t IH]; intros [|x' t'] H; try discriminate; [reflexivity|].
  apply map_cons_inv in H. destruct H as [Hx Ht].
  cbn [fold_right]. apply insert_by_confidence_ext; auto.
Qed.

Lemma fold_left_ext {A} (g : A -> vote_row -> A) l l' :
  (forall a x x', submitted x = submitted x' -> g a x = g a x') ->
  map submitted l = map submitted l' ->
  forall a, fold_left g l a = fold_left g l' a.
Proof.
  intros Hg. revert l'.
  induction l as [|x l IH]; intros [|x' l'] H a; try discriminate; [reflexivity|].
  apply map_cons_inv in H. destruct H as [Hx Hl].
  cbn [fold_left]. rewrite (Hg a x x' Hx). apply IH. exact Hl.
Qed.

(** [calculateConsensus] reads the submitted columns only. *)
Lemma calculateConsensus_ext engine now l l' :
  map submitted l = map submitted l' ->
  calculateConsensus engine now l = calculateConsensus engine now l'.
Proof.
  intros H.
  assert (Ht : tally l = tally l').
  { unfold tally. apply fold_left_ext; [|exact H].
    intros [[c tc] th] x x'. unfold submitted. intros [= _ -> -> -> _]. reflexivity. }
  assert (Hn : List.length l = List.length l').
  { rewrite <- (length_map submitted l), H. apply length_map. }
  assert (Hv : forall avg a,
             fold_left (fun sum v => (sum + JS.pow2 (confidence v - avg))%float) l a
             = fold_left (fun sum v => (sum + JS.pow2 (confidence v - avg))%float) l' a).
  { intros avg. apply fold_left_ext; [|exact H].
    intros a x x' Hx. rewrite (submitted_confidence _ _ Hx). reflexivity. }
  destruct l as [|x l], l' as [|x' l']; try discriminate; [reflexivity|].
  unfold calculateConsensus. rewrite Ht, Hn.
  destruct (tally (x' :: l')) as [[c tc] th].
  destruct (majority engine c); [|reflexivity].
  unfold JS.bind, JS.ret, JS.div_int, JS.floor_div. cbn [fst snd].
  rewrite Hv. reflexivity.
Qed.

Lemma calculateConsensus_timestamp engine now now' l :
  JS.value (calculateConsensus engine now' l)
  = stamped now' (JS.value (calculateConsensus engine now l)).
Proof.
  destruct l as [|x l]; [reflexivity|].
  unfold calculateConsensus.
  destruct (tally (x :: l)) as [[c tc] th].
  destruct (majority engine c); reflexivity.
Qed.

End UpsertFacts.

(** C9. Submitting the same vote a second time changes nothing that was
    submitted: the second call replaces the row of the model by an equal
    one, the table and the selected votes hold the same submitted values in
    the same order, and the second call ends as the first did, with the
    first snapshot and its [timestamp] renewed.  When the clock has not
    moved between the two calls, result and state are fully equal. *)
Theorem resubmitting_a_vote_changes_nothing :
  forall engine sql1 iso1 sql2 iso2 modelId vote d,
    let once := Consensus.submitVote engine sql1 iso1 modelId vote d in
    let twice := Consensus.submitVote engine sql2 iso2 modelId vote (snd once) in
    match fst once, fst twice with
    | JS.Returns first, JS.Returns second =>
        Consensus.r_consensus second
        = ConsensusSpec.with_timestamp iso2 (Consensus.r_consensus first)
        /\ Consensus.r_total_votes second = Consensus.r_total_votes first
        /\ map ConsensusSpec.submitted (Consensus.r_votes second)
           = map ConsensusSpec.submitted (Consensus.r_votes first)
    | JS.Throws first, JS.Throws second => second = first
    | _, _ => False
    end
    /\ map ConsensusSpec.submitted (Consensus.votes (snd twice))
       = map ConsensusSpec.submitted (Consensus.votes (snd once))
    /\ (sql2 = sql1 -> iso2 = iso1 -> twice = once).
Proof.
  intros engine sql1 iso1 sql2 iso2 modelId vote d once twice.
  assert (Hv : Consensus.votes (snd once)
               = Consensus.insert_or_replace
                   (ConsensusSpec.row_of sql1 modelId vote) (Consensus.votes d)).
  { subst once. unfold Consensus.submitVote. cbv zeta.
    destruct (JS.value _); reflexivity. }
  set (r1 := ConsensusSpec.row_of sql1 modelId vote) in *.
  set (r2 := ConsensusSpec.row_of sql2 modelId vote).
  pose proof (UpsertFacts.insert_or_replace_twice r1 r2 (Consensus.votes d) eq_refl)
    as Htw.
  set (core := filter (ConsensusSpec.other (Consensus.model_id r1))
                 (Consensus.votes d)) in *.
  assert (Hc : Consensus.insert_or_replace r1 (Consensus.votes d)
               = (core ++ [r1])%list) by reflexivity.
  assert (Hs : map ConsensusSpec.submitted (core ++ [r2])%list
               = map ConsensusSpec.submitted (core ++ [r1])%list).
  { rewrite !map_app. reflexivity. }
  pose proof (UpsertFacts.select_ext _ _ Hs) as Hsel.
  pose proof (UpsertFacts.calculateConsensus_ext engine iso2 _ _ Hsel) as Hext.
  pose proof (UpsertFacts.calculateConsensus_timestamp engine iso1 iso2
                (Consensus.select_order_by_confidence_desc (core ++ [r1])%list)) as Hts.
  assert (Hlen : List.length (Consensus.select_order_by_confidence_desc (core ++ [r2])%list)
                 = List.length (Consensus.select_order_by_confidence_desc (core ++ [r1])%list)).
  { rewrite <- (length_map ConsensusSpec.submitted), Hsel, length_map. reflexivity. }
  assert (Htwice : twice
            = Consensus.submitVote engine sql2 iso2 modelId vote
                {| Consensus.votes := (core ++ [r1])%list;
                   Consensus.state_consensus := Consensus.state_consensus (snd once) |}).
  { subst twice. rewrite <- Hc, <- Hv. destruct (snd once); reflexivity. }
  assert (Honce : once
            = match JS.value (Consensus.calculateConsensus engine iso1
                                (Consensus.select_order_by_confidence_desc
                                   (core ++ [r1])%list)) with
              | JS.Throws thrown =>
                  (JS.Throws thrown,
                   {| Consensus.votes := (core ++ [r1])%list;
                      Consensus.state_consensus := Consensus.state_consensus d |})
              | JS.Returns c =>
                  (JS.Returns
                     {| Consensus.vote_accepted := true;
                        Consensus.r_total_votes :=
                          Z.of_nat (List.length
                            (Consensus.select_order_by_confidence_desc (core ++ [r1])%list));
                        Consensus.r_consensus := c;
                        Consensus.r_votes :=
                          Consensus.select_order_by_confidence_desc (core ++ [r1])%list |},
                   {| Consensus.votes := (core ++ [r1])%list;
                      Consensus.state_consensus := Some c |})
              end) by reflexivity.
  assert (Htwice' : twice
            = match JS.value (Consensus.calculateConsensus engine iso2
                                (Consensus.select_order_by_confidence_desc
                                   (core ++ [r2])%list)) with
              | JS.Throws thrown =>
                  (JS.Throws thrown,
                   {| Consensus.votes := (core ++ [r2])%list;
                      Consensus.state_consensus :=
                        Consensus.state_consensus (snd once) |})
              | JS.Returns c =>
                  (JS.Returns
                     {| Consensus.vote_accepted := true;
                        Consensus.r_total_votes :=
                          Z.of_nat (List.length
                            (Consensus.select_order_by_confidence_desc (core ++ [r2])%list));
                        Consensus.r_consensus := c;
                        Consensus.r_votes :=
                          Consensus.select_order_by_confidence_desc (core ++ [r2])%list |},
                   {| Consensus.votes := (core ++ [r2])%list;
                      Consensus.state_consensus := Some c |})
              end).
  { rewrite Htwice. rewrite <- Htw, <- Hc. reflexivity. }
  rewrite Hext, Hts in Htwice'. rewrite Hlen in Htwice'.
  clear Htwice Hv. clearbody once twice.
  pose proof (UpsertFacts.calculateConsensus_timestamp engine iso1 iso1
                (Consensus.select_order_by_confidence_desc (core ++ [r1])%list))
    as Hsame.
  destruct (JS.value (Consensus.calculateConsensus engine iso1
                        (Consensus.select_order_by_confidence_desc (core ++ [r1])%list)))
    as [c|thrown]; cbn [ConsensusSpec.stamped] in Htwice', Hsame;
    subst once twice;
    cbn [fst snd Consensus.votes Consensus.r_consensus Consensus.r_total_votes
         Consensus.r_votes Consensus.state_consensus].
  - split; [|split].
    + split; [reflexivity|]. split; [reflexivity|exact Hsel].
    + exact Hs.
    + intros -> ->. subst r2. fold r1.
      injection Hsame as Hsame. rewrite <- Hsame. reflexivity.
  - split; [reflexivity|]. split; [exact Hs|].
    intros -> ->. reflexivity.
Qed.

Lemma resubmitting_a_vote_changes_nothing_witness :
  let once :=
    Consensus.submitVote ConsensusSpec.v8
      "2026-01-01 00:00:00" "2026-01-01T00:00:00Z" "m1"
      ConsensusSpec.sound_vote ConsensusSpec.seeded in
  let twice :=
    Consensus.submitVote ConsensusSpec.v8
      "2026-01-01 00:00:00" "2026-01-01T00:00:00Z" "m1"
      ConsensusSpec.sound_vote (snd once) in
  twice = once.
Proof.
  cbv zeta.
  apply (resubmitting_a_vote_changes_nothing ConsensusSpec.v8
           "2026-01-01 00:00:00" "2026-01-01T00:00:00Z"
           "2026-01-01 00:00:00" "2026-01-01T00:00:00Z"
           "m1" ConsensusSpec.sound_vote ConsensusSpec.seeded);
    reflexivity.
Defined.




(* ===================================================================== *)
(** * Sessions of votes *)
(* ===================================================================== *)
Module SessionFacts.
Import Consensus ConsensusSpec Session.

Section Engine.

Variable engine : list (string * Obj.value Z) -> nat.

Lemma votes_submit d s :
  votes (submit engine d s)
  = insert_or_replace (row_of (at_sql s) (by_model s) (cast s)) (votes d).
Proof.
  unfold submit, submitVote. cbv zeta. destruct (JS.value _); reflexivity.
Qed.

Lemma in_insert_or_replace r t x :
  In x (insert_or_replace r t)
  <-> x = r \/ (In x t /\ model_id x <> model_id r).
Proof.
  unfold insert_or_replace. rewrite in_app_iff, filter_In. cbn [In].
  rewrite negb_true_iff, String.eqb_neq. intuition congruence.
Qed.

Lemma ids_insert_or_replace r t m :
  In m (map model_id (insert_or_replace r t))
  <-> m = model_id r \/ In m (map model_id t).
Proof.
  rewrite !in_map_iff. split.
  - intros (x & <- & Hx). apply in_insert_or_replace in Hx.
    destruct Hx as [->|[Hx _]]; [left; reflexivity|].
    right. exists x. split; [reflexivity|exact Hx].
  - intros [->|(x & <- & Hx)].
    + exists r. split; [reflexivity|]. apply in_insert_or_replace. left. reflexivity.
    + destruct (String.eqb_spec (model_id x) (model_id r)) as [E|N].
      * exists r. split; [symmetry; exact E|].
        apply in_insert_or_replace. left. reflexivity.
      * exists x. split; [reflexivity|]. apply in_insert_or_replace. right. tauto.
Qed.

Lemma nodup_filter_ids p (t : list vote_row) :
  NoDup (map model_id t) -> NoDup (map model_id (filter p t)).
Proof.
  induction t as [|x t IH]; cbn [map filter]; [constructor|].
  intros H. inversion H as [|? ? Hn Ht]; subst.
  destruct (p x); [|apply IH; exact Ht].
  cbn [map]. constructor; [|apply IH; exact Ht].
  intros Hin. apply Hn. apply in_map_iff in Hin. destruct Hin as (y & E & Hy).
  apply filter_In in Hy. apply in_map_iff. exists y. tauto.
Qed.

Lemma nodup_insert_or_replace r t :
  NoDup (map model_id t) -> NoDup (map model_id (insert_or_replace r t)).
Proof.
  intros H. unfold insert_or_replace. rewrite map_app. cbn [map].
  apply NoDup_app.
  - apply nodup_filter_ids. exact H.
  - constructor; [intros []|constructor].
  - intros m Hm [<-|[]].
    apply in_map_iff in Hm. destruct Hm as (x & E & Hx).
    apply filter_In in Hx. destruct Hx as [_ Hx].
    apply negb_true_iff, String.eqb_neq in Hx. congruence.
Qed.

Lemma submit_all_app subs subs' d :
  submit_all engine (subs ++ subs') d
  = submit_all engine subs' (submit_all engine subs d).
Proof. unfold submit_all. apply fold_left_app. Qed.

Lemma submit_all_nodup subs : forall d,
  NoDup (map model_id (votes d)) ->
  NoDup (map model_id (votes (submit_all engine subs d))).
Proof.
  induction subs as [|s subs IH]; intros d H; [exact H|].
  cbn [submit_all fold_left]. apply IH. rewrite votes_submit.
  apply nodup_insert_or_replace. exact H.
Qed.

Lemma submit_all_ids subs : forall d m,
  In m (map model_id (votes (submit_all engine subs d)))
  <-> In m (map by_model subs) \/ In m (map model_id (votes d)).
Proof.
  induction subs as [|s subs IH]; intros d m; cbn [submit_all fold_left map In].
  - tauto.
  - fold (submit_all engine subs (submit engine d s)).
    rewrite IH, votes_submit, ids_insert_or_replace.
    cbn [model_id row_of]. intuition.
Qed.

Lemma submit_all_keeps subs : forall d r,
  In r (votes d) ->
  (forall s, In s subs -> by_model s <> model_id r) ->
  In r (votes (submit_all engine subs d)).
Proof.
  induction subs as [|s subs IH]; intros d r Hr Hs; [exact Hr|].
  cbn [submit_all fold_left]. apply IH.
  - rewrite votes_submit. apply in_insert_or_replace. right.
    split; [exact Hr|]. cbn [model_id row_of].
    intros E. apply (Hs s); [left; reflexivity|symmetry; exact E].
  - intros s' Hs'. apply Hs. right. exact Hs'.
Qed.

End Engine.

End SessionFacts.

(** X1. A session holds at most one vote per model, and it is the latest:
    after any sequence of submissions to a fresh Durable Object the rows
    have pairwise distinct model ids, the models that have a row are
    exactly those that submitted, and the row of a model is the one of its
    last submission. *)
Theorem session_keeps_latest_vote_per_model :
  forall engine subs,
    let d := Session.submit_all engine subs Consensus.fresh in
    NoDup (map Consensus.model_id (Consensus.votes d))
    /\ (forall m, In m (map Consensus.model_id (Consensus.votes d))
                  <-> In m (map Session.by_model subs))
    /\ (forall pre s post,
          subs = (pre ++ s :: post)%list ->
          (forall s', In s' post -> Session.by_model s' <> Session.by_model s) ->
          In (ConsensusSpec.row_of (Session.at_sql s) (Session.by_model s)
                (Session.cast s))
             (Consensus.votes d)).
Proof.
  intros engine subs d. subst d. split; [|split].
  - apply SessionFacts.submit_all_nodup. constructor.
  - intros m. rewrite SessionFacts.submit_all_ids. cbn. tauto.
  - intros pre s post -> Hpost.
    rewrite SessionFacts.submit_all_app. cbn [Session.submit_all fold_left].
    apply SessionFacts.submit_all_keeps.
    + rewrite SessionFacts.votes_submit.
      apply SessionFacts.in_insert_or_replace. left. reflexivity.
    + exact Hpost.
Qed.

Lemma session_keeps_latest_vote_per_model_witness :
  In (ConsensusSpec.row_of "t3" "m1" ConsensusSpec.sound_vote)
     (Consensus.votes (Session.submit_all ConsensusSpec.v8 Session.three_subs Consensus.fresh))
  /\ In (ConsensusSpec.row_of "t2" "m2" Session.dissent)
        (Consensus.votes (Session.submit_all ConsensusSpec.v8 Session.three_subs Consensus.fresh)).
Proof.
  destruct (session_keeps_latest_vote_per_model ConsensusSpec.v8
              Session.three_subs) as (_ & _ & H).
  split.
  - apply (H [ {| Session.at_sql := "t1"; Session.at_iso := "T1";
                  Session.by_model := "m1"; Session.cast := Session.dissent |};
               {| Session.at_sql := "t2"; Session.at_iso := "T2";
                  Session.by_model := "m2"; Session.cast := Session.dissent |} ]
             {| Session.at_sql := "t3"; Session.at_iso := "T3";
                Session.by_model := "m1"; Session.cast := ConsensusSpec.sound_vote |}
             []); [reflexivity|intros s' []].
  - apply (H [ {| Session.at_sql := "t1"; Session.at_iso := "T1";
                  Session.by_model := "m1"; Session.cast := Session.dissent |} ]
             {| Session.at_sql := "t2"; Session.at_iso := "T2";
                Session.by_model := "m2"; Session.cast := Session.dissent |}
             [ {| Session.at_sql := "t3"; Session.at_iso := "T3";
                  Session.by_model := "m1";
                  Session.cast := ConsensusSpec.sound_vote |} ]);
      [reflexivity|].
    intros s' [<-|[]]. discriminate.
Defined.

(* ===================================================================== *)
(** * The verdict distribution and the majority *)
(* ===================================================================== *)
Module DistributionFacts.
Import Consensus ConsensusSpec Session Distribution.

Lemma numbers_app a b : numbers (a ++ b) = (numbers a ++ numbers b)%list.
Proof.
  induction a as [|[k [n|m ws]] a IH]; cbn [app numbers]; [reflexivity| |exact IH].
  rewrite IH. reflexivity.
Qed.

(** Where every count is a number, the head of the sorted entries is the
    first entry of largest count. *)
Lemma sort_head (l : list (string * Obj.value Z)) :
  l <> [] -> forallb is_num l = true ->
  exists pre k c post,
    l = (pre ++ (k, Obj.Num c) :: post)%list
    /\ hd_error (sort_by_count l) = Some (k, Obj.Num c)
    /\ Forall (fun n => n < c) (numbers pre)
    /\ Forall (fun n => n <= c) (numbers post).
Proof.
  induction l as [|x l IH]; [congruence|]. intros _ Hall.
  cbn [forallb] in Hall. apply andb_prop in Hall. destruct Hall as [Hx Hall].
  destruct x as [kx [cx|m ws]]; [|discriminate].
  destruct l as [|x' l'].
  - exists [], kx, cx, []. cbn. repeat split; constructor.
  - destruct IH as (pre & k & c & post & E & Hh & Hpre & Hpost);
      [discriminate|exact Hall|].
    change (sort_by_count ((kx, Obj.Num cx) :: x' :: l'))
      with (insert_by_count (kx, Obj.Num cx) (sort_by_count (x' :: l'))).
    destruct (sort_by_count (x' :: l')) as [|h t]; [discriminate|].
    injection Hh as ->. cbn [insert_by_count not_after snd].
    destruct (Z.leb_spec c cx) as [Hle|Hlt]; cbn [hd_error].
    + exists [], kx, cx, (x' :: l').
      split; [reflexivity|]. split; [reflexivity|]. split; [constructor|].
      rewrite E, numbers_app. cbn [numbers]. apply Forall_app. split.
      * eapply Forall_impl; [|exact Hpre]. cbn. intros; lia.
      * constructor; [exact Hle|].
        eapply Forall_impl; [|exact Hpost]. cbn. intros; lia.
    + exists ((kx, Obj.Num cx) :: pre), k, c, post. cbn [app numbers].
      rewrite E. split; [reflexivity|]. split; [reflexivity|].
      split; [constructor; assumption|exact Hpost].
Qed.

End DistributionFacts.

(** X2. The snapshot of a non-empty vote list accounts for every vote.  Its
    [verdict_distribution] holds under each verdict what the counting loop
    builds there: the number of its votes for a verdict that was cast and
    is not named like a member of [Object.prototype], a text for such a
    name, nothing for [__proto__] and for a verdict that was not cast.
    The counts that are numbers add up to the votes so counted.  When no
    verdict is named like a member of [Object.prototype], they add up to
    [total_votes], and [verdict] is the first entry of the distribution, in
    the order in which the object enumerates its keys, whose count no
    other entry exceeds. *)
Theorem distribution_counts_every_vote :
  forall engine now votes s,
    JS.value (Consensus.calculateConsensus engine now votes)
    = JS.Returns (Consensus.Computed s) ->
    (forall k,
        Obj.own k (Consensus.verdict_distribution s) = Distribution.held k votes)
    /\ Consensus.total_votes s = Z.of_nat (List.length votes)
    /\ Session.total (Consensus.verdict_distribution s)
       = Distribution.numbered votes
    /\ (ConsensusSpec.plain votes = true ->
        Session.total (Consensus.verdict_distribution s) = Consensus.total_votes s
        /\ exists pre c post,
            Consensus.verdict_distribution s
            = (pre ++ (Consensus.s_verdict s, Obj.Num c) :: post)%list
            /\ c = ConsensusSpec.count_of (Consensus.s_verdict s) votes
            /\ Forall (fun n => n < c) (Consensus.numbers pre)
            /\ Forall (fun n => n <= c) (Consensus.numbers post)).
Proof.
  intros engine now votes s H.
  apply ConsensusFacts.returns_inv in H.
  destruct H as [[_ H]|(m & s' & Hne & Hm & E & _ & Hv & _ & _ & Hn & Hd)];
    [discriminate|].
  injection E as <-. rewrite Hd, Hn, Hv.
  split; [apply TallyFacts.counted_verdictCounts|].
  split; [reflexivity|].
  split; [apply TallyFacts.total_verdictCounts|].
  intros Hp. split.
  - rewrite TallyFacts.total_verdictCounts. apply TallyFacts.numbered_plain, Hp.
  - pose proof (TallyFacts.plain_all_num votes Hp) as Hall.
    assert (Hl : Consensus.verdictCounts votes <> []).
    { intros E. rewrite E in Hm. discriminate. }
    destruct (DistributionFacts.sort_head _ Hl Hall)
      as (pre & k & c & post & El & Hh & Hpre & Hpost).
    unfold Consensus.majority, Consensus.first_by_count, Consensus.consistent in Hm.
    rewrite Hall in Hm. cbn [orb] in Hm. rewrite Hh in Hm. injection Hm as <-.
    exists pre, c, post. cbn [fst]. split; [exact El|].
    split; [|split; assumption].
    apply (QuorumFacts.majority_number engine votes k c).
    unfold Consensus.majority, Consensus.first_by_count, Consensus.consistent.
    rewrite Hall. exact Hh.
Qed.

Lemma distribution_counts_every_vote_witness :
  (exists s,
    JS.value (Consensus.calculateConsensus ConsensusSpec.v8 "t" Distribution.mixed)
    = JS.Returns (Consensus.Computed s)
    /\ Obj.own "VERIFIED" (Consensus.verdict_distribution s) = Some (Obj.Num 2)
    /\ Obj.own "INSUFFICIENT_EVIDENCE" (Consensus.verdict_distribution s) = None
    /\ Session.total (Consensus.verdict_distribution s) = 4)
  /\ (exists s,
    JS.value (Consensus.calculateConsensus ConsensusSpec.v8 "t"
                Distribution.indexed)
    = JS.Returns (Consensus.Computed s)
    /\ Consensus.s_verdict s = "7"
    /\ Consensus.verdict_distribution s
       = [("7", Obj.Num 1); ("VERIFIED", Obj.Num 1)]).
Proof.
  split.
  - eexists. split; [vm_compute; reflexivity|].
    destruct (distribution_counts_every_vote ConsensusSpec.v8 "t"
                Distribution.mixed _ eq_refl) as (Hc & _ & Ht & _).
    split; [exact (Hc "VERIFIED")|].
    split; [exact (Hc "INSUFFICIENT_EVIDENCE")|]. exact Ht.
  - eexists. split; [vm_compute; reflexivity|]. split; reflexivity.
Defined.

(* ===================================================================== *)
(** * The order of the selected votes *)
(* ===================================================================== *)
Module FloatFacts.




End FloatFacts.

Module SelectFacts.
Import Consensus ConsensusSpec.

Lemma insert_by_confidence_perm r l :
  Permutation (insert_by_confidence r l) (r :: l).
Proof.
  induction l as [|x l IH]; cbn [insert_by_confidence]; [reflexivity|].
  destruct (PrimFloat.leb _ _); [reflexivity|].
  rewrite IH. apply perm_swap.
Qed.

Lemma select_perm t : Permutation (select_order_by_confidence_desc t) t.
Proof.
  unfold select_order_by_confidence_desc.
  induction t as [|x t IH]; cbn [fold_right]; [reflexivity|].
  rewrite insert_by_confidence_perm. constructor. exact IH.
Qed.





(** The vote is upserted whether the call returns or throws, and the
    call returns as soon as the vote counts under a key of its own. *)
Lemma votes_submitVote engine sql_now iso_now modelId vote d :
  votes (snd (submitVote engine sql_now iso_now modelId vote d))
  = insert_or_replace (row_of sql_now modelId vote) (votes d).
Proof.
  unfold submitVote. cbv zeta. destruct (JS.value _); reflexivity.
Qed.

Lemma submitVote_returns engine sql_now iso_now modelId vote d :
  v_verdict vote <> "__proto__" ->
  exists answer,
    fst (submitVote engine sql_now iso_now modelId vote d) = JS.Returns answer.
Proof.
  intros Hv. unfold submitVote. cbv zeta.
  fold (row_of sql_now modelId vote).
  set (row := row_of sql_now modelId vote).
  set (stored := insert_or_replace row (votes d)).
  assert (Hin : In row (select_order_by_confidence_desc stored)).
  { apply (Permutation_in _ (Permutation_sym (select_perm stored))).
    subst stored. unfold insert_or_replace.
    apply in_or_app. right. left. reflexivity. }
  destruct (select_order_by_confidence_desc stored) as [|v vs]; [destruct Hin|].
  pose proof (ConsensusFacts.calculateConsensus_cons engine iso_now v vs) as H.
  cbv zeta in H.
  destruct (ConsensusFacts.majority_some engine (v :: vs) row Hin Hv) as (m & Hm).
  rewrite Hm in H. destruct H as (s & Es & _).
  unfold JS.value. rewrite Es. eexists. reflexivity.
Qed.

End SelectFacts.



Module ArchiveFacts.
Import Consensus ConsensusSpec Session.


End ArchiveFacts.



(* ===================================================================== *)
(** * The queued pipeline *)
(* ===================================================================== *)
Module PipelineFacts.
Import Pipeline.

Lemma status_latest events i stage :
  nth_error stages i = Some stage ->
  includes (completedStages events) stage = true ->
  (forall j later, nth_error stages j = Some later -> (i < j)%nat ->
                   includes (completedStages events) later = false) ->
  current_stage (pipelineStatus events) = stage
  /\ next_stage (pipelineStatus events) = nth (S i) stages "COMPLETE".
Proof.
  intros Hi Hin Hl. unfold pipelineStatus. cbv zeta.
  cbn [stages indexed map max_of fold_left Z.add List.length].
  set (c := completedStages events) in *.
  destruct i as [|[|[|[|[|i]]]]]; cbn in Hi;
    try (destruct i; discriminate); injection Hi as <-; rewrite Hin.
  - rewrite (Hl 1%nat "GENERATE" eq_refl) by lia.
    rewrite (Hl 2%nat "VERIFY" eq_refl) by lia.
    rewrite (Hl 3%nat "DETECT" eq_refl) by lia.
    rewrite (Hl 4%nat "SIGN" eq_refl) by lia.
    split; reflexivity.
  - rewrite (Hl 2%nat "VERIFY" eq_refl) by lia.
    rewrite (Hl 3%nat "DETECT" eq_refl) by lia.
    rewrite (Hl 4%nat "SIGN" eq_refl) by lia.
    destruct (includes c "SANITIZE"); split; reflexivity.
  - rewrite (Hl 3%nat "DETECT" eq_refl) by lia.
    rewrite (Hl 4%nat "SIGN" eq_refl) by lia.
    destruct (includes c "SANITIZE"), (includes c "GENERATE"); split; reflexivity.
  - rewrite (Hl 4%nat "SIGN" eq_refl) by lia.
    destruct (includes c "SANITIZE"), (includes c "GENERATE"),
      (includes c "VERIFY"); split; reflexivity.
  - destruct (includes c "SANITIZE"), (includes c "GENERATE"),
      (includes c "VERIFY"), (includes c "DETECT"); split; reflexivity.
Qed.

Lemma status_pending events :
  (forall s, In s stages -> includes (completedStages events) s = false) ->
  current_stage (pipelineStatus events) = "PENDING"
  /\ next_stage (pipelineStatus events) = "SANITIZE".
Proof.
  intros H. unfold pipelineStatus. cbv zeta.
  cbn [stages indexed map max_of fold_left Z.add List.length].
  rewrite !H by (cbn; tauto). split; reflexivity.
Qed.

End PipelineFacts.

(** X5. The status endpoint reports the furthest stage on record: when
    the events of a claim hold a completion of some stage and of none of
    the later ones, that stage is the current one and its successor
    (COMPLETE after SIGN) the next, whether or not the earlier stages are
    on record; with no stage on record the claim is PENDING and SANITIZE
    is next. *)
Theorem pipeline_status_reports_furthest_stage :
  forall events,
    (forall i stage,
        nth_error Pipeline.stages i = Some stage ->
        Pipeline.includes (Pipeline.completedStages events) stage = true ->
        (forall j later, nth_error Pipeline.stages j = Some later -> (i < j)%nat ->
                         Pipeline.includes (Pipeline.completedStages events) later
                         = false) ->
        Pipeline.current_stage (Pipeline.pipelineStatus events) = stage
        /\ Pipeline.next_stage (Pipeline.pipelineStatus events)
           = nth (S i) Pipeline.stages "COMPLETE")
    /\ ((forall s, In s Pipeline.stages ->
                   Pipeline.includes (Pipeline.completedStages events) s = false) ->
        Pipeline.current_stage (Pipeline.pipelineStatus events) = "PENDING"
        /\ Pipeline.next_stage (Pipeline.pipelineStatus events) = "SANITIZE").
Proof.
  intros events. split.
  - intros i stage. apply PipelineFacts.status_latest.
  - apply PipelineFacts.status_pending.
Qed.

Lemma pipeline_status_reports_furthest_stage_witness :
  Pipeline.current_stage
    (Pipeline.pipelineStatus ["pipeline_verify"; "pipeline_submitted"]) = "VERIFY"
  /\ Pipeline.next_stage
       (Pipeline.pipelineStatus ["pipeline_verify"; "pipeline_submitted"]) = "DETECT"
  /\ Pipeline.current_stage (Pipeline.pipelineStatus ["pipeline_submitted"])
     = "PENDING".
Proof.
  destruct (pipeline_status_reports_furthest_stage
              ["pipeline_verify"; "pipeline_submitted"]) as [H _].
  destruct (H 2%nat "VERIFY" eq_refl eq_refl) as [Hc Hn].
  { intros [|[|[|[|[|j]]]]] later Hj Hlt; cbn in Hj; try lia;
      try (injection Hj as <-; reflexivity).
    destruct j; discriminate. }
  split; [exact Hc|]. split; [exact Hn|].
  destruct (pipeline_status_reports_furthest_stage ["pipeline_submitted"])
    as [_ H']. apply H'.
  intros s [<-|[<-|[<-|[<-|[<-|[]]]]]]; reflexivity.
Defined.

Module DeliveryFacts.
Import Pipeline.

Lemma query_own_event claim_id t log :
  query_events claim_id ({| event_type := t; ev_claim_id := claim_id |} :: log)
  = t :: map event_type
           (firstn 19 (filter (fun ev => String.eqb (ev_claim_id ev) claim_id) log)).
Proof.
  unfold query_events. cbn [filter ev_claim_id]. rewrite String.eqb_refl.
  reflexivity.
Qed.

(** The verify stage always returns: its vote counts under the key
    [VERIFIED]. *)
Lemma processVerify_returns engine o claimId payload e :
  processVerify engine o claimId payload e
  = (JS.Returns tt,
     send {| m_claim_id := claimId; m_stage := "DETECT";
             m_payload := extend payload [("verified", Json.Bool true)] |}
       {| SHIELD_CONSENSUS :=
            Consensus.set_object claimId
              (snd (Consensus.submitVote engine (sql_now o) (iso_now o)
                      "workers-ai-llama-3.1-8b" (pipeline_vote payload)
                      (SHIELD_CONSENSUS e claimId)))
              (SHIELD_CONSENSUS e);
          VETPROOF_QUEUE := VETPROOF_QUEUE e;
          PROOF_STORAGE := PROOF_STORAGE e;
          VERIFICATION_CACHE := VERIFICATION_CACHE e;
          AUDIT_DB := AUDIT_DB e |}).
Proof.
  unfold processVerify.
  destruct (SelectFacts.submitVote_returns engine (sql_now o) (iso_now o)
              "workers-ai-llama-3.1-8b" (pipeline_vote payload)
              (SHIELD_CONSENSUS e claimId)) as (answer & Ea); [discriminate|].
  destruct (Consensus.submitVote _ _ _ _ _ _) as [a d]. cbn [fst] in Ea.
  rewrite Ea. reflexivity.
Qed.

Lemma consume_verify engine stringify sha256 r t claimId payload e log :
  AUDIT_DB e = Some log ->
  consume engine stringify sha256 (smooth r t)
    {| m_claim_id := claimId; m_stage := "VERIFY"; m_payload := payload |} e
  = (Acked,
     {| SHIELD_CONSENSUS :=
          Consensus.set_object claimId
            (snd (Consensus.submitVote engine t t "workers-ai-llama-3.1-8b"
                    (pipeline_vote payload) (SHIELD_CONSENSUS e claimId)))
            (SHIELD_CONSENSUS e);
        VETPROOF_QUEUE :=
          option_map
            (fun q =>
               (q ++ [{| m_claim_id := claimId; m_stage := "DETECT";
                         m_payload :=
                           extend payload [("verified", Json.Bool true)] |}])%list)
            (VETPROOF_QUEUE e);
        PROOF_STORAGE := PROOF_STORAGE e;
        VERIFICATION_CACHE := VERIFICATION_CACHE e;
        AUDIT_DB :=
          Some ({| event_type := "pipeline_verify"; ev_claim_id := claimId |}
                :: log) |}).
Proof.
  intros Ha. unfold consume, dispatch.
  cbn [m_stage m_claim_id m_payload String.eqb Ascii.eqb Bool.eqb].
  rewrite processVerify_returns.
  cbn [send with_queue AUDIT_DB VETPROOF_QUEUE SHIELD_CONSENSUS PROOF_STORAGE
       VERIFICATION_CACHE smooth audit_throws sql_now iso_now].
  rewrite Ha. reflexivity.
Qed.

End DeliveryFacts.

(** X6. A submitted claim runs through the five stages, each delivery
    queuing the next stage: when no call fails, five deliveries after the
    submission leave the queue empty, one audit row per stage on top of the
    submission's, the vote of the verify stage upserted in the claim's
    Durable Object, and the proof record under [proofs/<claim_id>.json],
    whose payload is the submitted one extended by every stage; the status
    endpoint then reports SIGN and COMPLETE.  No reply of a model can stop
    the pipeline short of the sign stage. *)
Theorem queued_pipeline_runs_all_stages :
  forall engine stringify sha256 claim_id claim_text evidence codes now
         r1 t1 r2 t2 r3 t3 r4 t4 r5 t5 e log,
    claim_id <> "" -> claim_text <> "" ->
    Pipeline.VETPROOF_QUEUE e = Some [] ->
    Pipeline.AUDIT_DB e = Some log ->
    let body := {| Pipeline.b_claim_id := Some claim_id;
                   Pipeline.b_claim_text := Some claim_text;
                   Pipeline.b_evidence := evidence;
                   Pipeline.b_disability_codes := codes |} in
    let submitted := Pipeline.handlePipelineSubmit "POST" body now e in
    let e' :=
      Pipeline.deliver engine stringify sha256
        [Pipeline.smooth r1 t1; Pipeline.smooth r2 t2; Pipeline.smooth r3 t3;
         Pipeline.smooth r4 t4; Pipeline.smooth r5 t5]
        (snd submitted) in
    let payload :=
      Pipeline.signed_payload claim_text (Pipeline.or_empty evidence)
        (Pipeline.or_empty codes) now r1 r2 r4 in
    fst submitted = Pipeline.Submitted claim_id
    /\ Pipeline.VETPROOF_QUEUE e' = Some []
    /\ Pipeline.AUDIT_DB e'
       = Some (map (fun t => {| Pipeline.event_type := t;
                                Pipeline.ev_claim_id := claim_id |})
                 ["pipeline_sign"; "pipeline_detect"; "pipeline_verify";
                  "pipeline_generate"; "pipeline_sanitize"; "pipeline_submitted"]
               ++ log)%list
    /\ Consensus.votes (Pipeline.SHIELD_CONSENSUS e' claim_id)
       = Consensus.insert_or_replace
           (ConsensusSpec.row_of t3 "workers-ai-llama-3.1-8b"
              (Pipeline.pipeline_vote payload))
           (Consensus.votes (Pipeline.SHIELD_CONSENSUS e claim_id))
    /\ Pipeline.PROOF_STORAGE e'
       = option_map
           (cons ("proofs/" ++ claim_id ++ ".json",
                  Queue.proofRecord stringify sha256 claim_id (Json.Obj payload)
                    t5 t5))
           (Pipeline.PROOF_STORAGE e)
    /\ exists s, Pipeline.handlePipelineStatus (Some claim_id) e'
                 = Pipeline.StatusOk s
                 /\ Pipeline.current_stage s = "SIGN"
                 /\ Pipeline.next_stage s = "COMPLETE".
Proof.
  intros engine stringify sha256 claim_id claim_text evidence codes now
         r1 t1 r2 t2 r3 t3 r4 t4 r5 t5 [sh q ps vc au] log Hc Ht Hq Ha.
  cbn [Pipeline.VETPROOF_QUEUE Pipeline.AUDIT_DB] in Hq, Ha. subst q au.
  cbv zeta. unfold Pipeline.handlePipelineSubmit.
  cbn [String.eqb Ascii.eqb Bool.eqb negb Pipeline.b_claim_id
       Pipeline.b_claim_text].
  apply String.eqb_neq in Hc, Ht. rewrite Hc, Ht. cbn [orb fst snd].
  cbn [Pipeline.deliver Pipeline.consume Pipeline.dispatch Pipeline.send
       Pipeline.with_queue Pipeline.VETPROOF_QUEUE Pipeline.PROOF_STORAGE
       Pipeline.VERIFICATION_CACHE Pipeline.AUDIT_DB Pipeline.SHIELD_CONSENSUS
       Pipeline.smooth Pipeline.ai_response Pipeline.audit_throws
       Pipeline.m_stage Pipeline.m_claim_id Pipeline.m_payload
       Pipeline.processSanitize Pipeline.processGenerate Pipeline.processDetect
       option_map app String.eqb Ascii.eqb Bool.eqb fst snd].
  erewrite !DeliveryFacts.consume_verify by reflexivity.
  split; [reflexivity|]. split; [reflexivity|]. split; [reflexivity|].
  split; [|split].
  - cbn. unfold Consensus.set_object. rewrite String.eqb_refl.
    apply SelectFacts.votes_submitVote.
  - reflexivity.
  - unfold Pipeline.handlePipelineStatus. rewrite Hc.
    eexists. split; [reflexivity|].
    apply (PipelineFacts.status_latest _ 4%nat "SIGN" eq_refl).
    + cbn [Pipeline.deliver Pipeline.AUDIT_DB]. cbn.
      rewrite String.eqb_refl. reflexivity.
    + intros [|[|[|[|[|j]]]]] later Hj Hlt; try lia. destruct j; discriminate.
Qed.

Lemma queued_pipeline_runs_all_stages_witness :
  let e' :=
    Pipeline.deliver ConsensusSpec.v8 Examples.keys_of Examples.tagged
      [Pipeline.smooth (Json.Str "no pii") "t1";
       Pipeline.smooth (Json.Str "meets 3.303") "t2";
       Pipeline.smooth Json.Undefined "t3";
       Pipeline.smooth (Json.Str "no hallucination") "t4";
       Pipeline.smooth Json.Undefined "t5"]
      (snd (Pipeline.handlePipelineSubmit "POST" Pipeline.tinnitus_body "t0"
              Pipeline.idle)) in
  Pipeline.VETPROOF_QUEUE e' = Some []
  /\ exists s, Pipeline.handlePipelineStatus (Some "c1") e' = Pipeline.StatusOk s
               /\ Pipeline.current_stage s = "SIGN"
               /\ Pipeline.next_stage s = "COMPLETE".
Proof.
  cbv zeta.
  destruct (queued_pipeline_runs_all_stages ConsensusSpec.v8
              Examples.keys_of Examples.tagged
              "c1" "bilateral tinnitus" None None "t0"
              (Json.Str "no pii") "t1" (Json.Str "meets 3.303") "t2"
              Json.Undefined "t3" (Json.Str "no hallucination") "t4"
              Json.Undefined "t5" Pipeline.idle [])
    as (_ & Hq & _ & _ & _ & Hs); try discriminate; try reflexivity.
  split; [exact Hq|exact Hs].
Defined.

(** X7. A stage is not undone when its audit row fails: the consumer then
    retries the message although the next stage is already queued, so the
    redelivery queues the next stage a second time. *)
Theorem failed_audit_queues_next_stage_twice :
  forall engine stringify sha256 o o' m e waiting log reply reply' next,
    Pipeline.following (Pipeline.m_stage m) = Some next ->
    Pipeline.VETPROOF_QUEUE e = Some waiting ->
    Pipeline.AUDIT_DB e = Some log ->
    Pipeline.ai_response o = Some reply ->
    Pipeline.audit_throws o = true ->
    Pipeline.ai_response o' = Some reply' ->
    Pipeline.audit_throws o' = false ->
    let first := Pipeline.consume engine stringify sha256 o m e in
    let second := Pipeline.consume engine stringify sha256 o' m (snd first) in
    fst first = Pipeline.Retried
    /\ Pipeline.AUDIT_DB (snd first) = Some log
    /\ fst second = Pipeline.Acked
    /\ exists n n',
        Pipeline.VETPROOF_QUEUE (snd second) = Some (waiting ++ [n; n'])%list
        /\ Pipeline.m_stage n = next /\ Pipeline.m_stage n' = next
        /\ Pipeline.m_claim_id n = Pipeline.m_claim_id m
        /\ Pipeline.m_claim_id n' = Pipeline.m_claim_id m.
Proof.
  intros engine stringify sha256 o o' [cid stage payload] [sh q ps vc au] waiting log
         reply reply' next Hn Hq Ha Hr Ht Hr' Ht'.
  cbn [Pipeline.VETPROOF_QUEUE Pipeline.AUDIT_DB Pipeline.m_stage] in Hq, Ha, Hn.
  subst q au. cbv zeta. unfold Pipeline.following in Hn.
  unfold Pipeline.consume, Pipeline.dispatch. cbn [Pipeline.m_stage].
  destruct (String.eqb stage "SANITIZE");
    [|destruct (String.eqb stage "GENERATE");
      [|destruct (String.eqb stage "VERIFY");
        [|destruct (String.eqb stage "DETECT"); [|discriminate]]]];
    injection Hn as <-; rewrite ?Hr, ?DeliveryFacts.processVerify_returns;
    cbn; rewrite Ht; cbn;
    unfold Pipeline.consume, Pipeline.dispatch; cbn;
    rewrite ?Hr', ?DeliveryFacts.processVerify_returns; cbn; rewrite Ht'; cbn;
    (split; [reflexivity|]); (split; [reflexivity|]); (split; [reflexivity|]);
    eexists; eexists; rewrite <- app_assoc; cbn [app];
    (split; [reflexivity|]); repeat split.
Qed.

Lemma failed_audit_queues_next_stage_twice_witness :
  let m := {| Pipeline.m_claim_id := "c1"; Pipeline.m_stage := "SANITIZE";
              Pipeline.m_payload := [("claim_text", Json.Str "tinnitus")] |} in
  let failing := {| Pipeline.ai_response := Some (Json.Str "no pii");
                    Pipeline.sql_now := "t"; Pipeline.iso_now := "t";
                    Pipeline.stored_at := "t"; Pipeline.cached_at := "t";
                    Pipeline.audit_throws := true |} in
  let first := Pipeline.consume ConsensusSpec.v8 Examples.keys_of Examples.tagged failing m
                 Pipeline.idle in
  let second := Pipeline.consume ConsensusSpec.v8 Examples.keys_of Examples.tagged
                  (Pipeline.smooth (Json.Str "no pii") "t'") m (snd first) in
  fst first = Pipeline.Retried
  /\ option_map (map Pipeline.m_stage) (Pipeline.VETPROOF_QUEUE (snd second))
     = Some ["GENERATE"; "GENERATE"].
Proof.
  cbv zeta.
  destruct (failed_audit_queues_next_stage_twice ConsensusSpec.v8
              Examples.keys_of Examples.tagged
              {| Pipeline.ai_response := Some (Json.Str "no pii");
                 Pipeline.sql_now := "t"; Pipeline.iso_now := "t";
                 Pipeline.stored_at := "t"; Pipeline.cached_at := "t";
                 Pipeline.audit_throws := true |}
              (Pipeline.smooth (Json.Str "no pii") "t'")
              {| Pipeline.m_claim_id := "c1"; Pipeline.m_stage := "SANITIZE";
                 Pipeline.m_payload := [("claim_text", Json.Str "tinnitus")] |}
              Pipeline.idle [] [] (Json.Str "no pii") (Json.Str "no pii")
              "GENERATE" eq_refl eq_refl eq_refl eq_refl eq_refl eq_refl eq_refl)
    as (H1 & _ & _ & n & n' & Hq & Hn & Hn' & _).
  cbv zeta in H1, Hq. split; [exact H1|].
  rewrite Hq. cbn. rewrite Hn, Hn'. reflexivity.
Defined.

(* ===================================================================== *)
(** * The detect step *)
(* ===================================================================== *)
Module DetectFacts.
Import Workflow.

Lemma low_evidence_match_any v similarity now :
  low_evidence_match (d_checks (detect v similarity now))
  = JS.lt similarity 0.4%float.
Proof. reflexivity. Qed.

Lemma zeros_accumulate n :
  fold_left
    (fun '(dotProduct, normA, normB) '(x, y) =>
       ((dotProduct + x * y)%float, (normA + x * x)%float,
        (normB + y * y)%float))
    (combine (Embed.zeros n) (Embed.zeros n)) (0%float, 0%float, 0%float)
  = (0%float, 0%float, 0%float).
Proof.
  induction n as [|n IH]; [reflexivity|].
  cbn [Embed.zeros repeat combine fold_left]. exact IH.
Qed.

(** Closes a conjunction of evaluated comparisons. *)
Ltac settle :=
  repeat (split || intro);
  try reflexivity; try discriminate;
  try match goal with H : _ -> False |- _ => exfalso; apply H; reflexivity end.

End DetectFacts.

(** X8. When no reply of the models parses, the pipeline still signs and
    archives a bundle: its verdict is NO_QUORUM with an undefined
    confidence, the detect step counts one or two flags and never asks for
    a halt. *)
Theorem no_quorum_is_signed_not_halted :
  forall stringify sha256 claim_id w e,
    Workflow.successful Workflow.models (map (Workflow.w_reply w) Workflow.models)
    = [] ->
    let bundle := fst (Workflow.run stringify sha256 claim_id w e) in
    Workflow.verdict_of bundle = Some (Json.Str "NO_QUORUM")
    /\ Json.get "final_confidence" bundle = Some Json.Undefined
    /\ WorkflowSpec.halted w = false
    /\ (exists flags, Json.get "steps" bundle
                      = Some (Json.Obj flags)
                      /\ exists detect, Json.lookup "detect" flags = Some (Json.Obj detect)
                         /\ (Json.lookup "flags" detect = Some (Json.Int 1)
                             \/ Json.lookup "flags" detect = Some (Json.Int 2)))
    /\ Workflow.PROOF_STORAGE (snd (Workflow.run stringify sha256 claim_id w e))
       = option_map
           (cons (Workflow.proof_key claim_id
                    (match Json.get "proof_hash" bundle with
                     | Some (Json.Str h) => h | _ => "" end),
                  {| Workflow.body := bundle;
                     Workflow.meta_claim_id := claim_id;
                     Workflow.meta_verdict := Json.Str "NO_QUORUM" |}))
           (Workflow.PROOF_STORAGE e).
Proof.
  intros stringify sha256 claim_id w e H. cbv zeta.
  unfold WorkflowSpec.halted, Workflow.run, Workflow.sign. cbv zeta.
  rewrite (VerifyFacts.verify_no_votes _ _ H). unfold JS.value. cbn [fst snd].
  unfold Workflow.detect. cbv zeta.
  cbn [Workflow.get_constitutional_halt Workflow.get_consensus_reached
       Workflow.get_weighted_confidence Workflow.get_confidence_std_dev
       Workflow.truthy Workflow.opt_lt Workflow.opt_gt negb
       Workflow.confidence_anomaly Workflow.no_consensus Workflow.low_confidence
       Workflow.high_disagreement Workflow.low_evidence_match].
  destruct (JS.lt (Workflow.w_similarity w) 0.4%float);
    (split; [reflexivity|]); (split; [reflexivity|]); (split; [reflexivity|]);
    (split; [|reflexivity]);
    eexists; (split; [reflexivity|]); eexists; (split; [reflexivity|]);
    [right|left]; reflexivity.
Qed.

Lemma no_quorum_is_signed_not_halted_witness :
  Workflow.verdict_of
    (fst (Workflow.run Examples.keys_of Examples.tagged "c1"
            (Examples.world_of Examples.silent) Examples.bound))
  = Some (Json.Str "NO_QUORUM")
  /\ WorkflowSpec.halted (Examples.world_of Examples.silent) = false.
Proof.
  destruct (no_quorum_is_signed_not_halted Examples.keys_of Examples.tagged "c1"
              (Examples.world_of Examples.silent) Examples.bound eq_refl)
    as (Hv & _ & Hh & _).
  split; [exact Hv|exact Hh].
Defined.

(** X9. The similarity of the embed step has two silent edges.  Vectors
    of different lengths, or a missing vector, give 0, which the detect
    step flags as a low evidence match; two all-zero vectors of the same
    length (the empty ones included) give NaN, which it does not flag. *)
Theorem similarity_edges :
  (forall a b,
      a = None \/ b = None
      \/ (exists x y, a = Some x /\ b = Some y /\ List.length x <> List.length y) ->
      Embed.cosineSimilarity a b = 0%float
      /\ Embed.low_evidence_match_of (Embed.cosineSimilarity a b) = true)
  /\ (forall n,
      JS.is_nan (Embed.cosineSimilarity (Some (Embed.zeros n)) (Some (Embed.zeros n)))
      = true
      /\ Embed.low_evidence_match_of
           (Embed.cosineSimilarity (Some (Embed.zeros n)) (Some (Embed.zeros n)))
         = false)
  /\ (forall v similarity now,
      Workflow.low_evidence_match
        (Workflow.d_checks (Workflow.detect v similarity now))
      = Embed.low_evidence_match_of similarity).
Proof.
  split; [|split].
  - intros a b H.
    assert (E : Embed.cosineSimilarity a b = 0%float).
    { destruct H as [->|[->|(x & y & -> & -> & Hn)]].
      - reflexivity.
      - destruct a; reflexivity.
      - unfold Embed.cosineSimilarity.
        apply Nat.eqb_neq in Hn. rewrite Hn. reflexivity. }
    rewrite E. split; reflexivity.
  - intros n. unfold Embed.cosineSimilarity.
    rewrite Nat.eqb_refl. cbn [negb].
    rewrite DetectFacts.zeros_accumulate. split; reflexivity.
  - intros v similarity now. reflexivity.
Qed.

Lemma similarity_edges_witness :
  Embed.cosineSimilarity (Some [1.0%float; 0.5%float]) (Some [1.0%float]) = 0%float
  /\ Embed.low_evidence_match_of
       (Embed.cosineSimilarity (Some [1.0%float; 0.5%float]) (Some [1.0%float]))
     = true.
Proof.
  destruct similarity_edges as [H _].
  apply H. right. right. exists [1.0%float; 0.5%float], [1.0%float].
  repeat split. discriminate.
Defined.

(** X10. The trust score follows the number of flags: it lies between 0
    and 1, is below 1 exactly when some check fired, and a run that halts
    has at least one flag and a trust score of at most 0.8; from three
    flags on the run halts and the trust score is at most 0.4. *)
Theorem trust_score_follows_flags :
  forall verification similarity now,
    let d := Workflow.detect verification similarity now in
    0 <= Workflow.flag_count d <= 5
    /\ JS.lt (Workflow.trust_score d) 0%float = false
    /\ JS.gt (Workflow.trust_score d) 1.0%float = false
    /\ JS.lt (Workflow.trust_score d) 1.0%float
       = negb (Workflow.flag_count d =? 0)
    /\ (Workflow.truthy (Workflow.halt_required d) = true ->
        1 <= Workflow.flag_count d
        /\ JS.gt (Workflow.trust_score d) 0.8%float = false)
    /\ (3 <= Workflow.flag_count d ->
        Workflow.truthy (Workflow.halt_required d) = true
        /\ JS.gt (Workflow.trust_score d) 0.4%float = false).
Proof.
  intros verification similarity now. cbv zeta.
  unfold Workflow.detect. cbv zeta.
  cbn [Workflow.flag_count Workflow.trust_score Workflow.halt_required
       Workflow.confidence_anomaly Workflow.no_consensus Workflow.low_confidence
       Workflow.high_disagreement Workflow.low_evidence_match].
  destruct verification as [failed at_|a];
    cbn [Workflow.get_constitutional_halt Workflow.get_consensus_reached
         Workflow.get_weighted_confidence Workflow.get_confidence_std_dev
         Workflow.opt_lt Workflow.opt_gt Workflow.truthy negb].
  - destruct (JS.lt similarity 0.4%float); vm_compute; DetectFacts.settle.
  - destruct (Workflow.constitutional_halt a), (Workflow.consensus_reached a),
      (JS.lt (Workflow.weighted_confidence a) 0.5%float),
      (JS.gt (Workflow.confidence_std_dev a) 0.3%float),
      (JS.lt similarity 0.4%float); vm_compute; DetectFacts.settle.
Qed.

Lemma trust_score_follows_flags_witness :
  1 <= Workflow.flag_count
         (Workflow.detect
            (JS.value (Workflow.verify Examples.split_reply "t")) 0.8%float "t")
  /\ JS.gt (Workflow.trust_score
              (Workflow.detect
                 (JS.value (Workflow.verify Examples.split_reply "t")) 0.8%float "t"))
           0.8%float = false.
Proof.
  apply (trust_score_follows_flags
           (JS.value (Workflow.verify Examples.split_reply "t")) 0.8%float "t").
  vm_compute. reflexivity.
Defined.

(* ===================================================================== *)
(** * The proof agent *)
(* ===================================================================== *)
Module AgentFacts.
Import Agent.

Lemma unpaid_iff h :
  paid (checkX402Payment h) = false
  <-> present (X_Payment h) = false /\ present (X_Payment_Tx h) = false
      /\ present (X_API_Key h) = false /\ present (Authorization h) = false.
Proof.
  unfold checkX402Payment.
  destruct (present (X_Payment h)), (present (X_Payment_Tx h)),
    (present (X_API_Key h)), (present (Authorization h)); cbn;
    intuition discriminate.
Qed.

Section Hash.
Variable engine : list (string * Obj.value Z) -> nat.
Variable proof_hash_of :
  string -> string -> list ProofAgent.vote -> string -> JS.num -> string.

Lemma verifyClaim_some o claim captured a r a' :
  verifyClaim engine proof_hash_of o claim captured a = Some (r, a') ->
  existsb (fun row => String.eqb (h_id row) (uuid o)) (history a) = false
  /\ v_claim_id r = uuid o
  /\ verifications_count (a_state a') = verifications_count captured + 1
  /\ total_revenue_cents (a_state a') = total_revenue_cents (a_state a)
  /\ models_available (a_state a') = models_available (a_state a)
  /\ (exists row, history a' = row :: history a
                  /\ h_id row = uuid o
                  /\ h_result row = ProofAgent.r_verdict (v_outcome r)
                  /\ h_proof_hash row = v_proof_hash r)
  /\ cache a' = (if kv_put_throws o then cache a
                 else ("proof:" ++ uuid o, r) :: cache a).
Proof.
  unfold verifyClaim. cbv zeta.
  destruct (existsb _ (history a)); [discriminate|].
  intros [= <- <-]. cbn. repeat split. eexists. repeat split.
Qed.

Lemma verifyClaim_fresh o claim captured a :
  existsb (fun row => String.eqb (h_id row) (uuid o)) (history a) = false ->
  exists r a', verifyClaim engine proof_hash_of o claim captured a = Some (r, a').
Proof.
  intros H. unfold verifyClaim. cbv zeta. rewrite H. eexists. eexists. reflexivity.
Qed.

End Hash.
End AgentFacts.

(** X11. The payment gate looks at the presence of headers only: a
    verification is refused with 402, and the agent left untouched, exactly
    when the request carries none of [X-Payment], [X-Payment-Tx],
    [X-API-Key] and [Authorization]; any non-empty value of one of them
    lets the request through. *)
Theorem payment_gate_checks_presence_only :
  forall engine proof_hash_of o request a,
    (fst (Agent.handleVerify engine proof_hash_of o request a) = Agent.R402
     <-> Agent.present (Agent.X_Payment (Agent.rq_headers request)) = false
         /\ Agent.present (Agent.X_Payment_Tx (Agent.rq_headers request)) = false
         /\ Agent.present (Agent.X_API_Key (Agent.rq_headers request)) = false
         /\ Agent.present (Agent.Authorization (Agent.rq_headers request)) = false)
    /\ (fst (Agent.handleVerify engine proof_hash_of o request a) = Agent.R402 ->
        snd (Agent.handleVerify engine proof_hash_of o request a) = a).
Proof.
  intros engine proof_hash_of o request a.
  rewrite <- AgentFacts.unpaid_iff. unfold Agent.handleVerify.
  destruct (Agent.paid _) eqn:Ep; cbn [negb].
  - destruct (Agent.present (Agent.rq_claim request)); cbn [negb].
    + destruct (Agent.verifyClaim _ _ _ _ _ _) as [[r a1]|];
        [destruct (Agent.present _)|]; cbn; intuition discriminate.
    + cbn. intuition discriminate.
  - cbn. intuition.
Qed.

Lemma payment_gate_checks_presence_only_witness :
  fst (Agent.handleVerify ConsensusSpec.v8 Agent.sample_hash (Agent.call "id-1")
         {| Agent.rq_headers := Agent.anonymous; Agent.rq_claim := Some "claim" |}
         Agent.new_agent) = Agent.R402
  /\ snd (Agent.handleVerify ConsensusSpec.v8 Agent.sample_hash (Agent.call "id-1")
            {| Agent.rq_headers := Agent.anonymous; Agent.rq_claim := Some "claim" |}
            Agent.new_agent) = Agent.new_agent.
Proof.
  destruct (payment_gate_checks_presence_only ConsensusSpec.v8 Agent.sample_hash (Agent.call "id-1")
              {| Agent.rq_headers := Agent.anonymous; Agent.rq_claim := Some "claim" |}
              Agent.new_agent) as [[_ H] H'].
  assert (E : fst (Agent.handleVerify ConsensusSpec.v8 Agent.sample_hash (Agent.call "id-1")
                     {| Agent.rq_headers := Agent.anonymous;
                        Agent.rq_claim := Some "claim" |} Agent.new_agent)
              = Agent.R402) by (apply H; repeat split).
  split; [exact E|exact (H' E)].
Defined.

(** X12. A served verification is accounted for once: the answer 200
    raises [verifications_count] by one and puts one row, under the new
    claim id, on top of the history; [total_revenue_cents] grows by one when
    the request carries [X-Payment-Tx] and not otherwise (an API key or a
    bare [X-Payment] header earns nothing).  Every other answer leaves the
    agent as it was. *)
Theorem served_verification_is_accounted_once :
  forall engine proof_hash_of o request a,
    let out := Agent.handleVerify engine proof_hash_of o request a in
    match fst out with
    | Agent.R200 result payment_tx =>
        Agent.v_claim_id result = Agent.uuid o
        /\ Agent.verifications_count (Agent.a_state (snd out))
           = Agent.verifications_count (Agent.a_state a) + 1
        /\ Agent.total_revenue_cents (Agent.a_state (snd out))
           = Agent.total_revenue_cents (Agent.a_state a)
             + (if Agent.present (Agent.X_Payment_Tx (Agent.rq_headers request))
                then 1 else 0)
        /\ payment_tx
           = (if Agent.present (Agent.X_Payment_Tx (Agent.rq_headers request))
              then Agent.X_Payment_Tx (Agent.rq_headers request) else None)
        /\ exists row, Agent.history (snd out) = row :: Agent.history a
                       /\ Agent.h_id row = Agent.uuid o
                       /\ Agent.h_proof_hash row = Agent.v_proof_hash result
    | _ => snd out = a
    end.
Proof.
  intros engine proof_hash_of o request a. cbv zeta. unfold Agent.handleVerify.
  destruct (Agent.paid _); cbn [negb]; [|reflexivity].
  destruct (Agent.present (Agent.rq_claim request)); cbn [negb]; [|reflexivity].
  destruct (Agent.verifyClaim _ _ _ _ _ _) as [[r a1]|] eqn:E; [|reflexivity].
  destruct (AgentFacts.verifyClaim_some _ _ _ _ _ _ _ _ E)
    as (_ & Hid & Hc & Hr & _ & (row & Hh & Hrow & _ & Hp) & _).
  destruct (Agent.present (Agent.X_Payment_Tx _)); cbn;
    rewrite ?Hc, ?Hr, ?Hh; repeat split; try lia; try assumption;
    exists row; repeat split; assumption.
Qed.

(** X13. A batch is accounted for once, whatever its size: the calls of a
    batch all start from the state the batch found, so that a batch of one
    to ten claims with fresh ids answers with one result per claim, in the
    order of the claims, adds one row per claim to the history, and raises
    [verifications_count] by one only.  A
    batch of more than ten claims is refused and changes nothing. *)
Theorem batch_counts_as_one_verification :
  forall engine proof_hash_of h claims a,
    Agent.paid (Agent.checkX402Payment h) = true ->
    ((10 < List.length claims)%nat ->
     exists msg, Agent.handleBatchVerify engine proof_hash_of h (Some claims) a
                 = (Agent.B400 msg, a))
    /\ ((List.length claims <= 10)%nat ->
        NoDup (map (fun c => Agent.uuid (snd c)) claims
               ++ map Agent.h_id (Agent.history a))%list ->
        exists results a',
          Agent.handleBatchVerify engine proof_hash_of h (Some claims) a
          = (Agent.B200 results, a')
          /\ map Agent.v_claim_id results = map (fun c => Agent.uuid (snd c)) claims
          /\ Permutation (map Agent.h_id (Agent.history a'))
               (map (fun c => Agent.uuid (snd c)) claims
                ++ map Agent.h_id (Agent.history a))%list
          /\ Agent.verifications_count (Agent.a_state a')
             = Agent.verifications_count (Agent.a_state a)
               + (if Nat.eqb (List.length claims) 0 then 0 else 1)).
Proof.
  intros engine proof_hash_of h claims a Hp. unfold Agent.handleBatchVerify.
  rewrite Hp. cbn [negb]. split.
  - intros Hl. apply Nat.ltb_lt in Hl. rewrite Hl. eexists. reflexivity.
  - intros Hl Hnd.
    assert (Hl' : (10 <? List.length claims)%nat = false)
      by (apply Nat.ltb_ge; exact Hl).
    rewrite Hl'. cbv zeta.
    set (captured := Agent.a_state a).
    set (step := fun '(ok, results, a) '(claim, o) =>
                   match Agent.verifyClaim engine proof_hash_of o claim captured a with
                   | Some (r, a1) => (ok, (results ++ [r])%list, a1)
                   | None => (false, results, a)
                   end).
    assert (G : forall cs rs b,
               NoDup (map (fun c => Agent.uuid (snd c)) cs
                      ++ map Agent.h_id (Agent.history b))%list ->
               exists rs' b',
                 fold_left step cs (true, rs, b) = (true, (rs ++ rs')%list, b')
                 /\ map Agent.v_claim_id rs' = map (fun c => Agent.uuid (snd c)) cs
                 /\ map Agent.h_id (Agent.history b')
                    = (rev (map (fun c => Agent.uuid (snd c)) cs)
                       ++ map Agent.h_id (Agent.history b))%list
                 /\ Agent.verifications_count (Agent.a_state b')
                    = (if Nat.eqb (List.length cs) 0
                       then Agent.verifications_count (Agent.a_state b)
                       else Agent.verifications_count captured + 1)).
    { induction cs as [|[claim o] cs IH]; intros rs b Hn.
      - exists [], b. rewrite app_nil_r. repeat split.
      - cbn [map snd app] in Hn. inversion Hn as [|? ? Hnotin Hrest]; subst.
        assert (Hfresh : existsb (fun row => String.eqb (Agent.h_id row) (Agent.uuid o))
                           (Agent.history b) = false).
        { destruct (existsb _ _) eqn:Ex; [|reflexivity].
          exfalso. apply Hnotin. apply existsb_exists in Ex.
          destruct Ex as (row & Hrow & Eid). apply String.eqb_eq in Eid.
          apply in_app_iff. right. apply in_map_iff. exists row. tauto. }
        destruct (AgentFacts.verifyClaim_fresh engine proof_hash_of o claim captured b Hfresh)
          as (r & b1 & E).
        destruct (AgentFacts.verifyClaim_some _ _ _ _ _ _ _ _ E)
          as (_ & Hid & Hc & _ & _ & (row & Hh & Hrow & _) & _).
        destruct (IH (rs ++ [r])%list b1) as (rs' & b' & Ef & Hids & Hhist & Hcount).
        { rewrite Hh. cbn [map]. rewrite Hrow.
          eapply Permutation_NoDup; [apply Permutation_middle|exact Hn]. }
        exists (r :: rs'), b'. cbn [fold_left]. unfold step at 2. rewrite E.
        fold step. rewrite Ef, <- app_assoc. cbn [app map rev List.length Nat.eqb snd].
        split; [reflexivity|]. split; [rewrite Hid, Hids; reflexivity|].
        split.
        + rewrite Hhist, Hh. cbn [map]. rewrite Hrow, <- app_assoc. reflexivity.
        + rewrite Hcount. destruct (Nat.eqb (List.length cs) 0); [exact Hc|reflexivity]. }
    destruct (G claims [] a Hnd) as (rs' & b' & Ef & Hids & Hhist & Hcount).
    fold step. rewrite Ef. cbn [app]. exists rs', b'.
    split; [reflexivity|]. split; [exact Hids|]. split.
    { rewrite Hhist. apply Permutation_app_tail. symmetry. apply Permutation_rev. }
    rewrite Hcount. subst captured. destruct (Nat.eqb _ 0); lia.
Qed.

Lemma batch_counts_as_one_verification_witness :
  exists results a',
    Agent.handleBatchVerify ConsensusSpec.v8 Agent.sample_hash Agent.with_key
      (Some [("claim a", Agent.call "id-1"); ("claim b", Agent.call "id-2");
             ("claim c", Agent.call "id-3")]) Agent.new_agent
    = (Agent.B200 results, a')
    /\ List.length results = 3%nat
    /\ Agent.verifications_count (Agent.a_state a') = 1.
Proof.
  destruct (batch_counts_as_one_verification ConsensusSpec.v8 Agent.sample_hash Agent.with_key
              [("claim a", Agent.call "id-1"); ("claim b", Agent.call "id-2");
               ("claim c", Agent.call "id-3")] Agent.new_agent eq_refl)
    as [_ H].
  destruct H as (results & a' & E & Hids & _ & Hc).
  - cbn. lia.
  - cbn. repeat constructor; cbn; intuition discriminate.
  - exists results, a'. split; [exact E|]. split; [|exact Hc].
    rewrite <- (length_map Agent.v_claim_id), Hids. reflexivity.
Defined.

(** X14. A verification can be retrieved by its claim id afterwards: when
    the cache took the result, the proof endpoint returns it; when the
    cache write or the cache read fails, it returns the row of the history,
    which carries the same verdict and proof hash.  It never answers 404
    for a verification that was made. *)
Theorem verification_is_retrievable :
  forall engine proof_hash_of o claim captured a r a' kv_get_throws,
    Agent.verifyClaim engine proof_hash_of o claim captured a = Some (r, a') ->
    (Agent.kv_put_throws o = false -> kv_get_throws = false ->
     Agent.handleGetProof kv_get_throws (Agent.uuid o) a' = Agent.ProofCached r)
    /\ (Agent.kv_put_throws o = true \/ kv_get_throws = true ->
        Session.kv_get ("proof:" ++ Agent.uuid o) (Agent.cache a) = None ->
        exists row,
          Agent.handleGetProof kv_get_throws (Agent.uuid o) a' = Agent.ProofRow row
          /\ Agent.h_id row = Agent.uuid o
          /\ Agent.h_result row = ProofAgent.r_verdict (Agent.v_outcome r)
          /\ Agent.h_proof_hash row = Agent.v_proof_hash r)
    /\ Agent.handleGetProof kv_get_throws (Agent.uuid o) a' <> Agent.Proof404.
Proof.
  intros engine proof_hash_of o claim captured a r a' g E.
  destruct (AgentFacts.verifyClaim_some _ _ _ _ _ _ _ _ E)
    as (_ & _ & _ & _ & _ & (row & Hh & Hrow & Hres & Hp) & Hcache).
  unfold Agent.handleGetProof. rewrite Hh, Hcache. cbn [filter].
  rewrite Hrow, String.eqb_refl.
  split; [|split].
  - intros -> ->. cbn [Session.kv_get]. rewrite String.eqb_refl. reflexivity.
  - intros Hor Hnone. exists row.
    destruct g; [|destruct Hor as [->|Hg]; [rewrite Hnone|discriminate]];
      repeat split; assumption.
  - destruct (if g then None else _); discriminate.
Qed.

Lemma verification_is_retrievable_witness :
  exists r a',
    Agent.verifyClaim ConsensusSpec.v8 Agent.sample_hash (Agent.call "id-1") "claim"
      (Agent.a_state Agent.new_agent) Agent.new_agent = Some (r, a')
    /\ Agent.handleGetProof false "id-1" a' = Agent.ProofCached r.
Proof.
  eexists. eexists. split; [reflexivity|].
  refine (proj1 (verification_is_retrievable ConsensusSpec.v8 Agent.sample_hash (Agent.call "id-1")
                   "claim" (Agent.a_state Agent.new_agent) Agent.new_agent
                   _ _ false eq_refl) eq_refl eq_refl).
Defined.

(* ===================================================================== *)
(** * The fleet monitor *)
(* ===================================================================== *)
Module FleetFacts.
Import Fleet.

Lemma tally_pos p l : (0 <? count p l) = existsb p l.
Proof.
  unfold count. induction l as [|r l IH]; [reflexivity|].
  cbn [filter existsb]. destruct (p r); cbn [orb].
  - cbn [List.length]. apply Z.ltb_lt. lia.
  - exact IH.
Qed.

Lemma none_with (p : result -> bool) l :
  (forall r, In r l -> p r = false) -> existsb p l = false.
Proof.
  intros H. destruct (existsb p l) eqn:Ex; [|reflexivity].
  apply existsb_exists in Ex. destruct Ex as (r & Hr & Hp).
  rewrite (H r Hr) in Hp. discriminate.
Qed.

Lemma count_nonneg p l : 0 <= count p l.
Proof. unfold count. lia. Qed.

Lemma name_check w f : name (checkWorkerHealth w f) = w_name w.
Proof. destruct f; reflexivity. Qed.

Lemma critical_check w f : critical (checkWorkerHealth w f) = w_critical w.
Proof. destruct f; reflexivity. Qed.

Lemma status_check w f :
  status (checkWorkerHealth w f) = "down"
  \/ status (checkWorkerHealth w f) = "degraded"
  \/ status (checkWorkerHealth w f) = "healthy".
Proof.
  destruct f as [ok t|t]; cbn; [|tauto].
  destruct ok; cbn; [|tauto].
  destruct (responseTimeCritical <? t); [tauto|].
  destruct (responseTimeWarning <? t); tauto.
Qed.

Lemma no_external (probe : worker -> fetched) ws :
  filter (fun r => String.eqb (status r) "external")
    (map (fun w => checkWorkerHealth w (probe w)) ws) = [].
Proof.
  induction ws as [|w ws IH]; [reflexivity|].
  cbn [map filter].
  destruct (status_check w (probe w)) as [E|[E|E]]; rewrite E; exact IH.
Qed.

Lemma down_iff w f :
  status (checkWorkerHealth w f) = "down"
  <-> (exists t, f = Threw t) \/ (exists t, f = Replied false t).
Proof.
  destruct f as [ok t|t]; cbn.
  - destruct ok; cbn.
    + destruct (responseTimeCritical <? t); [|destruct (responseTimeWarning <? t)];
        (split; [discriminate|intros [[? ?]|[? ?]]; discriminate]).
    + split; [intros _; right; eexists; reflexivity|reflexivity].
  - split; [intros _; left; eexists; reflexivity|reflexivity].
Qed.

Lemma healthy_iff w f :
  status (checkWorkerHealth w f) = "healthy"
  <-> exists t, f = Replied true t /\ t <= responseTimeWarning.
Proof.
  destruct f as [ok t|t]; cbn.
  - destruct ok; cbn.
    + unfold responseTimeCritical, responseTimeWarning.
      destruct (5000 <? t) eqn:E1; [|destruct (2000 <? t) eqn:E2].
      * apply Z.ltb_lt in E1.
        split; [discriminate|intros (t' & [= <-] & H); lia].
      * apply Z.ltb_lt in E2.
        split; [discriminate|intros (t' & [= <-] & H); lia].
      * apply Z.ltb_ge in E2.
        split; [intros _; exists t; split; [reflexivity|exact E2]|reflexivity].
    + split; [discriminate|intros (t' & [=] & _)].
  - split; [discriminate|intros (t' & [=] & _)].
Qed.

(** The four tallies of a report cover results whose status is one of the
    four. *)
Lemma tallies_cover l :
  (forall r, In r l ->
             status r = "healthy" \/ status r = "degraded"
             \/ status r = "down" \/ status r = "external") ->
  count (fun r => String.eqb (status r) "healthy") l
  + count (fun r => String.eqb (status r) "degraded") l
  + count (fun r => String.eqb (status r) "down") l
  + count (fun r => String.eqb (status r) "external") l
  = Z.of_nat (List.length l).
Proof.
  unfold count. induction l as [|r l IH]; intros H; [reflexivity|].
  assert (IH' := IH (fun r' Hr' => H r' (or_intror Hr'))).
  cbn [filter List.length].
  destruct (H r (or_introl eq_refl)) as [E|[E|[E|E]]]; rewrite E;
    repeat match goal with
           | |- context [String.eqb ?a ?b] =>
               let v := eval vm_compute in (String.eqb a b) in
               change (String.eqb a b) with v
           end;
    cbn [List.length]; lia.
Qed.

Lemma failKey_eqb n m : String.eqb (failKey n) (failKey m) = String.eqb n m.
Proof. reflexivity. Qed.

Lemma get_delete k k' (kv : counters) :
  Session.kv_get k (delete k' kv)
  = if String.eqb k' k then None else Session.kv_get k kv.
Proof.
  unfold delete. induction kv as [|[k0 v] kv IH]; cbn [filter fst].
  - cbn. destruct (String.eqb k' k); reflexivity.
  - destruct (String.eqb_spec k0 k') as [->|N]; cbn [negb Session.kv_get].
    + rewrite IH. destruct (String.eqb k' k); reflexivity.
    + rewrite IH. destruct (String.eqb_spec k0 k) as [->|N']; [|reflexivity].
      destruct (String.eqb_spec k' k) as [->|_]; [contradiction|reflexivity].
Qed.

Lemma track_other r n alerts kv :
  name r <> n ->
  Session.kv_get (failKey n) (snd (track (alerts, kv) r))
  = Session.kv_get (failKey n) kv
  /\ filter (about n) (fst (track (alerts, kv) r)) = filter (about n) alerts.
Proof.
  intros N. unfold track.
  assert (E : String.eqb (name r) n = false) by (apply String.eqb_neq; exact N).
  destruct (String.eqb (status r) "down" || _).
  - destruct (consecutiveFailures <=? _); cbn [fst snd Session.kv_get];
      rewrite failKey_eqb, E; (split; [reflexivity|]).
    + rewrite filter_app. cbn. unfold about at 2. cbn. rewrite E, app_nil_r.
      reflexivity.
    + reflexivity.
  - cbn [fst snd]. rewrite get_delete, failKey_eqb, E. split; reflexivity.
Qed.

Lemma track_absent rs : forall n alerts kv,
  ~ In n (map name rs) ->
  Session.kv_get (failKey n) (snd (fold_left track rs (alerts, kv)))
  = Session.kv_get (failKey n) kv
  /\ filter (about n) (fst (fold_left track rs (alerts, kv)))
     = filter (about n) alerts.
Proof.
  induction rs as [|r rs IH]; intros n alerts kv H; [split; reflexivity|].
  cbn [fold_left]. cbn [map In] in H.
  destruct (track_other r n alerts kv) as [E1 E2]; [tauto|].
  destruct (track (alerts, kv) r) as [alerts1 kv1].
  destruct (IH n alerts1 kv1) as [E3 E4]; [tauto|].
  cbn [fst snd] in E1, E2. rewrite E3, E4, E1, E2. split; reflexivity.
Qed.

Lemma track_own r alerts kv :
  Session.kv_get (failKey (name r)) (snd (track (alerts, kv) r))
  = (if failing r then Some (prev (name r) kv + 1) else None)
  /\ filter (about (name r)) (fst (track (alerts, kv) r))
     = (filter (about (name r)) alerts
        ++ if failing r && (consecutiveFailures <=? prev (name r) kv + 1)
           then [raised r (prev (name r) kv + 1)] else [])%list.
Proof.
  unfold track, failing, prev.
  destruct (String.eqb (status r) "down" || _); cbn [andb].
  - destruct (consecutiveFailures <=? _); cbn [fst snd Session.kv_get];
      rewrite String.eqb_refl; (split; [reflexivity|]).
    + rewrite filter_app. cbn [filter]. unfold about at 2. cbn [a_worker].
      rewrite String.eqb_refl. reflexivity.
    + rewrite app_nil_r. reflexivity.
  - cbn [fst snd]. rewrite get_delete, String.eqb_refl, app_nil_r.
    split; reflexivity.
Qed.

(** What one check does to the counter of a monitored worker, and which
    alert it raises about it. *)
Lemma track_fold ws : forall (probe : worker -> fetched) tail w alerts kv,
  In w ws ->
  NoDup (map w_name ws ++ map name tail) ->
  let r := checkWorkerHealth w (probe w) in
  let out :=
    fold_left track
      (map (fun w => checkWorkerHealth w (probe w)) ws ++ tail)%list (alerts, kv) in
  Session.kv_get (failKey (w_name w)) (snd out)
  = (if failing r then Some (prev (w_name w) kv + 1) else None)
  /\ filter (about (w_name w)) (fst out)
     = (filter (about (w_name w)) alerts
        ++ if failing r && (consecutiveFailures <=? prev (w_name w) kv + 1)
           then [raised r (prev (w_name w) kv + 1)] else [])%list.
Proof.
  induction ws as [|w0 ws IH]; intros probe tail w alerts kv Hin Hnd;
    [destruct Hin|].
  cbv zeta. cbn [map app fold_left]. cbn [map app] in Hnd.
  inversion Hnd as [|? ? Hnotin Hrest]; subst.
  destruct Hin as [->|Hin].
  - destruct (track_own (checkWorkerHealth w (probe w)) alerts kv) as [E1 E2].
    rewrite name_check in E1, E2.
    destruct (track (alerts, kv) (checkWorkerHealth w (probe w))) as [alerts1 kv1].
    destruct (track_absent
                (map (fun w => checkWorkerHealth w (probe w)) ws ++ tail)%list
                (w_name w) alerts1 kv1) as [E3 E4].
    { rewrite map_app, map_map.
      rewrite (map_ext _ w_name) by (intros; apply name_check). exact Hnotin. }
    cbn [fst snd] in E1, E2. rewrite E3, E4, E1, E2. split; reflexivity.
  - assert (N : w_name w0 <> w_name w).
    { intros E. apply Hnotin. rewrite E. apply in_app_iff. left.
      apply in_map. exact Hin. }
    destruct (track_other (checkWorkerHealth w0 (probe w0)) (w_name w) alerts kv)
      as [E1 E2]; [rewrite name_check; exact N|].
    destruct (track (alerts, kv) (checkWorkerHealth w0 (probe w0)))
      as [alerts1 kv1].
    destruct (IH probe tail w alerts1 kv1 Hin Hrest) as [E3 E4].
    cbv zeta in E3, E4. cbn [fst snd] in E1, E2.
    unfold prev in *. rewrite E3, E4, E1, E2. split; reflexivity.
Qed.

Lemma names_distinct :
  NoDup (map w_name monitored ++ map name [pi_sheriff])%list.
Proof. cbn. repeat constructor; cbn; intuition discriminate. Qed.

Lemma run_counter probe kv w :
  In w monitored ->
  let r := checkWorkerHealth w (probe w) in
  let out := runFleetHealthCheck probe kv in
  Session.kv_get (failKey (w_name w)) (snd out)
  = (if failing r then Some (prev (w_name w) kv + 1) else None)
  /\ filter (about (w_name w)) (alerts (fst out))
     = if failing r && (consecutiveFailures <=? prev (w_name w) kv + 1)
       then [raised r (prev (w_name w) kv + 1)] else [].
Proof.
  intros Hin. cbv zeta.
  destruct (track_fold monitored probe [pi_sheriff] w [] kv Hin names_distinct)
    as [E1 E2].
  cbv zeta in E1, E2. unfold runFleetHealthCheck. cbv zeta.
  fold monitored.
  destruct (fold_left track _ _) as [alerts1 kv1].
  cbn [fst snd alerts] in *. rewrite E1, E2. split; reflexivity.
Qed.

Lemma checks_snoc probes probe kv :
  snd (checks (probes ++ [probe]) kv)
  = snd (runFleetHealthCheck probe (snd (checks probes kv))).
Proof.
  unfold checks. rewrite fold_left_app. cbn [fold_left].
  destruct (fold_left _ probes _) as [reports kv1]. cbn [snd].
  destruct (runFleetHealthCheck probe kv1). reflexivity.
Qed.

Lemma streak_snoc w probes probe :
  streak w (probes ++ [probe])
  = if failing (checkWorkerHealth w (probe w)) then streak w probes + 1 else 0.
Proof. unfold streak. rewrite fold_left_app. reflexivity. Qed.

Lemma streak_nonneg w probes : 0 <= streak w probes.
Proof.
  induction probes as [|probe probes IH] using rev_ind; [cbn; lia|].
  rewrite streak_snoc. destruct (failing _); lia.
Qed.

Lemma counter_is_streak w probes : forall kv,
  In w monitored ->
  Session.kv_get (failKey (w_name w)) kv = None ->
  Session.kv_get (failKey (w_name w)) (snd (checks probes kv))
  = if streak w probes =? 0 then None else Some (streak w probes).
Proof.
  intros kv Hin H0.
  induction probes as [|probe probes IH] using rev_ind; [exact H0|].
  rewrite checks_snoc, streak_snoc.
  destruct (run_counter probe (snd (checks probes kv)) w Hin) as [E _].
  cbv zeta in E. rewrite E. unfold prev. rewrite IH.
  pose proof (streak_nonneg w probes) as Hs.
  destruct (failing _); [|reflexivity].
  destruct (streak w probes =? 0) eqn:Ez.
  - apply Z.eqb_eq in Ez. rewrite Ez. reflexivity.
  - assert ((streak w probes + 1 =? 0) = false) as -> by (apply Z.eqb_neq; lia).
    reflexivity.
Qed.

End FleetFacts.

(** X15. The overall status of a fleet check is [critical] exactly when a
    critical worker is down, that is when its health request fails or is
    answered with an error status; it is [healthy] exactly when every
    monitored worker answers well within the warning time.  A slow answer
    only degrades.  The LAN-only entry counts as external and the four
    tallies of the report add up to the nine workers. *)
Theorem fleet_status_follows_the_workers :
  forall probe kv,
    let report := fst (Fleet.runFleetHealthCheck probe kv) in
    (Fleet.overallStatus report = "critical"
     <-> exists w, In w Fleet.monitored /\ Fleet.w_critical w = true
                   /\ ((exists t, probe w = Fleet.Threw t)
                       \/ (exists t, probe w = Fleet.Replied false t)))
    /\ (Fleet.overallStatus report = "healthy"
        <-> forall w, In w Fleet.monitored ->
                      exists t, probe w = Fleet.Replied true t
                                /\ t <= Fleet.responseTimeWarning)
    /\ Fleet.healthy report + Fleet.degraded report + Fleet.down report
       + Fleet.external report = Fleet.workerCount report
    /\ Fleet.workerCount report = 9
    /\ Fleet.external report = 1.
Proof.
  intros probe kv. cbv zeta.
  unfold Fleet.runFleetHealthCheck. cbv zeta. fold Fleet.monitored.
  set (results := (map (fun w => Fleet.checkWorkerHealth w (probe w)) Fleet.monitored
                   ++ [Fleet.pi_sheriff])%list).
  destruct (fold_left Fleet.track results _) as [alerts1 kv1].
  cbn [fst Fleet.overallStatus Fleet.healthy Fleet.degraded Fleet.down
       Fleet.external Fleet.workerCount].
  assert (Hin : forall r, In r results <->
                          r = Fleet.pi_sheriff
                          \/ exists w, In w Fleet.monitored
                                       /\ r = Fleet.checkWorkerHealth w (probe w)).
  { intros r. subst results. rewrite in_app_iff, in_map_iff. cbn [In].
    split.
    - intros [(w & <- & Hw)|[<-|[]]]; [right; exists w; tauto|left; reflexivity].
    - intros [->|(w & Hw & ->)]; [right; left; reflexivity|left; exists w; tauto]. }
  unfold Fleet.calculateOverallStatus. cbv zeta.
  rewrite !FleetFacts.tally_pos.
  split; [|split; [|split; [|split]]].
  - split.
    + intros H.
      destruct (existsb _ results) eqn:Ex.
      * apply existsb_exists in Ex. destruct Ex as (r & Hr & Hc).
        apply andb_prop in Hc. destruct Hc as [Hc Hd].
        apply String.eqb_eq in Hd.
        apply Hin in Hr. destruct Hr as [->|(w & Hw & ->)]; [discriminate|].
        exists w. rewrite FleetFacts.critical_check in Hc.
        split; [exact Hw|]. split; [exact Hc|].
        apply (FleetFacts.down_iff w). exact Hd.
      * destruct (existsb _ results || _); [discriminate|].
        destruct (existsb (fun r => String.eqb (Fleet.status r) "degraded") results);
          discriminate.
    + intros (w & Hw & Hc & Hd).
      apply (FleetFacts.down_iff w) in Hd.
      assert (Ex : existsb (fun r => Fleet.critical r
                                     && String.eqb (Fleet.status r) "down") results
                   = true).
      { apply existsb_exists. exists (Fleet.checkWorkerHealth w (probe w)).
        split; [apply Hin; right; exists w; tauto|].
        rewrite FleetFacts.critical_check, Hc, Hd. reflexivity. }
      rewrite Ex. reflexivity.
  - split.
    + intros H w Hw.
      apply (FleetFacts.healthy_iff w).
      destruct (existsb _ results) eqn:Ex1; [discriminate|].
      destruct (existsb (fun r => String.eqb (Fleet.status r) "down") results)
        eqn:Ex2; [discriminate|].
      cbn [orb] in H.
      destruct (2 <? _); [discriminate|].
      destruct (existsb (fun r => String.eqb (Fleet.status r) "degraded") results)
        eqn:Ex3; [discriminate|].
      assert (Hr : In (Fleet.checkWorkerHealth w (probe w)) results)
        by (apply Hin; right; exists w; tauto).
      destruct (FleetFacts.status_check w (probe w)) as [E|[E|E]]; [| |exact E].
      * exfalso. assert (X : existsb (fun r => String.eqb (Fleet.status r) "down")
                               results = true).
        { apply existsb_exists. eexists. split; [exact Hr|]. rewrite E. reflexivity. }
        congruence.
      * exfalso. assert (X : existsb (fun r => String.eqb (Fleet.status r) "degraded")
                               results = true).
        { apply existsb_exists. eexists. split; [exact Hr|]. rewrite E. reflexivity. }
        congruence.
    + intros H.
      assert (Hs : forall r, In r results ->
                             Fleet.status r = "healthy" \/ Fleet.status r = "external").
      { intros r Hr. apply Hin in Hr. destruct Hr as [->|(w & Hw & ->)].
        - right. reflexivity.
        - left. apply (FleetFacts.healthy_iff w). apply H. exact Hw. }
      assert (Ex1 : existsb (fun r => String.eqb (Fleet.status r) "down") results
                    = false).
      { apply FleetFacts.none_with. intros r Hr.
        destruct (Hs r Hr) as [E|E]; rewrite E; reflexivity. }
      assert (Ex2 : existsb (fun r => String.eqb (Fleet.status r) "degraded") results
                    = false).
      { apply FleetFacts.none_with. intros r Hr.
        destruct (Hs r Hr) as [E|E]; rewrite E; reflexivity. }
      assert (Ex0 : existsb (fun r => Fleet.critical r
                                      && String.eqb (Fleet.status r) "down") results
                    = false).
      { apply FleetFacts.none_with. intros r Hr.
        destruct (Hs r Hr) as [E|E]; rewrite E; destruct (Fleet.critical r);
          reflexivity. }
      rewrite Ex0, Ex1. cbn [orb].
      assert (Ez : Fleet.count (fun r => String.eqb (Fleet.status r) "degraded")
                     results = 0).
      { pose proof (FleetFacts.tally_pos
                      (fun r => String.eqb (Fleet.status r) "degraded") results) as P.
        rewrite Ex2 in P. apply Z.ltb_ge in P.
        pose proof (FleetFacts.count_nonneg
                      (fun r => String.eqb (Fleet.status r) "degraded") results).
        lia. }
      rewrite Ez, Ex2. reflexivity.
  - apply FleetFacts.tallies_cover.
    intros r Hr. apply Hin in Hr. destruct Hr as [->|(w & Hw & ->)].
    + right. right. right. reflexivity.
    + destruct (FleetFacts.status_check w (probe w)) as [E|[E|E]]; tauto.
  - subst results. rewrite length_app, length_map. reflexivity.
  - subst results. unfold Fleet.count. rewrite filter_app.
    rewrite (FleetFacts.no_external probe Fleet.monitored). reflexivity.
Qed.

(** X16. The failure counter of a monitored worker is the number of
    checks in a row that it failed (down, or degraded when it is critical):
    a check that it passes clears the counter.  A check raises an alert
    about the worker exactly when it is at least the third failure in a
    row, and the alert carries that number. *)
Theorem alert_from_third_failure_in_a_row :
  forall probes probe kv w,
    In w Fleet.monitored ->
    Session.kv_get (Fleet.failKey (Fleet.w_name w)) kv = None ->
    let before := snd (Fleet.checks probes kv) in
    let report := fst (Fleet.runFleetHealthCheck probe before) in
    Session.kv_get (Fleet.failKey (Fleet.w_name w)) before
    = (if Fleet.streak w probes =? 0 then None else Some (Fleet.streak w probes))
    /\ ((exists a, In a (Fleet.alerts report)
                   /\ Fleet.a_worker a = Fleet.w_name w)
        <-> 3 <= Fleet.streak w (probes ++ [probe]))
    /\ (forall a, In a (Fleet.alerts report) ->
                  Fleet.a_worker a = Fleet.w_name w ->
                  Fleet.a_consecutiveFailures a = Fleet.streak w (probes ++ [probe])).
Proof.
  intros probes probe kv w Hin H0. cbv zeta.
  pose proof (FleetFacts.counter_is_streak w probes kv Hin H0) as Hc.
  split; [exact Hc|].
  destruct (FleetFacts.run_counter probe (snd (Fleet.checks probes kv)) w Hin)
    as [_ Ha].
  cbv zeta in Ha.
  assert (Hp : Fleet.prev (Fleet.w_name w) (snd (Fleet.checks probes kv))
               = Fleet.streak w probes).
  { unfold Fleet.prev. rewrite Hc.
    destruct (Fleet.streak w probes =? 0) eqn:Ez; [|reflexivity].
    apply Z.eqb_eq in Ez. symmetry. exact Ez. }
  rewrite Hp in Ha. rewrite FleetFacts.streak_snoc.
  assert (Hf : forall a, In a (Fleet.alerts
                                 (fst (Fleet.runFleetHealthCheck probe
                                         (snd (Fleet.checks probes kv)))))
                         /\ Fleet.a_worker a = Fleet.w_name w
                         <-> In a (filter (Fleet.about (Fleet.w_name w))
                                     (Fleet.alerts
                                        (fst (Fleet.runFleetHealthCheck probe
                                                (snd (Fleet.checks probes kv))))))).
  { intros a. rewrite filter_In. unfold Fleet.about.
    split; intros [H1 H2]; (split; [exact H1|]);
      [apply String.eqb_eq; exact H2|apply String.eqb_eq in H2; exact H2]. }
  pose proof (FleetFacts.streak_nonneg w probes) as Hs.
  unfold Fleet.consecutiveFailures in Ha.
  split.
  - split.
    + intros (a & Ha1 & Ha2).
      assert (X := proj1 (Hf a) (conj Ha1 Ha2)). rewrite Ha in X.
      destruct (Fleet.failing _); cbn [andb] in X; [|destruct X].
      destruct (3 <=? _) eqn:E3; [|destruct X].
      apply Z.leb_le in E3. exact E3.
    + intros H3.
      destruct (Fleet.failing _); cbn [andb] in Ha; [|lia].
      assert (E3 : (3 <=? Fleet.streak w probes + 1) = true)
        by (apply Z.leb_le; exact H3).
      rewrite E3 in Ha.
      exists (Fleet.raised (Fleet.checkWorkerHealth w (probe w))
                (Fleet.streak w probes + 1)).
      apply Hf. rewrite Ha. left. reflexivity.
  - intros a Ha1 Ha2.
    assert (X := proj1 (Hf a) (conj Ha1 Ha2)). rewrite Ha in X.
    destruct (Fleet.failing _); cbn [andb] in X; [|destruct X].
    destruct (3 <=? _); [|destruct X].
    destruct X as [<-|[]]. reflexivity.
Qed.

Lemma alert_from_third_failure_in_a_row_witness :
  exists a,
    In a (Fleet.alerts
            (fst (Fleet.runFleetHealthCheck Fleet.agent_down
                    (snd (Fleet.checks [Fleet.agent_down; Fleet.agent_down] [])))))
    /\ Fleet.a_worker a = "proof-agent".
Proof.
  destruct (alert_from_third_failure_in_a_row
              [Fleet.agent_down; Fleet.agent_down] Fleet.agent_down []
              Fleet.proof_agent) as (_ & H & _).
  - cbn. tauto.
  - reflexivity.
  - apply H. vm_compute. discriminate.
Defined.

(* ===================================================================== *)
(** * The demo sandbox *)
(* ===================================================================== *)
Module DemoFacts.
Import Demo.

Lemma hits_cons id l : hits (id :: l) = (if found id then 1 else 0) + hits l.
Proof.
  unfold hits. cbn [filter]. destruct (found id); cbn [List.length]; lia.
Qed.

Lemma hits_nonneg l : 0 <= hits l.
Proof. unfold hits. lia. Qed.

Lemma known_found id : known id = true -> found id = true.
Proof. unfold found. intros ->. reflexivity. Qed.

(** What one request does, by the kind of its scenario id. *)
Lemma handleDemo_limited id kv ip date :
  handleDemo id (Some kv) ip date
  = if negb (found id) then (D404, Some kv)
    else if 10 <=? current ip date kv then (D429, Some kv)
    else (if known id then D200 (10 - current ip date kv - 1) else D500,
          Some ((key ip date, current ip date kv + 1) :: kv)).
Proof.
  unfold handleDemo, checkDemoRateLimit.
  destruct (found id); cbn [negb]; [|reflexivity].
  destruct (10 <=? current ip date kv); cbn [allowed negb remaining];
    [reflexivity|].
  destruct (known id); reflexivity.
Qed.

Lemma requests_from ip date ids : forall responses kv,
  0 <= current ip date kv <= 10 ->
  exists rs kv',
    fold_left (step ip date) ids (responses, Some kv)
    = ((responses ++ rs)%list, Some kv')
    /\ current ip date kv' = Z.min (current ip date kv + hits ids) 10
    /\ Z.of_nat (List.length (filter counted rs))
       = Z.min (current ip date kv + hits ids) 10 - current ip date kv
    /\ (sound ids = true -> filter served rs = filter counted rs).
Proof.
  induction ids as [|id ids IH]; intros responses kv Hc.
  - exists [], kv. rewrite app_nil_r. unfold hits. cbn.
    repeat split; try lia.
  - rewrite hits_cons. pose proof (hits_nonneg ids) as Ht.
    cbn [fold_left]. unfold step at 2. rewrite handleDemo_limited.
    cbn [sound forallb].
    destruct (found id) eqn:Ef; cbn [negb].
    + destruct (10 <=? current ip date kv) eqn:E.
      * apply Z.leb_le in E.
        destruct (IH (responses ++ [D429])%list kv Hc)
          as (rs & kv' & Er & H1 & H2 & H3).
        exists (D429 :: rs), kv'. rewrite Er, <- app_assoc.
        cbn [app filter served counted].
        split; [reflexivity|]. split; [lia|]. split; [lia|].
        intros Hs. apply andb_prop in Hs. apply H3, Hs.
      * apply Z.leb_gt in E.
        set (kv1 := (key ip date, current ip date kv + 1) :: kv).
        assert (E1 : current ip date kv1 = current ip date kv + 1).
        { unfold current at 1. subst kv1. cbn [Session.kv_get].
          rewrite String.eqb_refl. reflexivity. }
        set (r := if known id then D200 (10 - current ip date kv - 1) else D500).
        assert (Hr : counted r = true) by (subst r; destruct (known id); reflexivity).
        destruct (IH (responses ++ [r])%list kv1)
          as (rs & kv' & Er & H1 & H2 & H3); [lia|].
        exists (r :: rs), kv'.
        rewrite Er, <- app_assoc. cbn [app filter]. rewrite Hr.
        cbn [List.length].
        split; [reflexivity|]. split; [lia|]. split; [lia|].
        intros Hs. apply andb_prop in Hs. destruct Hs as [Hk Hs].
        rewrite orb_false_r in Hk. subst r. rewrite Hk. cbn [served].
        rewrite (H3 Hs). reflexivity.
    + destruct (IH (responses ++ [D404])%list kv Hc)
        as (rs & kv' & Er & H1 & H2 & H3).
      exists (D404 :: rs), kv'. rewrite Er, <- app_assoc.
      cbn [app filter served counted].
      split; [reflexivity|]. split; [lia|]. split; [lia|].
      intros Hs. apply andb_prop in Hs. apply H3, Hs.
Qed.

Lemma requests_unbound ip date ids : forall responses,
  fold_left (step ip date) ids (responses, None)
  = ((responses ++ map unlimited ids)%list, None).
Proof.
  induction ids as [|id ids IH]; intros responses.
  - cbn. rewrite app_nil_r. reflexivity.
  - cbn [fold_left map]. unfold step at 2, handleDemo, unlimited, found.
    destruct (known id); cbn [orb negb checkDemoRateLimit allowed remaining];
      [rewrite IH, <- app_assoc; reflexivity|].
    destruct (Obj.inherited id); cbn [negb checkDemoRateLimit allowed remaining];
      rewrite IH, <- app_assoc; reflexivity.
Qed.

End DemoFacts.

(** X17. The demo sandbox counts an address ten demos a day.  Of the
    requests of one address on one day, those whose scenario id is found
    in [DEMO_SCENARIOS] - the id of a scenario, or a name that the object
    inherits from [Object.prototype] - are counted until ten have been,
    and each one after that is refused with 429.  A counted request for a
    scenario is served and told how many demos are left; one for an
    inherited name is answered 500 although it used up a demo.  The
    counter stands at the number counted, and when no request names an
    inherited member these are the requests served.  A request for an id
    that is not found uses up nothing.  Without the rate limit binding
    every request for a scenario is served, with ten reported as
    remaining. *)
Theorem ten_demos_a_day :
  forall ids ip date,
    (forall kv,
        Session.kv_get (Demo.key ip date) kv = None ->
        exists responses kv',
          Demo.requests ids (Some kv) ip date = (responses, Some kv')
          /\ Z.of_nat (List.length (filter Demo.counted responses))
             = Z.min (Demo.hits ids) 10
          /\ (Demo.sound ids = true ->
              Z.of_nat (List.length (filter Demo.served responses))
              = Z.min (Demo.hits ids) 10)
          /\ Demo.current ip date kv' = Z.min (Demo.hits ids) 10
          /\ (forall id,
                Demo.found id = true ->
                fst (Demo.handleDemo id (Some kv') ip date)
                = (if Demo.hits ids <? 10
                   then if Demo.known id then Demo.D200 (9 - Demo.hits ids)
                        else Demo.D500
                   else Demo.D429))
          /\ (forall id,
                Demo.found id = false ->
                Demo.handleDemo id (Some kv') ip date = (Demo.D404, Some kv')))
    /\ Demo.requests ids None ip date = (map Demo.unlimited ids, None).
Proof.
  intros ids ip date. split.
  - intros kv H0.
    assert (Hc : Demo.current ip date kv = 0)
      by (unfold Demo.current; rewrite H0; reflexivity).
    destruct (DemoFacts.requests_from ip date ids [] kv)
      as (rs & kv' & Ef & H1 & H2 & H3); [lia|].
    rewrite Hc in H1, H2. cbn [Z.add] in H1, H2.
    exists rs, kv'. unfold Demo.requests. rewrite Ef.
    split; [reflexivity|]. split; [lia|].
    split; [intros Hs; rewrite (H3 Hs); lia|].
    split; [exact H1|].
    pose proof (DemoFacts.hits_nonneg ids) as Ht.
    split.
    + intros id Hf. rewrite DemoFacts.handleDemo_limited, Hf, H1. cbn [negb].
      destruct (Demo.hits ids <? 10) eqn:E.
      * apply Z.ltb_lt in E. rewrite Z.min_l by lia.
        assert ((10 <=? Demo.hits ids) = false) as -> by (apply Z.leb_gt; lia).
        cbn [fst]. destruct (Demo.known id); [f_equal; lia|reflexivity].
      * apply Z.ltb_ge in E. rewrite Z.min_r by lia. reflexivity.
    + intros id Hf. rewrite DemoFacts.handleDemo_limited, Hf. reflexivity.
  - unfold Demo.requests. rewrite DemoFacts.requests_unbound. reflexivity.
Qed.

Lemma ten_demos_a_day_witness :
  (exists responses kv',
    Demo.requests (repeat "vetproof" 12) (Some []) "203.0.113.7" "2026-01-01"
    = (responses, Some kv')
    /\ Z.of_nat (List.length (filter Demo.served responses)) = 10)
  /\ Demo.handleDemo "toString" (Some []) "203.0.113.7" "2026-01-01"
     = (Demo.D500, Some [("demo:203.0.113.7:2026-01-01", 1)]).
Proof.
  destruct (ten_demos_a_day (repeat "vetproof" 12) "203.0.113.7" "2026-01-01")
    as [H _].
  destruct (H [] eq_refl) as (responses & kv' & E & _ & Hn & _).
  split; [|reflexivity].
  exists responses, kv'. split; [exact E|]. rewrite Hn; reflexivity.
Defined.





(* ===================================================================== *)
(** * Replies that do not parse *)
(* ===================================================================== *)
Module AnalysisFacts.

Lemma default_halts k v :
  Collective.find k Collective.VERTICALS = Some v ->
  JS.lt (Analysis.confidence Analysis.default_analysis) (Collective.halt_threshold v)
  = true.
Proof.
  unfold Collective.VERTICALS. cbn [Collective.find].
  repeat match goal with
         | |- context [String.eqb ?a k] => destruct (String.eqb a k)
         end;
    intros [= <-]; vm_compute; reflexivity.
Qed.

End AnalysisFacts.

(** X20. A reply of the model that does not parse never lets a claim
    through.  At the HITL gate the claim goes to a reviewer whatever the
    halt threshold, the priority and the claim are: a run that returns
    reports the risk as [critical] and its decision is the reviewer's, and
    the run returns when it can read the queue of pending reviews.  In the
    collective the run halts in every vertical, with the risk [critical],
    and stores no shards. *)
Theorem unparsed_reply_is_held_back :
  (forall stringify sha256 claim priority w e,
      Hitl.w_screening w = None ->
      let out := Hitl.run stringify sha256 claim priority w e in
      HitlSpec.gated e claim priority w = true
      /\ (forall o,
            fst out = JS.Returns o ->
            Hitl.o_risk_level o = "critical"
            /\ Hitl.o_decision o = Hitl.d_decision (Hitl.w_event w)
            /\ Hitl.o_auto_approved o = Hitl.d_auto (Hitl.w_event w))
      /\ (HitlSpec.queue_readable e claim w = true ->
          exists o, fst out = JS.Returns o))
  /\ (forall vertical v,
      Collective.find vertical Collective.VERTICALS = Some v ->
      exists h,
        Analysis.haltCheck vertical None = Some h
        /\ Collective.halt_triggered h = true
        /\ Collective.risk_level h = "critical"
        /\ forall count, Analysis.stores_shards count h = false).
Proof.
  split.
  - intros stringify sha256 claim priority w e Hs. cbv zeta.
    assert (Hg : HitlSpec.gated e claim priority w = true).
    { unfold HitlSpec.gated, HitlSpec.screened. rewrite Hs. reflexivity. }
    split; [exact Hg|].
    unfold HitlSpec.gated, HitlSpec.screened in Hg.
    unfold Hitl.run. cbv zeta. rewrite Hg. rewrite Hs.
    fold (HitlSpec.claimId claim w).
    split.
    + intros o.
      destruct (Json.lookup "hitl:pending:index" _) as [[]|];
        cbn [fst]; try discriminate; intros [= <-]; repeat split.
    + intros Hq.
      match goal with
      | |- context [Json.lookup "hitl:pending:index" ((_, ?p) :: _)] =>
          destruct (HitlFacts.gate_opens e claim w p Hq) as [Hl|(l & Hl)]
      end; rewrite Hl; eexists; reflexivity.
  - intros vertical v Hf.
    pose proof (AnalysisFacts.default_halts vertical v Hf) as Hh.
    unfold Analysis.haltCheck, Collective.halt_check_of, Collective.route.
    rewrite Hf. eexists. split; [reflexivity|].
    cbn [Collective.halt_triggered Collective.risk_level
         Collective.constitutional_halt Analysis.domainAnalysis].
    rewrite Hh. split; [reflexivity|]. split; [reflexivity|].
    intros count. unfold Analysis.stores_shards.
    cbn [Collective.halt_triggered Collective.constitutional_halt].
    rewrite Hh. apply andb_false_r.
Qed.

Lemma unparsed_reply_is_held_back_witness :
  HitlSpec.gated HitlExamples.empty HitlExamples.tinnitus None Analysis.garbled = true
  /\ exists h, Analysis.haltCheck "education" None = Some h
               /\ Collective.halt_triggered h = true.
Proof.
  destruct unparsed_reply_is_held_back as [H1 H2].
  split.
  - apply (H1 Examples.keys_of Examples.tagged HitlExamples.tinnitus None
              Analysis.garbled HitlExamples.empty eq_refl).
  - destruct (H2 "education"
                {| Collective.v_name := "EduProof";
                   Collective.ai_model := "@cf/meta/llama-3.1-8b-instruct";
                   Collective.halt_threshold := 0.65%float |} eq_refl)
      as (h & Hh & Ht & _).
    exists h. split; [exact Hh|exact Ht].
Defined.


